(** * i2c-osb4: the ServerWorks OSB4 SMBus host driver

    A shallow embedding of [kernel/busses/i2c-osb4.c].  Port I/O is modelled
    by an explicit trace of events; the hardware is an arbitrary function from
    the history of events to the value the next port read returns.  What
    [printk] logs is left out; the port reads a [DEBUG] build makes for its
    log are kept. *)

From Stdlib Require Import Ascii String.
From Stdlib Require Import ZArith List Lia Bool.
From Equations Require Import Equations.
Import ListNotations.
Open Scope Z_scope.

(** ** Machine integers *)

(** Conversion to [unsigned char]: what [inb] returns and [outb] sends. *)
Definition u8 (v : Z) : Z := v mod 256.

(** Conversion to [unsigned short]. *)
Definition u16 (v : Z) : Z := v mod 65536.

(** A C condition: an [int] is true when it is not zero. *)
Definition nonzero (v : Z) : bool := negb (v =? 0).

(** ** Constants of the source file *)

Definition MAX_TIMEOUT : Z := 500.
Definition ENABLE_INT9 : Z := 0.

Definition OSB4_QUICK : Z := 0x00.
Definition OSB4_BYTE : Z := 0x04.
Definition OSB4_BYTE_DATA : Z := 0x08.
Definition OSB4_WORD_DATA : Z := 0x0C.
Definition OSB4_BLOCK_DATA : Z := 0x14.

(** PCI configuration space offsets. *)
Definition SMBBA : Z := 0x090.
Definition SMBHSTCFG : Z := 0x0D2.

(** ** Port I/O *)

(** What the driver does to the outside world, in program order. *)
Inductive event : Type :=
| EvIn (port v : Z)     (* inb(port) or inb_p(port) returned v *)
| EvOut (v port : Z)    (* outb_p(v, port) *)
| EvPause (amount : Z). (* osb4_do_pause(amount) *)

Definition trace : Type := list event.

(** The driver's computations: they extend the trace and return a value. *)
Definition IO (A : Type) : Type := trace -> A * trace.

Definition ret {A} (a : A) : IO A := fun tr => (a, tr).

Definition bind {A B} (m : IO A) (k : A -> IO B) : IO B :=
  fun tr => let (a, tr1) := m tr in k a tr1.

Notation "x <- m ;; k" := (bind m (fun x => k))
  (at level 61, m at next level, right associativity).
Notation "' pat <- m ;; k" := (bind m (fun x => match x with pat => k end))
  (at level 61, pat pattern, m at next level, right associativity).
Notation "m ;;; k" := (bind m (fun _ => k))
  (at level 61, right associativity).

(** The values written to one port, oldest first. *)
Fixpoint writes_to (port : Z) (tr : trace) : list Z :=
  match tr with
  | [] => []
  | EvOut v p :: tr' =>
      if p =? port then v :: writes_to port tr' else writes_to port tr'
  | _ :: tr' => writes_to port tr'
  end.

(** The number of calls of [osb4_do_pause]. *)
Fixpoint pauses (tr : trace) : nat :=
  match tr with
  | [] => O
  | EvPause _ :: tr' => S (pauses tr')
  | _ :: tr' => pauses tr'
  end.

(** ** What <linux/i2c.h> declares

    The header is not part of the source file.  Its constants are taken as
    parameters; C requires the labels of one [switch] to be distinct. *)
Record i2c_h : Type := {
  I2C_SMBUS_WRITE : Z;
  I2C_SMBUS_QUICK : Z;
  I2C_SMBUS_BYTE : Z;
  I2C_SMBUS_BYTE_DATA : Z;
  I2C_SMBUS_WORD_DATA : Z;
  I2C_SMBUS_PROC_CALL : Z;
  I2C_SMBUS_BLOCK_DATA : Z }.

(** The [case] labels of the first [switch] of [osb4_access], in the order
    of the source. *)
Definition case_labels (K : i2c_h) : list Z :=
  [ I2C_SMBUS_PROC_CALL K; I2C_SMBUS_QUICK K; I2C_SMBUS_BYTE K;
    I2C_SMBUS_BYTE_DATA K; I2C_SMBUS_WORD_DATA K; I2C_SMBUS_BLOCK_DATA K ].

(** The caller's [union i2c_smbus_data], seen through the pointer [data]:
    the cell at each offset from [data->block].  Offsets past the end of the
    union are the memory that follows it.  [byte] is the cell at offset 0 and
    [word] the cells at offsets 0 and 1, low byte first (the OSB4 is an x86
    south bridge).  Every store of the driver puts a byte in a cell.  The
    element type of [block] is declared in the header: a read of a cell
    returns what the cell holds, so that the test [len < 0] of the block
    write is not vacuous. *)
Definition mem : Type := Z -> Z.

Definition store (data : mem) (i v : Z) : mem :=
  fun j => if j =? i then v else data j.

Definition data_byte (data : mem) : Z := data 0.
Definition data_word (data : mem) : Z := data 0 + 256 * data 1.
Definition set_data_byte (data : mem) (v : Z) : mem := store data 0 (u8 v).
Definition set_data_word (data : mem) (v : Z) : mem :=
  store (store data 0 (u8 v)) 1 (Z.shiftr (u16 v) 8).

(** The measure under which the polling loop terminates: how many more
    times the test [timeout++ < MAX_TIMEOUT] can succeed. *)
Definition retries_left (timeout : Z) : nat := Z.to_nat (MAX_TIMEOUT - timeout).

Lemma retries_left_decr (timeout : Z) :
  timeout < MAX_TIMEOUT ->
  (retries_left (timeout + 1) < retries_left timeout)%nat.
Proof. unfold retries_left. lia. Qed.

(** The measure of a loop [for (...; i <= len; i++)]. *)
Definition span (len i : Z) : nat := Z.to_nat (len + 1 - i).

Lemma span_decr (len i : Z) : i <= len -> (span len (i + 1) < span len i)%nat.
Proof. unfold span. lia. Qed.

(** The order in which the compiled code evaluates the two operands of a
    binary operator.  C leaves it to the compiler. *)
Inductive operand_order : Type := LeftFirst | RightFirst.

Section Driver.

(** The controller: the byte a read of [port] returns after the history
    [tr].  Nothing is assumed of it. *)
Variable dev : trace -> Z -> Z.

(** The base I/O address found by [osb4_setup]. *)
Variable osb4_smba : Z.

(** Whether the file is compiled with [DEBUG] defined. *)
Variable DEBUG : bool.

(** OSB4 SMBus address offsets. *)
Definition SMBHSTSTS : Z := 0 + osb4_smba.
Definition SMBHSTCNT : Z := 2 + osb4_smba.
Definition SMBHSTCMD : Z := 3 + osb4_smba.
Definition SMBHSTADD : Z := 4 + osb4_smba.
Definition SMBHSTDAT0 : Z := 5 + osb4_smba.
Definition SMBHSTDAT1 : Z := 6 + osb4_smba.
Definition SMBBLKDAT : Z := 7 + osb4_smba.

Definition inb (port : Z) : IO Z :=
  fun tr => let v := u8 (dev tr port) in (v, tr ++ [EvIn port v]).

(** [inb_p] is [inb] followed by an I/O delay; the delay is not modelled. *)
Definition inb_p (port : Z) : IO Z := inb port.

Definition outb_p (v port : Z) : IO unit :=
  fun tr => (tt, tr ++ [EvOut (u8 v) port]).

(** ** osb4_do_pause *)
Definition osb4_do_pause (amount : Z) : IO unit :=
  fun tr => (tt, tr ++ [EvPause amount]).

(** ** osb4_transaction *)

(** The polling loop
    [do { osb4_do_pause(1); temp = inb_p(SMBHSTSTS); }
     while ((temp & 0x01) && (timeout++ < MAX_TIMEOUT));]
    started with the counter at [timeout].  It returns [temp] and the
    counter.  The counter is incremented only when bit 0 of [temp] is set,
    also on the test that ends the loop. *)
Equations? osb4_poll (timeout : Z) (tr : trace) : (Z * Z) * trace
  by wf (retries_left timeout) lt :=
  osb4_poll timeout tr with inb_p SMBHSTSTS (snd (osb4_do_pause 1 tr)) => {
    | (temp, tr2) with nonzero (Z.land temp 0x01) => {
      | false := ((temp, timeout), tr2)
      | true with Z_lt_dec timeout MAX_TIMEOUT => {
        | left _ := osb4_poll (timeout + 1) tr2
        | right _ := ((temp, timeout + 1), tr2) } } }.
Proof. apply retries_left_decr; assumption. Qed.

(** The value of [result] after the four tests that follow the loop.  The
    assignment under [timeout >= MAX_TIMEOUT] is inside [#ifdef DEBUG]. *)
Definition osb4_result (temp timeout : Z) : Z :=
  let result := 0 in
  let result :=
    if MAX_TIMEOUT <=? timeout then (if DEBUG then -1 else result)
    else result in
  let result := if nonzero (Z.land temp 0x10) then -1 else result in
  let result := if nonzero (Z.land temp 0x08) then -1 else result in
  let result := if nonzero (Z.land temp 0x04) then -1 else result in
  result.

(** The register dump a [DEBUG] build logs at each end of the transaction:
    five reads, taken here in the order of the [printk] arguments (C leaves
    the order to the compiler).  Without [DEBUG] nothing is compiled. *)
Definition osb4_dump : IO unit :=
  if DEBUG then
    inb_p SMBHSTCNT ;;; inb_p SMBHSTCMD ;;; inb_p SMBHSTADD ;;;
    inb_p SMBHSTDAT0 ;;; inb_p SMBHSTDAT1 ;;; ret tt
  else ret tt.

(** "Make sure the SMBus host is ready to start transmitting": [true] when
    the function goes on, [false] when it executes [return -1]. *)
Definition osb4_busy_check : IO bool :=
  temp <- inb_p SMBHSTSTS ;;
  if nonzero temp then
    outb_p temp SMBHSTSTS ;;;
    temp <- inb_p SMBHSTSTS ;;
    if nonzero temp then ret false else ret true
  else ret true.

(** "start the transaction by setting bit 6":
    [outb_p(inb(SMBHSTCNT) | 0x040, SMBHSTCNT)]. *)
Definition osb4_start : IO unit :=
  cnt <- inb SMBHSTCNT ;;
  outb_p (Z.lor cnt 0x040) SMBHSTCNT.

(** The reset of the status register at the end of the transaction. *)
Definition osb4_clear_status : IO unit :=
  sts <- inb_p SMBHSTSTS ;;
  (if nonzero sts
   then sts' <- inb SMBHSTSTS ;; outb_p sts' SMBHSTSTS
   else ret tt) ;;;
  temp <- inb_p SMBHSTSTS ;;
  ret tt.

Definition osb4_transaction : IO Z :=
  osb4_dump ;;;
  ready <- osb4_busy_check ;;
  if ready then
    osb4_start ;;;
    '(temp, timeout) <- osb4_poll 0 ;;
    let result := osb4_result temp timeout in
    osb4_clear_status ;;;
    osb4_dump ;;;
    ret result
  else ret (-1).

(** ** osb4_access *)

Variable K : i2c_h.

(** [((addr & 0x7f) << 1) | (read_write & 0x01)] *)
Definition addr_byte (addr read_write : Z) : Z :=
  Z.lor (Z.shiftl (Z.land addr 0x7f) 1) (Z.land read_write 0x01).

(** [len = data->block[0]; if (len < 0) len = 0; if (len > 32) len = 32;] *)
Definition block_len (data : mem) : Z :=
  let len := data 0 in
  let len := if len <? 0 then 0 else len in
  let len := if 32 <? len then 32 else len in
  len.

(** [for (i = ...; i <= len; i++) outb_p(data->block[i], SMBBLKDAT);] *)
Equations? block_out (data : mem) (len i : Z) (tr : trace) : unit * trace
  by wf (span len i) lt :=
  block_out data len i tr with Z_le_dec i len => {
    | left _ := block_out data len (i + 1) (snd (outb_p (data i) SMBBLKDAT tr))
    | right _ := (tt, tr) }.
Proof. apply span_decr; assumption. Qed.

(** [for (i = ...; i <= data->block[0]; i++) data->block[i] = inb_p(SMBBLKDAT);]
    The bound is read from memory at each test.  The counter starts at 1 and
    only grows, so it is a [positive] here: the store never hits
    [data->block[0]]. *)
Equations? block_in (data : mem) (i : positive) (tr : trace) : mem * trace
  by wf (span (data 0) (Z.pos i)) lt :=
  block_in data i tr with Z_le_dec (Z.pos i) (data 0) => {
    | left _ with inb_p SMBBLKDAT tr => {
      | (v, tr1) := block_in (store data (Z.pos i) v) (Pos.succ i) tr1 }
    | right _ := (data, tr) }.
Proof.
  unfold store; cbn [Z.eqb]. rewrite Pos2Z.inj_succ.
  apply span_decr; assumption.
Qed.

(** The first [switch]: it loads the registers and replaces [size] by the
    OSB4 code.  [None] stands for the [return -1] of the procedure call
    case; without a [default], any other [size] is left as it is. *)
Definition osb4_load (addr read_write command size : Z) (data : mem)
  : IO (option Z) :=
  if size =? I2C_SMBUS_PROC_CALL K then ret None
  else if size =? I2C_SMBUS_QUICK K then
    outb_p (addr_byte addr read_write) SMBHSTADD ;;;
    ret (Some OSB4_QUICK)
  else if size =? I2C_SMBUS_BYTE K then
    outb_p (addr_byte addr read_write) SMBHSTADD ;;;
    (if read_write =? I2C_SMBUS_WRITE K
     then outb_p command SMBHSTCMD else ret tt) ;;;
    ret (Some OSB4_BYTE)
  else if size =? I2C_SMBUS_BYTE_DATA K then
    outb_p (addr_byte addr read_write) SMBHSTADD ;;;
    outb_p command SMBHSTCMD ;;;
    (if read_write =? I2C_SMBUS_WRITE K
     then outb_p (data_byte data) SMBHSTDAT0 else ret tt) ;;;
    ret (Some OSB4_BYTE_DATA)
  else if size =? I2C_SMBUS_WORD_DATA K then
    outb_p (addr_byte addr read_write) SMBHSTADD ;;;
    outb_p command SMBHSTCMD ;;;
    (if read_write =? I2C_SMBUS_WRITE K
     then outb_p (Z.land (data_word data) 0xff) SMBHSTDAT0 ;;;
          outb_p (Z.shiftr (Z.land (data_word data) 0xff00) 8) SMBHSTDAT1
     else ret tt) ;;;
    ret (Some OSB4_WORD_DATA)
  else if size =? I2C_SMBUS_BLOCK_DATA K then
    outb_p (addr_byte addr read_write) SMBHSTADD ;;;
    outb_p command SMBHSTCMD ;;;
    (if read_write =? I2C_SMBUS_WRITE K
     then let len := block_len data in
          outb_p len SMBHSTDAT0 ;;;
          i <- inb_p SMBHSTCNT ;;
          block_out data len 1
     else ret tt) ;;;
    ret (Some OSB4_BLOCK_DATA)
  else ret (Some size).

(** The order the compiler chose for the two reads of
    [inb_p(SMBHSTDAT0) + (inb_p(SMBHSTDAT1) << 8)]. *)
Variable word_order : operand_order.

(** The second [switch]: what a read copies back into [data].  The two reads
    of the word case are the operands of one [+]: they happen in the order
    [word_order]. *)
Definition osb4_read_back (size : Z) (data : mem) : IO mem :=
  if size =? OSB4_BYTE then
    v <- inb_p SMBHSTDAT0 ;; ret (set_data_byte data v)
  else if size =? OSB4_BYTE_DATA then
    v <- inb_p SMBHSTDAT0 ;; ret (set_data_byte data v)
  else if size =? OSB4_WORD_DATA then
    match word_order with
    | LeftFirst =>
        lo <- inb_p SMBHSTDAT0 ;;
        hi <- inb_p SMBHSTDAT1 ;;
        ret (set_data_word data (lo + Z.shiftl hi 8))
    | RightFirst =>
        hi <- inb_p SMBHSTDAT1 ;;
        lo <- inb_p SMBHSTDAT0 ;;
        ret (set_data_word data (lo + Z.shiftl hi 8))
    end
  else if size =? OSB4_BLOCK_DATA then
    len <- inb_p SMBHSTDAT0 ;;
    i <- inb_p SMBHSTCNT ;;
    block_in (store data 0 len) 1%positive
  else ret data.

(** The function returns its [s32] result and leaves the caller's data as
    the second component.  [adap] and [flags] are not used by the source. *)
Definition osb4_access (addr flags read_write command size : Z) (data : mem)
  : IO (Z * mem) :=
  loaded <- osb4_load addr read_write command size data ;;
  match loaded with
  | None => ret (-1, data)
  | Some size =>
      outb_p (Z.land size 0x1C + Z.land ENABLE_INT9 1) SMBHSTCNT ;;;
      err <- osb4_transaction ;;
      if nonzero err then ret (-1, data)
      else if (read_write =? I2C_SMBUS_WRITE K) || (size =? OSB4_QUICK)
      then ret (0, data)
      else data' <- osb4_read_back size data ;; ret (0, data')
  end.

End Driver.

(** ** osb4_setup *)

(** What [osb4_setup] does to the platform, in program order. *)
Inductive pci_event : Type :=
| PciWriteByte (where_ v : Z)      (* pci_write_config_byte(OSB4_dev, where, v) *)
| PciWriteWord (where_ v : Z)      (* pci_write_config_word(OSB4_dev, where, v) *)
| RequestRegion (from extent : Z). (* request_region(from, extent, ...) *)

(** A PCI function with the vendor and device id of the OSB4: its [devfn]
    and its configuration space as [osb4_setup] finds it. *)
Record pci_dev : Type := {
  devfn : Z;
  config : Z -> Z }.

(** The platform services [osb4_setup] calls. *)
Record platform : Type := {
  pci_present : Z;
  (* the devices [pci_find_device] returns for the OSB4 ids, in its order *)
  osb4_devices : list pci_dev;
  check_region : Z -> Z -> Z }.

(** The module parameters and the global [osb4_smba]. *)
Record globals : Type := {
  force : Z;
  force_addr : Z;
  smba : Z }.

Section Setup.

(** [ENODEV] of <linux/errno.h> and [PCI_FUNC] of <linux/pci.h>, which are
    not part of the source file. *)
Variable ENODEV : Z.
Variable PCI_FUNC : Z -> Z.

Variable P : platform.

(** "we keep on searching until we have found 'function 0'":
    [do OSB4_dev = pci_find_device(..., OSB4_dev);
     while (OSB4_dev && (PCI_FUNC(OSB4_dev->devfn) != 0));] *)
Fixpoint find_function0 (devs : list pci_dev) : option pci_dev :=
  match devs with
  | [] => None
  | d :: rest =>
      if nonzero (PCI_FUNC (devfn d)) then find_function0 rest else Some d
  end.

(** "Determine the address of the SMBus areas" *)
Definition osb4_locate (OSB4_dev : pci_dev) (g : globals) : globals :=
  if nonzero (force_addr g) then
    {| force := 0;
       force_addr := force_addr g;
       smba := u16 (Z.land (force_addr g) 0xfff0) |}
  else
    {| force := force g;
       force_addr := force_addr g;
       smba := Z.land (u16 (config OSB4_dev SMBBA)) 0xfff0 |}.

(** The function returns [error_return]; the globals it leaves and the
    configuration writes and region request it made come with it. *)
Definition osb4_setup (g : globals) : Z * globals * list pci_event :=
  if pci_present P =? 0 then (- ENODEV, g, [])
  else
    match find_function0 (osb4_devices P) with
    | None => (- ENODEV, g, [])
    | Some OSB4_dev =>
        let g := osb4_locate OSB4_dev g in
        if nonzero (check_region P (smba g) 8) then (- ENODEV, g, [])
        else
          let temp := u8 (config OSB4_dev SMBHSTCFG) in
          if nonzero (force_addr g) then
            (0, g,
             [ PciWriteByte SMBHSTCFG (Z.land temp 0xfe);
               PciWriteWord SMBBA (smba g);
               PciWriteByte SMBHSTCFG (Z.lor temp 0x01);
               RequestRegion (smba g) 8 ])
          else if Z.land temp 1 =? 0 then
            if nonzero (force g) then
              (0, g,
               [ PciWriteByte SMBHSTCFG (Z.lor temp 1);
                 RequestRegion (smba g) 8 ])
            else (- ENODEV, g, [])
          else (0, g, [ RequestRegion (smba g) 8 ])
    end.

End Setup.

(** ** i2c_osb4_init and osb4_cleanup *)

(** What the module does at load and unload, in program order: the events of
    [osb4_setup], the calls of the adapter registry and the release of the
    I/O region. *)
Inductive module_event : Type :=
| EvSetup (e : pci_event)
| EvAddAdapter (name : string)       (* i2c_add_adapter(&osb4_adapter) *)
| EvDelAdapter                       (* i2c_del_adapter(&osb4_adapter) *)
| EvReleaseRegion (from extent : Z). (* release_region(from, extent) *)

(** The variables of the file: the module parameters and [osb4_smba], the
    counter [osb4_initialized] and [osb4_adapter.name]. *)
Record module_state : Type := {
  vars : globals;
  osb4_initialized : Z;
  adapter_name : string }.

(** One digit of the conversion [%x]. *)
Definition hex_digit (d : Z) : ascii :=
  if d <? 10 then ascii_of_nat (48 + Z.to_nat d)
  else ascii_of_nat (87 + Z.to_nat d).

(** The conversion [%04x] of an [unsigned short]: four digits, the highest
    first. *)
Definition hex04 (v : Z) : string :=
  String (hex_digit (v / 4096 mod 16))
    (String (hex_digit (v / 256 mod 16))
       (String (hex_digit (v / 16 mod 16))
          (String (hex_digit (v mod 16)) EmptyString))).

Section Lifecycle.

(** [ENODEV] and [EBUSY] of <linux/errno.h> and [PCI_FUNC] of <linux/pci.h>,
    which are not part of the source file. *)
Variable ENODEV : Z.
Variable EBUSY : Z.
Variable PCI_FUNC : Z -> Z.

Variable P : platform.

(** What the calls of [i2c_add_adapter] and of [i2c_del_adapter] return. *)
Variable i2c_add_adapter : Z.
Variable i2c_del_adapter : Z.

Definition set_initialized (st : module_state) (n : Z) : module_state :=
  {| vars := vars st; osb4_initialized := n; adapter_name := adapter_name st |}.

(** [if (osb4_initialized >= 1) { release_region(osb4_smba, 8);
    osb4_initialized--; } return 0;] after the events [evs]. *)
Definition osb4_cleanup_region (st : module_state) (evs : list module_event)
  : Z * module_state * list module_event :=
  if 1 <=? osb4_initialized st then
    (0, set_initialized st (osb4_initialized st - 1),
     evs ++ [EvReleaseRegion (smba (vars st)) 8])
  else (0, st, evs).

Definition osb4_cleanup (st : module_state)
  : Z * module_state * list module_event :=
  if 2 <=? osb4_initialized st then
    let res := i2c_del_adapter in
    if nonzero res then (res, st, [EvDelAdapter])
    else
      osb4_cleanup_region (set_initialized st (osb4_initialized st - 1))
        [EvDelAdapter]
  else osb4_cleanup_region st [].

(** [sprintf(osb4_adapter.name, "SMBus OSB4 adapter at %04x", osb4_smba)] *)
Definition osb4_name (osb4_smba : Z) : string :=
  ("SMBus OSB4 adapter at " ++ hex04 (u16 osb4_smba))%string.

(** The function calls [osb4_cleanup] on its two error paths and drops what
    it returns. *)
Definition i2c_osb4_init (st : module_state)
  : Z * module_state * list module_event :=
  if nonzero (osb4_initialized st) then (- EBUSY, st, [])
  else
    let st := set_initialized st 0 in
    let '(res, g, pci_evs) := osb4_setup ENODEV PCI_FUNC P (vars st) in
    let st := {| vars := g; osb4_initialized := osb4_initialized st;
                 adapter_name := adapter_name st |} in
    let evs := map EvSetup pci_evs in
    if nonzero res then
      let '(_, st, cleanup_evs) := osb4_cleanup st in
      (res, st, evs ++ cleanup_evs)
    else
      let st := set_initialized st (osb4_initialized st + 1) in
      let st := {| vars := vars st; osb4_initialized := osb4_initialized st;
                   adapter_name := osb4_name (smba (vars st)) |} in
      let res := i2c_add_adapter in
      let evs := evs ++ [EvAddAdapter (adapter_name st)] in
      if nonzero res then
        let '(_, st, cleanup_evs) := osb4_cleanup st in
        (res, st, evs ++ cleanup_evs)
      else
        (0, set_initialized st (osb4_initialized st + 1), evs).

(** With [MODULE] defined. *)
Definition init_module : module_state -> Z * module_state * list module_event :=
  i2c_osb4_init.
Definition cleanup_module
  : module_state -> Z * module_state * list module_event :=
  osb4_cleanup.

End Lifecycle.

(** A machine and a registry for one call of the module. *)
Record env : Type := {
  env_platform : platform;
  env_add_adapter : Z;
  env_del_adapter : Z }.

(** A call of one of the two entry points of the module, [init_module] or
    [cleanup_module]. *)
Inductive call : Type :=
| CallInit (e : env)
| CallCleanup (e : env).

(** The calls of a list, one after the other; the results are dropped. *)
Fixpoint run_calls (ENODEV EBUSY : Z) (PCI_FUNC : Z -> Z) (calls : list call)
    (st : module_state) : module_state * list module_event :=
  match calls with
  | [] => (st, [])
  | c :: rest =>
      let '(_, st1, evs1) :=
        match c with
        | CallInit e =>
            init_module ENODEV EBUSY PCI_FUNC (env_platform e)
              (env_add_adapter e) (env_del_adapter e) st
        | CallCleanup e => cleanup_module (env_del_adapter e) st
        end in
      let '(st2, evs2) := run_calls ENODEV EBUSY PCI_FUNC rest st1 in
      (st2, evs1 ++ evs2)
  end.

(** An I/O region is a pair: its first port and its length. *)

(** Whether the [extent] ports from [from] share a port with [r]. *)
Definition overlaps (from extent : Z) (r : Z * Z) : bool :=
  (fst r <? from + extent) && (from <? fst r + snd r).

Definition same_region (from extent : Z) (r : Z * Z) : bool :=
  (fst r =? from) && (snd r =? extent).

(** [held] without the region of [extent] ports from [from]; [None] when
    that region is not held. *)
Fixpoint remove_one (from extent : Z) (held : list (Z * Z))
  : option (list (Z * Z)) :=
  match held with
  | [] => None
  | r :: rest =>
      if same_region from extent r then Some rest
      else option_map (cons r) (remove_one from extent rest)
  end.

(** The I/O regions held after the events [evs], starting with [held].
    Each [request_region] adds its region and each [release_region] removes
    it.  The result is [None] as soon as the events misuse a region: a
    [request_region] of ports that are already held, or a [release_region]
    of a region that is not held. *)
Fixpoint regions_held (evs : list module_event) (held : list (Z * Z))
  : option (list (Z * Z)) :=
  match evs with
  | [] => Some held
  | EvSetup (RequestRegion b n) :: rest =>
      if existsb (overlaps b n) held then None
      else regions_held rest ((b, n) :: held)
  | EvReleaseRegion b n :: rest =>
      match remove_one b n held with
      | Some held' => regions_held rest held'
      | None => None
      end
  | _ :: rest => regions_held rest held
  end.

(** The module as the kernel loads it: [static] variables are zero,
    [osb4_adapter.name] is "unset". *)
Definition loaded (force force_addr : Z) : module_state :=
  {| vars := {| force := force; force_addr := force_addr; smba := 0 |};
     osb4_initialized := 0;
     adapter_name := "unset" |}.

(** ** What a trace may hold *)

(** The seven registers the file has a use for. *)
Definition registers (osb4_smba : Z) : list Z :=
  [ SMBHSTSTS osb4_smba; SMBHSTCNT osb4_smba; SMBHSTCMD osb4_smba;
    SMBHSTADD osb4_smba; SMBHSTDAT0 osb4_smba; SMBHSTDAT1 osb4_smba;
    SMBBLKDAT osb4_smba ].

(** A pause of one tick, or a byte read from or written to one of the seven
    registers. *)
Definition driver_event (osb4_smba : Z) (e : event) : Prop :=
  match e with
  | EvIn p v => In p (registers osb4_smba) /\ 0 <= v < 256
  | EvOut v p => In p (registers osb4_smba) /\ 0 <= v < 256
  | EvPause amount => amount = 1
  end.

(** An access to a port of the region [request_region(osb4_smba, 8)]
    reserves. *)
Definition in_region (osb4_smba : Z) (e : event) : Prop :=
  match e with
  | EvIn p _ => osb4_smba <= p < osb4_smba + 8
  | EvOut _ p => osb4_smba <= p < osb4_smba + 8
  | EvPause _ => True
  end.

(** Whether [e], coming right after [prev], is no write to [port] or writes
    to [port] the value [prev] read from it. *)
Definition is_writeback (port : Z) (prev : option event) (e : event) : bool :=
  match e with
  | EvOut v p =>
      if p =? port then
        match prev with
        | Some (EvIn q w) => (q =? port) && (w =? v)
        | _ => false
        end
      else true
  | _ => true
  end.

(** Whether every write to [port] in [tr] is such a write-back; [prev] is
    the event before [tr]. *)
Fixpoint writebacks (port : Z) (prev : option event) (tr : trace) : bool :=
  match tr with
  | [] => true
  | e :: tr' => is_writeback port prev e && writebacks port (Some e) tr'
  end.

(** ** Controllers used as concrete inputs *)

(** A controller whose data0 reads 0x34 and whose data1 reads 0x12; the
    other registers read 0. *)
Definition dev_word : trace -> Z -> Z :=
  fun _ port => if port =? 5 then 0x34 else if port =? 6 then 0x12 else 0.

(** A controller whose registers all read 0. *)
Definition dev_idle : trace -> Z -> Z := fun _ _ => 0.

(** A controller, based at port 0, whose status register reads 0 until the
    start bit is written and [sts] ever after. *)
Definition dev_status (sts : Z) : trace -> Z -> Z :=
  fun tr port =>
    if port =? 0 then
      if existsb (fun v => Z.testbit v 6) (writes_to 2 tr) then sts else 0
    else 0.

(** The in-progress bit never clears, and no error bit is set. *)
Definition dev_stuck : trace -> Z -> Z := dev_status 0x01.

(** A controller, based at port 0, whose status register reads 0x02 until
    it is written to, and 0 from then on. *)
Definition dev_dirty : trace -> Z -> Z :=
  fun tr port =>
    if port =? 0 then
      match writes_to 0 tr with [] => 0x02 | _ :: _ => 0 end
    else 0.

(** A controller, based at port 0, whose status register always reads
    0x02. *)
Definition dev_wedged : trace -> Z -> Z :=
  fun _ port => if port =? 0 then 0x02 else 0.

(** A controller whose registers read back the last value written to them,
    0 before any write. *)
Definition dev_regs : trace -> Z -> Z :=
  fun tr port => last (writes_to port tr) 0.

(** A controller, based at port 0, that answers a block read with the
    length 40 in data0 and 0xAB for each byte of the block port. *)
Definition dev_block40 : trace -> Z -> Z :=
  fun _ port => if port =? 5 then 40 else if port =? 7 then 0xAB else 0.

(** The constants of <linux/i2c.h> as the 2.4 kernels define them. *)
Definition linux_i2c_h : i2c_h :=
  {| I2C_SMBUS_WRITE := 0;
     I2C_SMBUS_QUICK := 0;
     I2C_SMBUS_BYTE := 1;
     I2C_SMBUS_BYTE_DATA := 2;
     I2C_SMBUS_WORD_DATA := 3;
     I2C_SMBUS_PROC_CALL := 4;
     I2C_SMBUS_BLOCK_DATA := 5 |}.

(** A caller's buffer holding zeros. *)
Definition zeros : mem := fun _ => 0.

(** A caller's buffer that declares a block of 40 bytes: cell 0 holds 40
    and cell [i] holds [i]. *)
Definition block40 : mem := fun i => if i =? 0 then 40 else i.

(** [PCI_FUNC] as <linux/pci.h> defines it. *)
Definition linux_PCI_FUNC (devfn : Z) : Z := Z.land devfn 0x07.

(** An OSB4 at function 0 whose host configuration byte is [cfg], behind a
    function 1 with the same ids; the I/O region is free. *)
Definition platform_with (cfg : Z) : platform :=
  {| pci_present := 1;
     osb4_devices :=
       [ {| devfn := 0x79; config := fun _ => 0 |};
         {| devfn := 0x78;
            config := fun off => if off =? SMBHSTCFG then cfg else 0x0580 |} ];
     check_region := fun _ _ => 0 |}.

(** The module loaded with [force_addr=0x1000]. *)
Definition forced_0x1000 : globals :=
  {| force := 0; force_addr := 0x1000; smba := 0 |}.

(** A machine without a PCI bus. *)
Definition platform_no_pci : platform :=
  {| pci_present := 0; osb4_devices := []; check_region := fun _ _ => 0 |}.

(** A machine whose only OSB4 function is function 1. *)
Definition platform_no_function0 : platform :=
  {| pci_present := 1;
     osb4_devices := [ {| devfn := 0x79; config := fun _ => 0 |} ];
     check_region := fun _ _ => 0 |}.

(** The machine of [platform_with], with every I/O region in use. *)
Definition platform_busy (cfg : Z) : platform :=
  {| pci_present := 1;
     osb4_devices := osb4_devices (platform_with cfg);
     check_region := fun _ _ => 1 |}.

(** An enabled controller and a registry that answers [add] and [del]. *)
Definition env_with (add del : Z) : env :=
  {| env_platform := platform_with 0x01;
     env_add_adapter := add;
     env_del_adapter := del |}.

(** A controller, based at port 0, whose status register always reads 0 and
    whose other registers read back the last value written to them. *)
Definition dev_quiet : trace -> Z -> Z :=
  fun tr port => if port =? 0 then 0 else last (writes_to port tr) 0.

(** * Facts *)

Lemma pauses_app (a b : trace) : pauses (a ++ b) = (pauses a + pauses b)%nat.
Proof.
  induction a as [|e a IH]; simpl; [reflexivity|].
  destruct e; simpl; rewrite IH; reflexivity.
Qed.

Lemma writes_to_app (p : Z) (a b : trace) :
  writes_to p (a ++ b) = writes_to p a ++ writes_to p b.
Proof.
  induction a as [|e a IH]; simpl; [reflexivity|].
  destruct e; simpl; try assumption.
  destruct (_ =? _); simpl; rewrite IH; reflexivity.
Qed.

Lemma u8_range (v : Z) : 0 <= u8 v < 256.
Proof. unfold u8. apply Z.mod_pos_bound. lia. Qed.

Lemma u8_small (v : Z) : 0 <= v < 256 -> u8 v = v.
Proof. unfold u8. intros H. apply Z.mod_small. exact H. Qed.

Lemma u8_idem (v : Z) : u8 (u8 v) = u8 v.
Proof. apply u8_small, u8_range. Qed.

(** A C test [v & (1 << n)] reads bit [n] of [v]. *)
Lemma nonzero_land_bit (v n : Z) :
  0 <= n -> nonzero (Z.land v (2 ^ n)) = Z.testbit v n.
Proof.
  intros Hn. unfold nonzero.
  destruct (Z.testbit v n) eqn:E.
  - destruct (Z.eqb_spec (Z.land v (2 ^ n)) 0) as [H0|]; [|reflexivity].
    assert (Hb : Z.testbit (Z.land v (2 ^ n)) n = true).
    { rewrite Z.land_spec, E, Z.pow2_bits_true by exact Hn. reflexivity. }
    rewrite H0, Z.bits_0 in Hb. discriminate.
  - assert (H0 : Z.land v (2 ^ n) = 0).
    { apply Z.bits_inj'. intros m Hm.
      rewrite Z.land_spec, Z.bits_0, Z.pow2_bits_eqb by exact Hn.
      destruct (Z.eqb_spec n m) as [->|_].
      - rewrite E. reflexivity.
      - apply andb_false_r. }
    rewrite H0. reflexivity.
Qed.

Lemma nonzero_true (v : Z) : nonzero v = true <-> v <> 0.
Proof.
  unfold nonzero. destruct (Z.eqb_spec v 0); simpl; split; congruence.
Qed.

(** ** Bytes *)

Lemma u8_land_ones (v : Z) : u8 v = Z.land v (Z.ones 8).
Proof. unfold u8. rewrite Z.land_ones by lia. reflexivity. Qed.

Lemma u8_lor (a b : Z) : u8 (Z.lor a b) = Z.lor (u8 a) (u8 b).
Proof. rewrite !u8_land_ones. apply Z.land_lor_distr_l. Qed.

(** Masking with a constant that fits a byte gives a byte. *)
Lemma u8_land_mask (v m : Z) : Z.land m 255 = m -> u8 (Z.land v m) = Z.land v m.
Proof.
  intros Hm. rewrite u8_land_ones. change (Z.ones 8) with 255.
  rewrite <- Z.land_assoc, Hm. reflexivity.
Qed.

Lemma addr_byte_range (addr read_write : Z) :
  0 <= addr_byte addr read_write < 256.
Proof.
  unfold addr_byte.
  rewrite Z.shiftl_mul_pow2 by lia. change (2 ^ 1) with 2.
  change 0x7f with (Z.ones 7). change (Z.land read_write 1)
    with (Z.land read_write (Z.ones 1)).
  rewrite !Z.land_ones by lia.
  change (2 ^ 7) with 128. change (2 ^ 1) with 2.
  pose proof (Z.mod_pos_bound addr 128 ltac:(lia)) as Ha.
  pose proof (Z.mod_pos_bound read_write 2 ltac:(lia)) as Hr.
  set (a := addr mod 128) in *. set (r := read_write mod 2) in *.
  assert (Hl : Z.lor (a * 2) r = a * 2 + r).
  { assert (Hr' : r = 0 \/ r = 1) by lia.
    destruct Hr' as [-> | ->].
    - rewrite Z.lor_0_r. lia.
    - apply Z.bits_inj'. intros n Hn.
      rewrite Z.lor_spec.
      destruct (Z.eq_dec n 0) as [-> | Hn0].
      + rewrite !Z.bit0_odd.
        replace (a * 2 + 1) with (1 + 2 * a) by lia.
        rewrite Z.odd_add_mul_2. apply orb_true_r.
      + replace n with (Z.succ (n - 1)) by lia.
        rewrite (Z.mul_comm a 2).
        rewrite Z.testbit_even_succ by lia.
        rewrite (Z.testbit_odd_succ a (n - 1)) by lia.
        change (Z.testbit 1 (Z.succ (n - 1)))
          with (Z.testbit (2 * 0 + 1) (Z.succ (n - 1))).
        rewrite (Z.testbit_odd_succ 0 (n - 1)), Z.bits_0 by lia.
        apply orb_false_r. }
  rewrite Hl. lia.
Qed.

Lemma u8_addr_byte (addr read_write : Z) :
  u8 (addr_byte addr read_write) = addr_byte addr read_write.
Proof. apply u8_small, addr_byte_range. Qed.

Ltac io_unfold :=
  unfold bind, ret, inb_p, inb, outb_p, osb4_do_pause in *.

Section Transaction.

Variable dev : trace -> Z -> Z.
Variable osb4_smba : Z.
Variable DEBUG : bool.

Local Abbreviation STS := (SMBHSTSTS osb4_smba).
Local Abbreviation CNT := (SMBHSTCNT osb4_smba).

(** One turn of the loop, as the source reads. *)
Lemma osb4_poll_step (timeout : Z) (tr : trace) :
  osb4_poll dev osb4_smba timeout tr =
  let tr1 := tr ++ [EvPause 1] in
  let temp := u8 (dev tr1 STS) in
  let tr2 := tr1 ++ [EvIn STS temp] in
  if nonzero (Z.land temp 0x01) then
    if timeout <? MAX_TIMEOUT
    then osb4_poll dev osb4_smba (timeout + 1) tr2
    else ((temp, timeout + 1), tr2)
  else ((temp, timeout), tr2).
Proof.
  funelim (osb4_poll dev osb4_smba timeout tr); cbn zeta;
    io_unfold; cbn [snd fst] in *.
  all: repeat match goal with H : nonzero _ = _ |- _ => rewrite H; clear H end.
  - reflexivity.
  - destruct (Z.ltb_spec timeout MAX_TIMEOUT); [reflexivity | lia].
  - destruct (Z.ltb_spec timeout MAX_TIMEOUT); [lia | reflexivity].
Qed.

(** The loop only appends to the trace: pauses and reads of the status
    register, in pairs, and no more pauses than one plus the number of times
    its counter can still pass the test. *)
Lemma osb4_poll_extends (timeout : Z) (tr : trace) :
  exists evs,
    snd (osb4_poll dev osb4_smba timeout tr) = tr ++ evs /\
    (pauses evs <= retries_left timeout + 1)%nat /\
    (forall p, writes_to p evs = []).
Proof.
  funelim (osb4_poll dev osb4_smba timeout tr); io_unfold; cbn [snd fst] in *.
  - eexists. rewrite <- app_assoc. split; [reflexivity|].
    split; [simpl; lia | reflexivity].
  - destruct H as (evs & Hevs & Hp & Hw).
    rewrite Hevs. eexists. rewrite <- !app_assoc. split; [reflexivity|].
    split.
    + simpl. pose proof (retries_left_decr timeout l). lia.
    + intros p. simpl. apply Hw.
  - eexists. rewrite <- app_assoc. split; [reflexivity|].
    split; [simpl; lia | reflexivity].
Qed.

(** When the loop leaves with its counter below the ceiling, the in-progress
    bit of the status byte it holds is clear. *)
Lemma osb4_poll_below_ceiling (timeout : Z) (tr : trace) :
  let '((temp, timeout'), _) := osb4_poll dev osb4_smba timeout tr in
  timeout <= timeout' /\
  (timeout' < MAX_TIMEOUT -> Z.testbit temp 0 = false).
Proof.
  funelim (osb4_poll dev osb4_smba timeout tr); io_unfold; cbn [snd fst] in *.
  - split; [lia|]. intros _.
    rewrite <- (nonzero_land_bit _ 0) by lia. exact Heq.
  - destruct (osb4_poll _ _ _ _) as [[temp t'] tr'].
    destruct H as [H1 H2]. split; [lia | exact H2].
  - split; lia.
Qed.

Lemma retries_left_0 : retries_left 0 = 500%nat.
Proof. reflexivity. Qed.

Lemma STS_neq_CNT : (STS =? CNT) = false.
Proof. unfold SMBHSTSTS, SMBHSTCNT. apply Z.eqb_neq. lia. Qed.

(** The busy-check, case by case. *)
Lemma osb4_busy_check_run (tr : trace) :
  let sts := u8 (dev tr STS) in
  let tr1 := tr ++ [EvIn STS sts; EvOut sts STS] in
  let sts' := u8 (dev tr1 STS) in
  osb4_busy_check dev osb4_smba tr =
  if nonzero sts
  then (negb (nonzero sts'), tr ++ [EvIn STS sts; EvOut sts STS; EvIn STS sts'])
  else (true, tr ++ [EvIn STS sts]).
Proof.
  cbn zeta. unfold osb4_busy_check. io_unfold. rewrite u8_idem.
  destruct (nonzero (u8 (dev tr STS))); [|reflexivity].
  rewrite <- !app_assoc. cbn [app].
  destruct (nonzero _); reflexivity.
Qed.

Lemma osb4_start_run (tr : trace) :
  let cnt := u8 (dev tr CNT) in
  osb4_start dev osb4_smba tr =
  (tt, tr ++ [EvIn CNT cnt; EvOut (u8 (Z.lor cnt 0x040)) CNT]).
Proof.
  cbn zeta. unfold osb4_start. io_unfold.
  rewrite <- !app_assoc. reflexivity.
Qed.

Lemma osb4_busy_check_extends (tr : trace) :
  exists evs,
    snd (osb4_busy_check dev osb4_smba tr) = tr ++ evs /\
    pauses evs = 0%nat /\
    (forall p, p <> STS -> writes_to p evs = []).
Proof.
  rewrite osb4_busy_check_run. cbn zeta.
  destruct (nonzero (u8 (dev tr STS))); cbn [snd]; eexists;
    (split; [reflexivity|]); (split; [reflexivity|]); intros p Hp;
    cbn [writes_to]; [|reflexivity].
  destruct (Z.eqb_spec STS p); [congruence | reflexivity].
Qed.

Lemma osb4_clear_status_extends (tr : trace) :
  exists evs,
    snd (osb4_clear_status dev osb4_smba tr) = tr ++ evs /\
    pauses evs = 0%nat /\
    (forall p, p <> STS -> writes_to p evs = []).
Proof.
  unfold osb4_clear_status. io_unfold.
  destruct (nonzero (u8 (dev tr STS))); cbn [snd];
    rewrite <- !app_assoc; cbn [app]; eexists; (split; [reflexivity|]);
    (split; [reflexivity|]); intros p Hp; cbn [writes_to]; [|reflexivity].
  destruct (Z.eqb_spec STS p); [congruence | reflexivity].
Qed.

Lemma osb4_dump_extends (tr : trace) :
  exists evs,
    snd (osb4_dump dev osb4_smba DEBUG tr) = tr ++ evs /\
    pauses evs = 0%nat /\ (forall p, writes_to p evs = []).
Proof.
  unfold osb4_dump. destruct DEBUG.
  - io_unfold. cbn [snd]. rewrite <- !app_assoc. cbn [app].
    eexists. split; [reflexivity|]. split; reflexivity.
  - exists []. rewrite app_nil_r. repeat split.
Qed.

(** The transaction as the sequence of its phases. *)
Lemma osb4_transaction_run (tr : trace) :
  osb4_transaction dev osb4_smba DEBUG tr =
  let tr0 := snd (osb4_dump dev osb4_smba DEBUG tr) in
  let (ready, tr1) := osb4_busy_check dev osb4_smba tr0 in
  if ready then
    let tr2 := snd (osb4_start dev osb4_smba tr1) in
    let '((temp, timeout), tr3) := osb4_poll dev osb4_smba 0 tr2 in
    (osb4_result DEBUG temp timeout,
     snd (osb4_dump dev osb4_smba DEBUG
            (snd (osb4_clear_status dev osb4_smba tr3))))
  else (-1, tr1).
Proof.
  unfold osb4_transaction, bind at 1.
  destruct (osb4_dump dev osb4_smba DEBUG tr) as [[] tr0]. cbn [snd].
  unfold bind at 1.
  destruct (osb4_busy_check dev osb4_smba tr0) as [[|] tr1]; [|reflexivity].
  unfold bind at 1. destruct (osb4_start dev osb4_smba tr1) as [[] tr2].
  unfold bind at 1. cbn [snd].
  destruct (osb4_poll dev osb4_smba 0 tr2) as [[temp timeout] tr3].
  unfold bind at 1.
  destruct (osb4_clear_status dev osb4_smba tr3) as [[] tr4].
  unfold bind at 1. cbn [snd].
  destruct (osb4_dump dev osb4_smba DEBUG tr4) as [[] tr5]. reflexivity.
Qed.

(** The transaction only appends to the trace.  It pauses at most 501
    times; it writes to the status and command registers only, and to the
    command register once, with bit 6 set in the value just read from it,
    unless the busy-check fails, and then not at all. *)
Lemma osb4_transaction_extends (tr : trace) :
  exists evs,
    snd (osb4_transaction dev osb4_smba DEBUG tr) = tr ++ evs /\
    (pauses evs <= 501)%nat /\
    (forall p, p <> STS -> p <> CNT -> writes_to p evs = []) /\
    (if fst (osb4_busy_check dev osb4_smba
               (snd (osb4_dump dev osb4_smba DEBUG tr)))
     then exists cnt, 0 <= cnt < 256 /\ In (EvIn CNT cnt) evs /\
                      writes_to CNT evs = [Z.lor cnt 0x040]
     else writes_to CNT evs = []).
Proof.
  assert (Hne : CNT <> STS) by (unfold SMBHSTSTS, SMBHSTCNT; lia).
  rewrite osb4_transaction_run. cbn zeta.
  destruct (osb4_dump_extends tr) as (evs0 & He0 & Hp0 & Hw0).
  rewrite He0.
  destruct (osb4_busy_check_extends (tr ++ evs0)) as (evs1 & He1 & Hp1 & Hw1).
  destruct (osb4_busy_check dev osb4_smba (tr ++ evs0)) as [ready tr1].
  cbn [snd fst] in *. subst tr1.
  destruct ready; cbn [snd].
  - rewrite osb4_start_run. cbn zeta. cbn [snd].
    match goal with |- context [osb4_poll _ _ _ ?t] =>
      destruct (osb4_poll_extends 0 t) as (evs2 & He2 & Hp2 & Hw2);
      destruct (osb4_poll dev osb4_smba 0 t) as [[temp timeout] tr3]
    end.
    cbn [snd] in *. subst tr3.
    match goal with |- context [osb4_clear_status _ _ ?t] =>
      destruct (osb4_clear_status_extends t) as (evs3 & He3 & Hp3 & Hw3)
    end.
    rewrite He3.
    match goal with |- context [osb4_dump _ _ _ ?t] =>
      destruct (osb4_dump_extends t) as (evs4 & He4 & Hp4 & Hw4)
    end.
    rewrite He4. rewrite <- !app_assoc. eexists. split; [reflexivity|].
    split; [|split].
    + rewrite !pauses_app, Hp0, Hp1, Hp3, Hp4. cbn [pauses].
      rewrite retries_left_0 in Hp2. lia.
    + intros p Hs Hc. rewrite !writes_to_app, Hw0, Hw2, Hw4.
      rewrite Hw1, Hw3 by exact Hs.
      cbn [writes_to app].
      destruct (Z.eqb_spec CNT p); [congruence | reflexivity].
    + eexists. split; [apply u8_range|]. split.
      * apply in_or_app. right. apply in_or_app. right. left. reflexivity.
      * rewrite !writes_to_app, Hw0, Hw2, Hw4.
        rewrite Hw1, Hw3 by exact Hne.
        cbn [writes_to app]. rewrite Z.eqb_refl.
        rewrite u8_lor, u8_idem. reflexivity.
  - exists (evs0 ++ evs1). rewrite <- app_assoc. split; [reflexivity|].
    rewrite pauses_app, Hp0, Hp1. split; [lia|].
    split.
    + intros p Hs _. rewrite writes_to_app, Hw0, Hw1 by exact Hs. reflexivity.
    + rewrite writes_to_app, Hw0, Hw1 by exact Hne. reflexivity.
Qed.

(** The bound the polling loop does obey: for every controller, hence for
    every sequence of status-register values, one call of
    [osb4_transaction] executes the body of the loop (a pause, then a read)
    at most [MAX_TIMEOUT + 1] times.  The test [timeout++ < MAX_TIMEOUT]
    follows each read, so the 500 tests that can succeed are each followed
    by one more turn. *)
Lemma osb4_transaction_pauses_at_most_501 (tr : trace) :
  exists evs,
    snd (osb4_transaction dev osb4_smba DEBUG tr) = tr ++ evs /\
    (pauses evs <= Z.to_nat MAX_TIMEOUT + 1)%nat.
Proof.
  destruct (osb4_transaction_extends tr) as (evs & He & Hp & _).
  exists evs. split; [exact He | exact Hp].
Qed.

(** Built with [DEBUG], a counter at or past the ceiling gives -1 whatever
    the status byte: the assignment [result = -1] of the timeout test is
    compiled only then. *)
Lemma osb4_result_debug_timeout (temp timeout : Z) :
  MAX_TIMEOUT <= timeout -> osb4_result true temp timeout = -1.
Proof.
  intros H. unfold osb4_result.
  destruct (Z.leb_spec MAX_TIMEOUT timeout); [|lia].
  repeat match goal with |- context [if ?b then _ else _] => destruct b end;
    reflexivity.
Qed.

(** Built without [DEBUG], the counter has no part in the result. *)
Lemma osb4_result_nodebug (temp timeout : Z) :
  osb4_result false temp timeout = osb4_result false temp 0.
Proof.
  unfold osb4_result.
  destruct (MAX_TIMEOUT <=? timeout), (MAX_TIMEOUT <=? 0); reflexivity.
Qed.

(** C4: in the busy-check of [osb4_transaction], a first status read of 0 is
    followed at once by the start sequence, with no write to the status
    register in between; a first read that is not 0 is followed by one write
    of the same value to the status register and one more read; when that
    second read is not 0 either, the function returns -1 and has touched the
    status register only: the start bit is never written.  ([tr0] is the
    trace at the busy-check: [tr], after the register dump in a [DEBUG]
    build.) *)
Theorem osb4_transaction_busy_check (tr : trace) :
  let tr0 := snd (osb4_dump dev osb4_smba DEBUG tr) in
  let sts := u8 (dev tr0 STS) in
  let sts' := u8 (dev (tr0 ++ [EvIn STS sts; EvOut sts STS]) STS) in
  (sts = 0 ->
   exists cnt rest,
     snd (osb4_transaction dev osb4_smba DEBUG tr) =
     tr0 ++ [EvIn STS 0;
             EvIn CNT cnt; EvOut (u8 (Z.lor cnt 0x040)) CNT] ++ rest) /\
  (sts <> 0 -> sts' = 0 ->
   exists cnt rest,
     snd (osb4_transaction dev osb4_smba DEBUG tr) =
     tr0 ++ [EvIn STS sts; EvOut sts STS; EvIn STS 0;
             EvIn CNT cnt; EvOut (u8 (Z.lor cnt 0x040)) CNT] ++ rest) /\
  (sts <> 0 -> sts' <> 0 ->
   osb4_transaction dev osb4_smba DEBUG tr =
   (-1, tr0 ++ [EvIn STS sts; EvOut sts STS; EvIn STS sts']) /\
   writes_to CNT [EvIn STS sts; EvOut sts STS; EvIn STS sts'] = []).
Proof.
  cbn zeta. rewrite osb4_transaction_run. cbn zeta.
  generalize (snd (osb4_dump dev osb4_smba DEBUG tr)). intros tr0.
  rewrite osb4_busy_check_run. cbn zeta.
  assert (Hrun : forall tr1,
    exists cnt rest,
      snd (let '(temp, timeout, tr3) :=
             osb4_poll dev osb4_smba 0 (snd (osb4_start dev osb4_smba tr1)) in
           (osb4_result DEBUG temp timeout,
            snd (osb4_dump dev osb4_smba DEBUG
                   (snd (osb4_clear_status dev osb4_smba tr3))))) =
      tr1 ++ [EvIn CNT cnt; EvOut (u8 (Z.lor cnt 0x040)) CNT] ++ rest).
  { intros tr1. rewrite osb4_start_run. cbn zeta. cbn [snd].
    match goal with |- context [osb4_poll _ _ _ ?t] =>
      destruct (osb4_poll_extends 0 t) as (evs2 & He2 & _);
      destruct (osb4_poll dev osb4_smba 0 t) as [[temp timeout] tr3]
    end.
    cbn [snd] in *. subst tr3.
    match goal with |- context [osb4_clear_status _ _ ?t] =>
      destruct (osb4_clear_status_extends t) as (evs3 & He3 & _)
    end.
    rewrite He3.
    match goal with |- context [osb4_dump _ _ _ ?t] =>
      destruct (osb4_dump_extends t) as (evs4 & He4 & _)
    end.
    rewrite He4. rewrite <- !app_assoc. cbn [app].
    eexists. exists (evs2 ++ evs3 ++ evs4). reflexivity. }
  split; [|split].
  - intros H0. rewrite H0. cbn [nonzero Z.eqb negb].
    destruct (Hrun (tr0 ++ [EvIn STS 0])) as (cnt & rest & Hr).
    exists cnt, rest. rewrite Hr, <- app_assoc. reflexivity.
  - intros Hs Hs'. apply nonzero_true in Hs. rewrite Hs, Hs'.
    cbn [nonzero Z.eqb negb].
    destruct (Hrun (tr0 ++ [EvIn STS (u8 (dev tr0 STS));
                            EvOut (u8 (dev tr0 STS)) STS; EvIn STS 0]))
      as (cnt & rest & Hr).
    exists cnt, rest. rewrite Hr, <- app_assoc. reflexivity.
  - intros Hs Hs'. apply nonzero_true in Hs, Hs'. rewrite Hs, Hs'.
    cbn [negb]. split; [reflexivity|].
    cbn [writes_to]. rewrite STS_neq_CNT. reflexivity.
Qed.

(** C5: when the busy-check lets the transaction start and the polling loop
    ends holding the status byte [temp] and the counter [timeout]: if bit 4,
    bit 3 or bit 2 of [temp] is set, [osb4_transaction] returns -1; if none
    of them is set, bit 0 is clear and the counter is below [MAX_TIMEOUT],
    it returns 0.  This holds with and without [DEBUG]. *)
Theorem osb4_transaction_status_decode
    (tr tr1 tr3 : trace) (temp timeout : Z) :
  osb4_busy_check dev osb4_smba (snd (osb4_dump dev osb4_smba DEBUG tr)) =
    (true, tr1) ->
  osb4_poll dev osb4_smba 0 (snd (osb4_start dev osb4_smba tr1)) =
    ((temp, timeout), tr3) ->
  (Z.testbit temp 4 = true \/ Z.testbit temp 3 = true \/
   Z.testbit temp 2 = true ->
   fst (osb4_transaction dev osb4_smba DEBUG tr) = -1) /\
  (Z.testbit temp 4 = false -> Z.testbit temp 3 = false ->
   Z.testbit temp 2 = false ->
   Z.testbit temp 0 = false -> timeout < MAX_TIMEOUT ->
   fst (osb4_transaction dev osb4_smba DEBUG tr) = 0).
Proof.
  intros Hb Hp. rewrite osb4_transaction_run. cbn zeta. rewrite Hb, Hp.
  cbn [fst]. unfold osb4_result.
  change 0x10 with (2 ^ 4). change 0x08 with (2 ^ 3). change 0x04 with (2 ^ 2).
  rewrite !nonzero_land_bit by lia.
  split.
  - intros [H | [H | H]]; rewrite H;
      repeat match goal with |- context [if ?b then _ else _] =>
        destruct b end; reflexivity.
  - intros H4 H3 H2 _ Ht. rewrite H4, H3, H2.
    destruct (Z.leb_spec MAX_TIMEOUT timeout); [lia | reflexivity].
Qed.

End Transaction.

(** The busy-check theorem at three controllers: an idle one, one whose
    status clears on the write-back, and one whose status never clears. *)
Lemma osb4_transaction_busy_check_witness :
  (exists cnt rest,
     snd (osb4_transaction dev_idle 0 false []) =
     [] ++ [EvIn 0 0; EvIn 2 cnt; EvOut (u8 (Z.lor cnt 0x040)) 2] ++ rest) /\
  (exists cnt rest,
     snd (osb4_transaction dev_dirty 0 false []) =
     [] ++ [EvIn 0 0x02; EvOut 0x02 0; EvIn 0 0;
            EvIn 2 cnt; EvOut (u8 (Z.lor cnt 0x040)) 2] ++ rest) /\
  osb4_transaction dev_wedged 0 false [] =
  (-1, [EvIn 0 0x02; EvOut 0x02 0; EvIn 0 0x02]).
Proof.
  split; [|split].
  - apply (proj1 (osb4_transaction_busy_check dev_idle 0 false [])).
    reflexivity.
  - apply (proj1 (proj2 (osb4_transaction_busy_check dev_dirty 0 false []))).
    + discriminate.
    + reflexivity.
  - apply (proj2 (proj2 (osb4_transaction_busy_check dev_wedged 0 false []))).
    + discriminate.
    + discriminate.
Defined.

(** The status-decode theorem at a controller that reports "no response"
    (bit 2) and at an idle one. *)
Lemma osb4_transaction_status_decode_witness :
  fst (osb4_transaction (dev_status 0x04) 0 false []) = -1 /\
  fst (osb4_transaction dev_idle 0 false []) = 0.
Proof.
  split.
  - apply (proj1 (osb4_transaction_status_decode (dev_status 0x04) 0 false
                    [] [EvIn 0 0]
                    [EvIn 0 0; EvIn 2 0; EvOut 64 2; EvPause 1; EvIn 0 4]
                    4 0 eq_refl eq_refl)).
    right; right; reflexivity.
  - apply (proj2 (osb4_transaction_status_decode dev_idle 0 false
                    [] [EvIn 0 0]
                    [EvIn 0 0; EvIn 2 0; EvOut 64 2; EvPause 1; EvIn 0 0]
                    0 0 eq_refl eq_refl)); reflexivity.
Defined.

(** C2, where the code departs from it: against a controller whose
    in-progress bit never clears, the loop pauses and reads 501 times, one
    more than [MAX_TIMEOUT].  The counter is 500 when the last turn starts
    and 501 when the loop is left. *)
Theorem osb4_transaction_polls_501_times :
  pauses (snd (osb4_transaction dev_stuck 0 false [])) = 501%nat /\
  ~ (pauses (snd (osb4_transaction dev_stuck 0 false []))
     <= Z.to_nat MAX_TIMEOUT)%nat.
Proof.
  assert (H : pauses (snd (osb4_transaction dev_stuck 0 false [])) = 501%nat)
    by (vm_compute; reflexivity).
  split; [exact H|]. rewrite H. unfold MAX_TIMEOUT. lia.
Qed.

(** C1, where the code departs from it: built without [DEBUG], against a
    controller whose status reads 0x01 on every poll, the busy-check passes,
    the loop leaves with [temp = 0x01] (in progress, no error bit) and
    [timeout = 501], past the ceiling, and [osb4_transaction] returns 0. *)
Theorem osb4_transaction_timeout_returns_0 :
  osb4_busy_check dev_stuck 0 (snd (osb4_dump dev_stuck 0 false [])) =
    (true, [EvIn 0 0]) /\
  fst (osb4_poll dev_stuck 0 0 (snd (osb4_start dev_stuck 0 [EvIn 0 0]))) =
    (0x01, 501) /\
  osb4_result false 0x01 501 = 0 /\
  fst (osb4_transaction dev_stuck 0 false []) = 0.
Proof. repeat split; vm_compute; reflexivity. Qed.

(** Built with [DEBUG], the same run returns -1: the assignment
    [result = -1] of the timeout test is compiled only then. *)
Lemma osb4_transaction_timeout_debug :
  fst (osb4_transaction dev_stuck 0 true []) = -1.
Proof. vm_compute; reflexivity. Qed.



Lemma NoDup6 (a b c d e f : Z) :
  NoDup [a; b; c; d; e; f] ->
  (a <> b /\ a <> c /\ a <> d /\ a <> e /\ a <> f) /\
  (b <> c /\ b <> d /\ b <> e /\ b <> f) /\
  (c <> d /\ c <> e /\ c <> f) /\ (d <> e /\ d <> f) /\ e <> f.
Proof.
  intros H.
  repeat match goal with
         | H : NoDup (_ :: _) |- _ =>
             apply NoDup_cons_iff in H; destruct H as [? H]
         end.
  cbn [In] in *. intuition congruence.
Qed.

(** Decide the tests between the register addresses in the goal. *)
Ltac ports :=
  unfold SMBHSTSTS, SMBHSTCNT, SMBHSTCMD, SMBHSTADD,
    SMBHSTDAT0, SMBHSTDAT1, SMBBLKDAT in *;
  repeat match goal with
         | |- context [(?a + ?x) =? (?b + ?x)] =>
             destruct (Z.eqb_spec (a + x) (b + x)); try lia
         end.

Section Access.

Variable dev : trace -> Z -> Z.
Variable osb4_smba : Z.
Variable DEBUG : bool.
Variable K : i2c_h.
Variable word_order : operand_order.

Local Abbreviation STS := (SMBHSTSTS osb4_smba).
Local Abbreviation CNT := (SMBHSTCNT osb4_smba).
Local Abbreviation CMD := (SMBHSTCMD osb4_smba).
Local Abbreviation ADD := (SMBHSTADD osb4_smba).
Local Abbreviation DAT0 := (SMBHSTDAT0 osb4_smba).
Local Abbreviation DAT1 := (SMBHSTDAT1 osb4_smba).
Local Abbreviation BLKDAT := (SMBBLKDAT osb4_smba).

(** [osb4_access] as the sequence of its phases. *)
Lemma osb4_access_run (addr flags read_write command size : Z) (data : mem)
    (tr : trace) :
  osb4_access dev osb4_smba DEBUG K word_order addr flags read_write command
      size data tr =
  let (loaded, tr1) :=
    osb4_load dev osb4_smba K addr read_write command size data tr in
  match loaded with
  | None => ((-1, data), tr1)
  | Some sz =>
      let tr2 :=
        tr1 ++ [EvOut (u8 (Z.land sz 0x1C + Z.land ENABLE_INT9 1)) CNT] in
      let (err, tr3) := osb4_transaction dev osb4_smba DEBUG tr2 in
      if nonzero err then ((-1, data), tr3)
      else if (read_write =? I2C_SMBUS_WRITE K) || (sz =? OSB4_QUICK)
      then ((0, data), tr3)
      else let (data', tr4) := osb4_read_back dev osb4_smba word_order sz data
          tr3 in
           ((0, data'), tr4)
  end.
Proof.
  unfold osb4_access, bind at 1.
  destruct (osb4_load _ _ _ _ _ _ _ _ _) as [[sz|] tr1]; [|reflexivity].
  unfold bind at 1, outb_p at 1. cbn zeta.
  unfold bind at 1.
  destruct (osb4_transaction _ _ _ _) as [err tr3].
  destruct (nonzero err); [reflexivity|].
  destruct (_ || _); [reflexivity|].
  unfold bind at 1.
  destruct (osb4_read_back _ _ _ _ _ _) as [data' tr4]. reflexivity.
Qed.

(** The block write loop sends [data->block[i]], ..., [data->block[len]]. *)
Lemma block_out_run (data : mem) (len i : Z) (tr : trace) :
  block_out osb4_smba data len i tr =
  (tt, tr ++ map (fun k => EvOut (u8 (data (i + Z.of_nat k))) BLKDAT)
               (seq 0 (span len i))).
Proof.
  funelim (block_out osb4_smba data len i tr).
  - rewrite H. unfold outb_p. cbn [snd].
    assert (Hs : span len i = S (span len (i + 1))) by (unfold span; lia).
    rewrite Hs. cbn [seq map]. rewrite <- seq_shift, map_map.
    rewrite <- app_assoc. cbn [app]. rewrite Z.add_0_r.
    do 3 f_equal. apply map_ext. intros k. do 3 f_equal. lia.
  - assert (Hs : span len i = 0%nat) by (unfold span; lia).
    rewrite Hs. cbn [seq map]. rewrite app_nil_r. reflexivity.
Qed.

(** The block read loop, started at index [i] with [data->block[0] = len]:
    it reads [len - i + 1] bytes from the block port, stores them at
    [data->block[i]], ..., [data->block[len]] and leaves the other cells. *)
Lemma block_in_run (data : mem) (i : positive) (tr : trace) :
  exists bytes,
    length bytes = span (data 0) (Z.pos i) /\
    snd (block_in dev osb4_smba data i tr) =
      tr ++ map (EvIn BLKDAT) bytes /\
    (forall j, Z.pos i <= j <= data 0 ->
       fst (block_in dev osb4_smba data i tr) j =
       nth (Z.to_nat (j - Z.pos i)) bytes 0) /\
    (forall j, j < Z.pos i \/ data 0 < j ->
       fst (block_in dev osb4_smba data i tr) j = data j).
Proof.
  funelim (block_in dev osb4_smba data i tr).
  - exists []. cbn [fst snd length map nth].
    assert (Hs : span (data 0) (Z.pos i) = 0%nat) by (unfold span; lia).
    rewrite Hs, app_nil_r. repeat split; try reflexivity. intros j Hj. lia.
  - clear Heq Heqcall.
    set (v := u8 (dev tr BLKDAT)) in *.
    assert (H0 : store data (Z.pos i) v 0 = data 0) by reflexivity.
    rewrite H0 in H. rewrite Pos2Z.inj_succ in H.
    destruct H as (bytes & Hlen & Htr & Hin & Hout).
    exists (v :: bytes). split; [|split; [|split]].
    + cbn [length]. rewrite Hlen. unfold span. lia.
    + rewrite Htr, <- app_assoc. reflexivity.
    + intros j Hj. destruct (Z.eq_dec j (Z.pos i)) as [-> | Hne].
      * rewrite Hout by lia. rewrite Z.sub_diag. cbn [Z.to_nat nth].
        unfold store. rewrite Z.eqb_refl. reflexivity.
      * rewrite Hin by lia.
        replace (Z.to_nat (j - Z.pos i))
          with (S (Z.to_nat (j - Z.succ (Z.pos i)))) by lia.
        reflexivity.
    + intros j Hj. rewrite Hout by lia. unfold store.
      destruct (Z.eqb_spec j (Z.pos i)); [lia | reflexivity].
Qed.

(** What a read copies back only reads from the controller. *)
Lemma osb4_read_back_extends (size : Z) (data : mem) (tr : trace) :
  exists evs,
    snd (osb4_read_back dev osb4_smba word_order size data tr) = tr ++ evs /\
    (forall p, writes_to p evs = []).
Proof.
  assert (Hmap : forall p bytes, writes_to p (map (EvIn BLKDAT) bytes) = []).
  { intros p bytes. induction bytes; [reflexivity | exact IHbytes]. }
  unfold osb4_read_back. io_unfold.
  repeat match goal with |- context [if ?b then _ else _] => destruct b end;
    cbn [snd]; rewrite <- ?app_assoc.
  1-4: eexists; split; [reflexivity | reflexivity].
  - match goal with |- context [block_in _ _ ?d ?i ?t] =>
      destruct (block_in_run d i t) as (bytes & _ & Htr & _)
    end.
    rewrite Htr, <- !app_assoc. eexists. split; [reflexivity|].
    intros p. rewrite writes_to_app. cbn [writes_to app]. apply Hmap.
  - exists []. rewrite app_nil_r. split; reflexivity.
Qed.

(** Decide the tests between the labels of the header in the goal, then
    forget what is known of the labels. *)
Ltac labels :=
  repeat match goal with
         | |- context [?f K =? ?g K] =>
             destruct (Z.eqb_spec (f K) (g K)); try congruence
         end;
  repeat match goal with
         | H : ?f K <> ?g K |- _ => clear H
         | H : ?f K = ?f K |- _ => clear H
         end.

(** What follows the loading of the registers: the write of the size code
    to the command register, then the transaction, then reads. *)
Lemma osb4_access_tail (addr flags read_write command size : Z) (data : mem)
    (tr tr1 : trace) (sz : Z) :
  osb4_load dev osb4_smba K addr read_write command size data tr =
    (Some sz, tr1) ->
  exists evs,
    snd (osb4_access dev osb4_smba DEBUG K word_order addr flags read_write
        command size
           data tr) =
    tr1 ++ [EvOut (u8 (Z.land sz 0x1C + Z.land ENABLE_INT9 1)) CNT] ++ evs /\
    (forall p, p <> STS -> p <> CNT -> writes_to p evs = []) /\
    (writes_to CNT evs = [] \/
     exists cnt, 0 <= cnt < 256 /\ In (EvIn CNT cnt) evs /\
                 writes_to CNT evs = [Z.lor cnt 0x040]).
Proof.
  intros Hl. rewrite osb4_access_run, Hl. cbn zeta.
  match goal with |- context [osb4_transaction _ _ _ ?t] =>
    destruct (osb4_transaction_extends dev osb4_smba DEBUG t)
      as (evs & He & _ & Hw & Hc);
    destruct (osb4_transaction dev osb4_smba DEBUG t) as [err tr3]
  end.
  cbn [snd] in He. subst tr3.
  assert (Hc' : writes_to CNT evs = [] \/
     exists cnt, 0 <= cnt < 256 /\ In (EvIn CNT cnt) evs /\
                 writes_to CNT evs = [Z.lor cnt 0x040]).
  { destruct (fst _); [right | left]; exact Hc. }
  clear Hc.
  assert (Hdone : exists evs0,
    (tr1 ++ [EvOut (u8 (Z.land sz 0x1C + Z.land ENABLE_INT9 1)) CNT]) ++ evs =
    tr1 ++ [EvOut (u8 (Z.land sz 0x1C + Z.land ENABLE_INT9 1)) CNT] ++ evs0 /\
    (forall p, p <> STS -> p <> CNT -> writes_to p evs0 = []) /\
    (writes_to CNT evs0 = [] \/
     exists cnt, 0 <= cnt < 256 /\ In (EvIn CNT cnt) evs0 /\
                 writes_to CNT evs0 = [Z.lor cnt 0x040])).
  { exists evs. rewrite <- app_assoc. auto. }
  destruct (nonzero err); [exact Hdone|].
  destruct (_ || _); [exact Hdone|].
  match goal with |- context [osb4_read_back _ _ _ ?s ?d ?t] =>
    destruct (osb4_read_back_extends s d t) as (evs4 & He4 & Hw4);
    destruct (osb4_read_back dev osb4_smba word_order s d t) as [data' tr4]
  end.
  cbn [snd] in *. subst tr4. exists (evs ++ evs4).
  rewrite <- !app_assoc. split; [reflexivity|]. split.
  - intros p Hs Hn. rewrite writes_to_app, Hw, Hw4 by assumption. reflexivity.
  - rewrite writes_to_app, Hw4, app_nil_r.
    destruct Hc' as [H0 | (cnt & Hr & Hin & H1)]; [left; exact H0|].
    right. exists cnt. split; [exact Hr|]. split; [|exact H1].
    apply in_or_app. left. exact Hin.
Qed.

Lemma writes_to_payload (p q : Z) (f : nat -> Z) (l : list nat) :
  q <> p -> writes_to p (map (fun k => EvOut (f k) q) l) = [].
Proof.
  intros Hne. induction l as [|k l IH]; [reflexivity|].
  cbn [map writes_to]. destruct (Z.eqb_spec q p); [congruence | exact IH].
Qed.

Lemma block_len_range (data : mem) : 0 <= block_len data <= 32.
Proof.
  unfold block_len.
  destruct (Z.ltb_spec (data 0) 0);
    [ cbn | destruct (Z.ltb_spec 32 (data 0)) ]; lia.
Qed.

(** The first [switch] on a block write. *)
Lemma osb4_load_block_write (addr command : Z) (data : mem) (tr : trace) :
  NoDup (case_labels K) ->
  let len := block_len data in
  osb4_load dev osb4_smba K addr (I2C_SMBUS_WRITE K) command
    (I2C_SMBUS_BLOCK_DATA K) data tr =
  (Some OSB4_BLOCK_DATA,
   tr ++ [EvOut (addr_byte addr (I2C_SMBUS_WRITE K)) ADD;
          EvOut (u8 command) CMD;
          EvOut len DAT0;
          EvIn CNT (u8 (dev (tr ++ [EvOut (addr_byte addr (I2C_SMBUS_WRITE K)) ADD;
                                    EvOut (u8 command) CMD;
                                    EvOut len DAT0]) CNT))]
      ++ map (fun k => EvOut (u8 (data (1 + Z.of_nat k))) BLKDAT)
             (seq 0 (Z.to_nat len))).
Proof.
  intros Hnd len. apply NoDup6 in Hnd.
  destruct Hnd as ((? & ? & ? & ? & ?) & (? & ? & ? & ?) & (? & ? & ?) &
                   (? & ?) & ?).
  unfold osb4_load. labels.
  io_unfold. rewrite block_out_run. fold len.
  pose proof (block_len_range data) as Hlen. fold len in Hlen.
  clearbody len.
  rewrite u8_addr_byte, (u8_small len) by lia.
  assert (Hs : span len 1 = Z.to_nat len) by (unfold span; f_equal; lia).
  rewrite Hs, <- !app_assoc. reflexivity.
Qed.

(** The first [switch] on the five supported classes: the address byte is
    the first write; what follows does not write to the address or the
    command register. *)
Lemma osb4_load_class (addr read_write command size code : Z) (data : mem)
    (tr : trace) :
  NoDup (case_labels K) ->
  In (size, code)
     [ (I2C_SMBUS_QUICK K, OSB4_QUICK); (I2C_SMBUS_BYTE K, OSB4_BYTE);
       (I2C_SMBUS_BYTE_DATA K, OSB4_BYTE_DATA);
       (I2C_SMBUS_WORD_DATA K, OSB4_WORD_DATA);
       (I2C_SMBUS_BLOCK_DATA K, OSB4_BLOCK_DATA) ] ->
  exists pre,
    osb4_load dev osb4_smba K addr read_write command size data tr =
      (Some code, tr ++ EvOut (addr_byte addr read_write) ADD :: pre) /\
    writes_to ADD pre = [] /\ writes_to CNT pre = [].
Proof.
  intros Hnd Hin. apply NoDup6 in Hnd.
  destruct Hnd as ((? & ? & ? & ? & ?) & (? & ? & ? & ?) & (? & ? & ?) &
                   (? & ?) & ?).
  cbn [In] in Hin.
  destruct Hin as [Hin | [Hin | [Hin | [Hin | [Hin | []]]]]];
    inversion Hin; subst size code; clear Hin;
    unfold osb4_load; labels; io_unfold;
    rewrite u8_addr_byte;
    destruct (read_write =? I2C_SMBUS_WRITE K); cbn [fst snd];
    rewrite ?block_out_run; rewrite <- ?app_assoc; cbn [app];
    eexists; (split; [reflexivity|]);
    rewrite ?writes_to_app; cbn [writes_to]; ports;
    rewrite ?writes_to_payload
      by (unfold SMBHSTSTS, SMBHSTCNT, SMBHSTCMD, SMBHSTADD,
            SMBHSTDAT0, SMBHSTDAT1, SMBBLKDAT; lia);
    split; reflexivity.
Qed.

(** C6: for a request of size class quick, byte, byte-data or word-data,
    the one byte [osb4_access] writes to the address register is
    [((addr & 0x7f) << 1) | (read_write & 0x01)]; for a quick write to
    address 0x50, where the header's write direction is 0, it is 0xA0. *)
Theorem osb4_access_address_byte
    (addr flags read_write command size : Z) (data : mem) (tr : trace) :
  NoDup (case_labels K) ->
  In size [ I2C_SMBUS_QUICK K; I2C_SMBUS_BYTE K;
            I2C_SMBUS_BYTE_DATA K; I2C_SMBUS_WORD_DATA K ] ->
  exists evs,
    snd (osb4_access dev osb4_smba DEBUG K word_order addr flags read_write
        command size
           data tr) = tr ++ evs /\
    writes_to ADD evs =
      [Z.lor (Z.shiftl (Z.land addr 0x7f) 1) (Z.land read_write 0x01)] /\
    (size = I2C_SMBUS_QUICK K -> read_write = I2C_SMBUS_WRITE K ->
     I2C_SMBUS_WRITE K = 0 -> addr = 0x50 ->
     writes_to ADD evs = [0xA0]).
Proof.
  intros Hnd Hin.
  assert (Hcls : exists code,
    In (size, code)
     [ (I2C_SMBUS_QUICK K, OSB4_QUICK); (I2C_SMBUS_BYTE K, OSB4_BYTE);
       (I2C_SMBUS_BYTE_DATA K, OSB4_BYTE_DATA);
       (I2C_SMBUS_WORD_DATA K, OSB4_WORD_DATA);
       (I2C_SMBUS_BLOCK_DATA K, OSB4_BLOCK_DATA) ]).
  { cbn [In] in Hin |- *.
    destruct Hin as [<- | [<- | [<- | [<- | []]]]]; eexists; eauto 6. }
  destruct Hcls as (code & Hcode).
  destruct (osb4_load_class addr read_write command size code data tr Hnd Hcode)
    as (pre & Hload & Hadd & _).
  destruct (osb4_access_tail addr flags read_write command size data _ _ _ Hload)
    as (evs & He & Hw & _).
  assert (Hwr : writes_to ADD
            (EvOut (addr_byte addr read_write) ADD :: pre ++
             [EvOut (u8 (Z.land code 0x1C + Z.land ENABLE_INT9 1)) CNT] ++ evs)
          = [addr_byte addr read_write]).
  { cbn [writes_to]. rewrite Z.eqb_refl, !writes_to_app, Hadd.
    rewrite Hw by (unfold SMBHSTADD, SMBHSTSTS, SMBHSTCNT; lia).
    cbn [writes_to app]. ports. reflexivity. }
  exists (EvOut (addr_byte addr read_write) ADD :: pre ++
          [EvOut (u8 (Z.land code 0x1C + Z.land ENABLE_INT9 1)) CNT] ++ evs).
  split; [|split].
  - rewrite He, <- app_assoc. cbn [app]. reflexivity.
  - exact Hwr.
  - intros _ Hrw Hw0 Ha. rewrite Hwr, Hrw, Hw0, Ha. reflexivity.
Qed.

(** The start of the transaction, by the busy-check: up to the end of the
    busy-check nothing is written to the command register; when the
    busy-check passes, the next two events are the read of the command
    register and the write of the value read with bit 6 set, and the
    register is not written again; when it fails the function returns -1
    there. *)
Lemma osb4_transaction_command_write (tr : trace) :
  let bc :=
    osb4_busy_check dev osb4_smba (snd (osb4_dump dev osb4_smba DEBUG tr)) in
  (exists mid, snd bc = tr ++ mid /\ writes_to CNT mid = []) /\
  (fst bc = true ->
   let cnt := u8 (dev (snd bc) CNT) in
   exists rest,
     snd (osb4_transaction dev osb4_smba DEBUG tr) =
     snd bc ++ [EvIn CNT cnt; EvOut (Z.lor cnt 0x040) CNT] ++ rest /\
     writes_to CNT rest = []) /\
  (fst bc = false -> osb4_transaction dev osb4_smba DEBUG tr = (-1, snd bc)).
Proof.
  assert (Hne : CNT <> STS) by (unfold SMBHSTSTS, SMBHSTCNT; lia).
  cbn zeta. rewrite osb4_transaction_run. cbn zeta.
  destruct (osb4_dump_extends dev osb4_smba DEBUG tr) as (evs0 & He0 & _ & Hw0).
  destruct (osb4_busy_check_extends dev osb4_smba
              (snd (osb4_dump dev osb4_smba DEBUG tr)))
    as (evs1 & He1 & _ & Hw1).
  destruct (osb4_busy_check dev osb4_smba
              (snd (osb4_dump dev osb4_smba DEBUG tr))) as [ready tr1].
  cbn [fst snd] in *. split; [|split].
  - exists (evs0 ++ evs1). rewrite He1, He0, <- app_assoc.
    split; [reflexivity|].
    rewrite writes_to_app, Hw0, Hw1 by exact Hne. reflexivity.
  - intros ->. rewrite osb4_start_run. cbn zeta. cbn [snd].
    match goal with |- context [osb4_poll _ _ _ ?t] =>
      destruct (osb4_poll_extends dev osb4_smba 0 t) as (evs2 & He2 & _ & Hw2);
      destruct (osb4_poll dev osb4_smba 0 t) as [[temp timeout] tr3]
    end.
    cbn [snd] in He2. subst tr3.
    match goal with |- context [osb4_clear_status _ _ ?t] =>
      destruct (osb4_clear_status_extends dev osb4_smba t)
        as (evs3 & He3 & _ & Hw3)
    end.
    rewrite He3.
    match goal with |- context [osb4_dump _ _ _ ?t] =>
      destruct (osb4_dump_extends dev osb4_smba DEBUG t)
        as (evs4 & He4 & _ & Hw4)
    end.
    rewrite He4. exists (evs2 ++ evs3 ++ evs4). split.
    + rewrite u8_lor, u8_idem. rewrite <- !app_assoc. reflexivity.
    + rewrite !writes_to_app, Hw2, Hw4, Hw3 by exact Hne. reflexivity.
  - intros ->. reflexivity.
Qed.

(** C3, as amended: for each of the five supported size classes the size
    code and the start bit go to the command register in two separate
    writes.  [osb4_access] first writes the code of the class (plus
    [ENABLE_INT9 & 1]), which has bit 6 clear, and nothing else is written
    to the register up to the end of the busy-check.  When the busy-check
    passes, [osb4_transaction] reads the register and, as its very next
    act, writes back the value just read with bit 6 set; the register is
    not written again.  When the busy-check fails, the first write is the
    only one and the result is -1.  ([tr1] is the trace once the size code
    is written, [bc] the outcome of the busy-check.) *)
Theorem osb4_access_command_writes
    (addr flags read_write command size code : Z) (data : mem) (tr : trace) :
  NoDup (case_labels K) ->
  In (size, code)
     [ (I2C_SMBUS_QUICK K, OSB4_QUICK); (I2C_SMBUS_BYTE K, OSB4_BYTE);
       (I2C_SMBUS_BYTE_DATA K, OSB4_BYTE_DATA);
       (I2C_SMBUS_WORD_DATA K, OSB4_WORD_DATA);
       (I2C_SMBUS_BLOCK_DATA K, OSB4_BLOCK_DATA) ] ->
  let first := code + Z.land ENABLE_INT9 1 in
  let tr0 :=
    snd (osb4_load dev osb4_smba K addr read_write command size data tr) in
  let tr1 := tr0 ++ [EvOut first CNT] in
  let bc :=
    osb4_busy_check dev osb4_smba (snd (osb4_dump dev osb4_smba DEBUG tr1)) in
  let run :=
    osb4_access dev osb4_smba DEBUG K word_order addr flags read_write
      command size data tr in
  let second := Z.lor (u8 (dev (snd bc) CNT)) 0x040 in
  Z.testbit first 6 = false /\
  (exists pre, tr0 = tr ++ pre /\ writes_to CNT pre = []) /\
  (exists mid, snd bc = tr1 ++ mid /\ writes_to CNT mid = []) /\
  (fst bc = true ->
   Z.testbit second 6 = true /\
   exists rest,
     snd run =
     snd bc ++ [EvIn CNT (u8 (dev (snd bc) CNT)); EvOut second CNT] ++ rest /\
     writes_to CNT rest = []) /\
  (fst bc = false -> run = ((-1, data), snd bc)) /\
  (exists evs,
     snd run = tr ++ evs /\
     writes_to CNT evs = if fst bc then [first; second] else [first]).
Proof.
  intros Hnd Hin first tr0 tr1 bc run second.
  destruct (osb4_load_class addr read_write command size code data tr Hnd Hin)
    as (pre & Hload & _ & Hcnt).
  assert (Hcode : u8 (Z.land code 0x1C + Z.land ENABLE_INT9 1) = first /\
                  Z.testbit first 6 = false).
  { subst first. cbn [In] in Hin.
    destruct Hin as [Hin | [Hin | [Hin | [Hin | [Hin | []]]]]];
      inversion Hin; split; reflexivity. }
  destruct Hcode as [Hu Hb].
  assert (Hpre : tr0 = tr ++ EvOut (addr_byte addr read_write) ADD :: pre)
    by (subst tr0; rewrite Hload; reflexivity).
  assert (Hwpre : writes_to CNT (EvOut (addr_byte addr read_write) ADD :: pre)
                  = []).
  { cbn [writes_to]. ports. exact Hcnt. }
  assert (Hrun : run =
    let (err, tr3) := osb4_transaction dev osb4_smba DEBUG tr1 in
    if nonzero err then ((-1, data), tr3)
    else if (read_write =? I2C_SMBUS_WRITE K) || (code =? OSB4_QUICK)
    then ((0, data), tr3)
    else let (data', tr4) :=
           osb4_read_back dev osb4_smba word_order code data tr3 in
         ((0, data'), tr4)).
  { subst run tr1 tr0. rewrite osb4_access_run, Hload. cbn zeta.
    rewrite Hu. reflexivity. }
  assert (Htail : exists rb,
    snd run = snd (osb4_transaction dev osb4_smba DEBUG tr1) ++ rb /\
    writes_to CNT rb = []).
  { rewrite Hrun.
    destruct (osb4_transaction dev osb4_smba DEBUG tr1) as [err tr3].
    cbn [snd].
    destruct (nonzero err);
      [exists []; rewrite app_nil_r; split; reflexivity|].
    destruct (_ || _);
      [exists []; rewrite app_nil_r; split; reflexivity|].
    destruct (osb4_read_back_extends code data tr3) as (evs4 & He4 & Hw4).
    destruct (osb4_read_back dev osb4_smba word_order code data tr3)
      as [data' tr4].
    cbn [snd] in *. exists evs4. split; [exact He4 | apply Hw4]. }
  destruct Htail as (rb & Hrb & Hwrb).
  destruct (osb4_transaction_command_write tr1) as (Hmid & Hready & Hbusy).
  fold bc in Hmid, Hready, Hbusy. cbv zeta in Hready. fold second in Hready.
  destruct Hmid as (mid & Hm & Hwm).
  assert (Hbit : Z.testbit second 6 = true).
  { subst second. rewrite Z.lor_spec. change (Z.testbit 64 6) with true.
    apply orb_true_r. }
  split; [exact Hb|].
  split; [eexists; split; [exact Hpre | exact Hwpre]|].
  split; [exists mid; split; [exact Hm | exact Hwm]|].
  split; [|split].
  - intros Hr. split; [exact Hbit|].
    destruct (Hready Hr) as (rest & Htx & Hwrest).
    exists (rest ++ rb). split.
    + rewrite Hrb, Htx, <- !app_assoc. reflexivity.
    + rewrite writes_to_app, Hwrest, Hwrb. reflexivity.
  - intros Hr. rewrite Hrun, (Hbusy Hr). reflexivity.
  - destruct (fst bc) eqn:Hr.
    + destruct (Hready eq_refl) as (rest & Htx & Hwrest).
      eexists. split.
      * rewrite Hrb, Htx, Hm. subst tr1. rewrite Hpre.
        rewrite <- !app_assoc. reflexivity.
      * rewrite !writes_to_app, Hwpre, Hwm, Hwrest, Hwrb.
        cbn [writes_to app]. rewrite Z.eqb_refl. reflexivity.
    + eexists. split.
      * rewrite Hrun, (Hbusy eq_refl). cbn [nonzero Z.eqb negb snd].
        rewrite Hm. subst tr1. rewrite Hpre. rewrite <- !app_assoc.
        reflexivity.
      * rewrite !writes_to_app, Hwpre, Hwm.
        cbn [writes_to app]. rewrite Z.eqb_refl. reflexivity.
Qed.

(** C7: on a block-data write the length sent is [data->block[0]] clamped to
    0..32 (above 32 it is 32, below 0 it is 0).  After the address and the
    command, [osb4_access] writes that length to data0, reads the command
    register once, and writes [data->block[1]], ..., [data->block[len]] to
    the block port: that many bytes and no more. *)
Theorem osb4_access_block_write
    (addr flags command : Z) (data : mem) (tr : trace) :
  NoDup (case_labels K) ->
  let len := block_len data in
  (0 <= len <= 32 /\ (32 < data 0 -> len = 32) /\ (data 0 < 0 -> len = 0) /\
   (0 <= data 0 <= 32 -> len = data 0)) /\
  exists cnt rest,
    snd (osb4_access dev osb4_smba DEBUG K word_order addr flags
        (I2C_SMBUS_WRITE K)
           command (I2C_SMBUS_BLOCK_DATA K) data tr) =
    tr ++ [EvOut (addr_byte addr (I2C_SMBUS_WRITE K)) ADD;
           EvOut (u8 command) CMD;
           EvOut len DAT0;
           EvIn CNT cnt]
       ++ map (fun k => EvOut (u8 (data (1 + Z.of_nat k))) BLKDAT)
              (seq 0 (Z.to_nat len))
       ++ rest /\
    writes_to DAT0 rest = [] /\ writes_to BLKDAT rest = [].
Proof.
  intros Hnd len. split.
  - subst len. unfold block_len.
    destruct (Z.ltb_spec (data 0) 0);
      [ cbn | destruct (Z.ltb_spec 32 (data 0)) ]; lia.
  - pose proof (osb4_load_block_write addr command data tr Hnd) as Hload.
    cbn zeta in Hload. fold len in Hload.
    destruct (osb4_access_tail addr flags _ command _ data _ _ _ Hload)
      as (evs & He & Hw & _).
    eexists.
    exists ([EvOut (u8 (Z.land OSB4_BLOCK_DATA 0x1C + Z.land ENABLE_INT9 1))
               CNT] ++ evs).
    split; [|split].
    + rewrite He, <- !app_assoc. reflexivity.
    + rewrite writes_to_app,
        Hw by (unfold SMBHSTDAT0, SMBHSTSTS, SMBHSTCNT; lia).
      cbn [writes_to]. ports. reflexivity.
    + rewrite writes_to_app,
        Hw by (unfold SMBBLKDAT, SMBHSTSTS, SMBHSTCNT; lia).
      cbn [writes_to]. ports. reflexivity.
Qed.

(** C9: on a block-data read whose transaction succeeds, [osb4_access] takes
    the length the controller reports in data0, whatever it is up to 255,
    reads that many bytes from the block port and stores them at
    [data->block[1]], ..., [data->block[len]]; nothing clamps the length, so
    for a length above 32 cell 33 and those after it, which lie past the 32
    payload bytes, are stored to as well. *)
Theorem osb4_access_block_read
    (addr flags read_write command : Z) (data : mem) (tr : trace) :
  NoDup (case_labels K) ->
  read_write <> I2C_SMBUS_WRITE K ->
  let tr1 := tr ++ [EvOut (addr_byte addr read_write) ADD;
                    EvOut (u8 command) CMD;
                    EvOut OSB4_BLOCK_DATA CNT] in
  fst (osb4_transaction dev osb4_smba DEBUG tr1) = 0 ->
  let tr2 := snd (osb4_transaction dev osb4_smba DEBUG tr1) in
  let len := u8 (dev tr2 DAT0) in
  exists cnt bytes data',
    osb4_access dev osb4_smba DEBUG K word_order addr flags read_write command
      (I2C_SMBUS_BLOCK_DATA K) data tr =
    ((0, data'),
     tr2 ++ [EvIn DAT0 len; EvIn CNT cnt] ++ map (EvIn BLKDAT) bytes) /\
    length bytes = Z.to_nat len /\
    data' 0 = len /\
    (forall j, 1 <= j <= len -> data' j = nth (Z.to_nat (j - 1)) bytes 0) /\
    (forall j, j < 0 \/ len < j -> data' j = data j) /\
    (32 < len -> data' 33 = nth 32 bytes 0).
Proof.
  intros Hnd Hrw tr1 Hok tr2 len.
  apply NoDup6 in Hnd.
  destruct Hnd as ((? & ? & ? & ? & ?) & (? & ? & ? & ?) & (? & ? & ?) &
                   (? & ?) & ?).
  rewrite osb4_access_run.
  unfold osb4_load. labels.
  destruct (Z.eqb_spec read_write (I2C_SMBUS_WRITE K)) as [|_]; [contradiction|].
  io_unfold. rewrite u8_addr_byte. cbn zeta. rewrite <- !app_assoc.
  cbn [app]. change (u8 (Z.land OSB4_BLOCK_DATA 28 + Z.land ENABLE_INT9 1))
    with OSB4_BLOCK_DATA.
  fold tr1. subst tr2.
  destruct (osb4_transaction dev osb4_smba DEBUG tr1) as [err tr2].
  cbn [fst snd] in *. subst err. cbn [nonzero Z.eqb negb orb].
  unfold osb4_read_back. io_unfold.
  change (OSB4_BLOCK_DATA =? OSB4_BYTE) with false.
  change (OSB4_BLOCK_DATA =? OSB4_BYTE_DATA) with false.
  change (OSB4_BLOCK_DATA =? OSB4_WORD_DATA) with false.
  change (OSB4_BLOCK_DATA =? OSB4_BLOCK_DATA) with true.
  change (OSB4_BLOCK_DATA =? OSB4_QUICK) with false.
  cbn [orb]. cbn iota.
  match goal with |- context [block_in _ _ ?d ?i ?t] =>
    destruct (block_in_run d i t) as (bytes & Hlen & Htr & Hin & Hout);
    destruct (block_in dev osb4_smba d i t) as [data' tr4]
  end.
  cbn [fst snd] in *.
  pose proof (u8_range (dev tr2 DAT0)) as Hr.
  fold len in Hlen, Hin, Hout, Htr, Hr |- *.
  clearbody len.
  assert (Hst : store data 0 len 0 = len) by reflexivity.
  rewrite Hst in Hlen, Hin, Hout.
  eexists. exists bytes, data'. split; [|split; [|split; [|split; [|split]]]].
  - rewrite Htr, <- !app_assoc. reflexivity.
  - rewrite Hlen. unfold span. f_equal. lia.
  - rewrite Hout by lia. reflexivity.
  - intros j Hj. apply Hin. exact Hj.
  - intros j Hj. rewrite Hout by lia. unfold store.
    destruct (Z.eqb_spec j 0); [lia | reflexivity].
  - intros Hbig. rewrite Hin by lia. reflexivity.
Qed.

(** C10: a [size] that is none of the six [case] labels is not rejected.
    [osb4_access] loads no register: its first act is to write
    [size & 0x1C], bits of the raw value, to the command register; it then
    runs [osb4_transaction], after which it only reads; and it returns -1
    only when the transaction failed. *)
Theorem osb4_access_unhandled_size
    (addr flags read_write command size : Z) (data : mem) (tr : trace) :
  ~ In size (case_labels K) ->
  let tr1 := tr ++ [EvOut (Z.land size 0x1C) CNT] in
  exists rest,
    snd (osb4_access dev osb4_smba DEBUG K word_order addr flags read_write
        command size
           data tr) =
    snd (osb4_transaction dev osb4_smba DEBUG tr1) ++ rest /\
    (forall p, writes_to p rest = []) /\
    fst (fst (osb4_access dev osb4_smba DEBUG K word_order addr flags
        read_write command
                size data tr)) =
    (if nonzero (fst (osb4_transaction dev osb4_smba DEBUG tr1))
     then -1 else 0).
Proof.
  intros Hnot tr1.
  assert (Hload : osb4_load dev osb4_smba K addr read_write command size data tr
                  = (Some size, tr)).
  { unfold osb4_load, case_labels in *. cbn [In] in Hnot.
    repeat match goal with
           | |- context [size =? ?l] =>
               destruct (Z.eqb_spec size l); [exfalso; intuition congruence|]
           end.
    reflexivity. }
  rewrite osb4_access_run, Hload. cbn zeta.
  change (Z.land ENABLE_INT9 1) with 0.
  rewrite Z.add_0_r, u8_land_mask by reflexivity. fold tr1.
  destruct (osb4_transaction dev osb4_smba DEBUG tr1) as [err tr3].
  cbn [fst snd].
  destruct (nonzero err).
  - exists []. rewrite app_nil_r. repeat split; reflexivity.
  - destruct (_ || _).
    + exists []. rewrite app_nil_r. repeat split; reflexivity.
    + destruct (osb4_read_back_extends size data tr3) as (evs & He & Hw).
      destruct (osb4_read_back dev osb4_smba word_order size data tr3) as
          [data' tr4].
      cbn [fst snd] in *. subst tr4. exists evs. repeat split; auto.
Qed.

End Access.

Lemma linux_labels_distinct : NoDup (case_labels linux_i2c_h).
Proof. repeat constructor; cbn; intuition discriminate. Qed.

(** The address byte theorem at a quick write to address 0x50. *)
Lemma osb4_access_address_byte_witness :
  exists evs,
    snd (osb4_access dev_idle 0 false linux_i2c_h LeftFirst 0x50 0 0 0 0 zeros
        []) =
    [] ++ evs /\
    writes_to 4 evs = [0xA0].
Proof.
  destruct (osb4_access_address_byte dev_idle 0 false linux_i2c_h LeftFirst
              0x50 0 0 0 0 zeros [] linux_labels_distinct
              (or_introl eq_refl))
    as (evs & He & _ & H50).
  exists evs. split; [exact He | apply H50; reflexivity].
Defined.

(** The command writes theorem at a byte-data write, against a controller
    that passes the busy-check and reads back what was written (the size
    code 0x08, then 0x48 with the start bit) and against one that fails the
    busy-check (the size code only, and -1). *)
Lemma osb4_access_command_writes_witness :
  (exists rest,
     snd (osb4_access dev_regs 0 false linux_i2c_h LeftFirst 0x50 0 0 0 2
            zeros []) =
     [EvOut 0xA0 4; EvOut 0 3; EvOut 0 5; EvOut 0x08 2; EvIn 0 0]
     ++ [EvIn 2 0x08; EvOut 0x48 2] ++ rest /\
     writes_to 2 rest = []) /\
  osb4_access dev_wedged 0 false linux_i2c_h LeftFirst 0x50 0 0 0 2 zeros [] =
  ((-1, zeros),
   [EvOut 0xA0 4; EvOut 0 3; EvOut 0 5; EvOut 0x08 2;
    EvIn 0 0x02; EvOut 0x02 0; EvIn 0 0x02]).
Proof.
  split.
  - pose proof (osb4_access_command_writes dev_regs 0 false linux_i2c_h
                  LeftFirst 0x50 0 0 0 2 OSB4_BYTE_DATA zeros []
                  linux_labels_distinct
                  (or_intror (or_intror (or_introl eq_refl)))) as H.
    cbv zeta in H. destruct H as (_ & _ & _ & Hready & _).
    destruct (Hready eq_refl) as (_ & rest & Hrun & Hw).
    exists rest. split; [exact Hrun | exact Hw].
  - pose proof (osb4_access_command_writes dev_wedged 0 false linux_i2c_h
                  LeftFirst 0x50 0 0 0 2 OSB4_BYTE_DATA zeros []
                  linux_labels_distinct
                  (or_intror (or_intror (or_introl eq_refl)))) as H.
    cbv zeta in H. destruct H as (_ & _ & _ & _ & Hbusy & _).
    exact (Hbusy eq_refl).
Defined.

(** C3, as it is stated, fails: on a byte-data write to a controller whose
    registers read back what was written, the command register is written
    twice, not once: first with the size code 0x08, start bit clear, and
    then with the start bit set in the value read back, 0x48. *)
Lemma osb4_access_command_written_twice :
  writes_to 2
    (snd (osb4_access dev_regs 0 false linux_i2c_h LeftFirst 0x50 0 0 0 2 zeros
        [])) =
  [0x08; 0x48] /\
  ~ (exists w,
       writes_to 2
         (snd (osb4_access dev_regs 0 false linux_i2c_h LeftFirst 0x50 0 0 0 2
             zeros []))
       = [w]).
Proof.
  assert (H : writes_to 2
    (snd (osb4_access dev_regs 0 false linux_i2c_h LeftFirst 0x50 0 0 0 2 zeros
        [])) =
    [0x08; 0x48]) by (vm_compute; reflexivity).
  split; [exact H|]. rewrite H. intros [w Hw]. discriminate Hw.
Qed.

(** The block write theorem at a buffer that declares 40 bytes. *)
Lemma osb4_access_block_write_witness :
  block_len block40 = 32 /\
  exists cnt rest,
    snd (osb4_access dev_idle 0 false linux_i2c_h LeftFirst 0x50 0 0 0x10 5
        block40 []) =
    [] ++ [EvOut (addr_byte 0x50 0) 4; EvOut (u8 0x10) 3;
           EvOut (block_len block40) 5; EvIn 2 cnt]
       ++ map (fun k => EvOut (u8 (block40 (1 + Z.of_nat k))) 7)
              (seq 0 (Z.to_nat (block_len block40)))
       ++ rest /\
    writes_to 5 rest = [] /\ writes_to 7 rest = [].
Proof.
  destruct (osb4_access_block_write dev_idle 0 false linux_i2c_h LeftFirst
              0x50 0 0x10 block40 [] linux_labels_distinct)
    as ((_ & Hbig & _) & Hrun).
  split; [apply Hbig; reflexivity | exact Hrun].
Defined.

(** The block read theorem at a controller that reports 40 bytes. *)
Lemma osb4_access_block_read_witness :
  exists cnt bytes data',
    osb4_access dev_block40 0 false linux_i2c_h LeftFirst 0x50 0 1 0 5 zeros []
        =
    ((0, data'),
     snd (osb4_transaction dev_block40 0 false
            ([] ++ [EvOut (addr_byte 0x50 1) 4; EvOut (u8 0) 3; EvOut 0x14 2]))
     ++ [EvIn 5 40; EvIn 2 cnt] ++ map (EvIn 7) bytes) /\
    length bytes = 40%nat /\
    data' 0 = 40 /\
    data' 33 = nth 32 bytes 0.
Proof.
  destruct (osb4_access_block_read dev_block40 0 false linux_i2c_h LeftFirst
              0x50 0 1 0 zeros [] linux_labels_distinct
              ltac:(discriminate) eq_refl)
    as (cnt & bytes & data' & Hrun & Hlen & H0 & _ & _ & H33).
  exists cnt, bytes, data'.
  split; [exact Hrun|]. split; [exact Hlen|]. split; [exact H0|].
  apply H33. reflexivity.
Defined.

(** On that run cell 33 of the caller's buffer, which held 0, holds the
    byte 0xAB of the controller. *)
Lemma osb4_access_block_read_past_32 :
  snd (fst (osb4_access dev_block40 0 false linux_i2c_h LeftFirst 0x50 0 1 0 5
      zeros []))
    33 = 0xAB.
Proof. vm_compute; reflexivity. Qed.

(** The unhandled size theorem at [size = 8] under the 2.4 header. *)
Lemma osb4_access_unhandled_size_witness :
  exists rest,
    snd (osb4_access dev_idle 0 false linux_i2c_h LeftFirst 0x50 0 0 0 8 zeros
        []) =
    snd (osb4_transaction dev_idle 0 false ([] ++ [EvOut (Z.land 8 0x1C) 2]))
    ++ rest /\
    (forall p, writes_to p rest = []) /\
    fst (fst (osb4_access dev_idle 0 false linux_i2c_h LeftFirst 0x50 0 0 0 8
        zeros [])) =
    (if nonzero (fst (osb4_transaction dev_idle 0 false
                        ([] ++ [EvOut (Z.land 8 0x1C) 2])))
     then -1 else 0).
Proof.
  apply (osb4_access_unhandled_size dev_idle 0 false linux_i2c_h LeftFirst
           0x50 0 0 0 8 zeros []).
  cbn. intuition discriminate.
Defined.

(** ** osb4_setup *)

Lemma u16_land_mask (v m : Z) :
  Z.land m 65535 = m -> u16 (Z.land v m) = Z.land v m.
Proof.
  intros Hm. unfold u16. change 65536 with (2 ^ 16).
  rewrite <- Z.land_ones by lia. change (Z.ones 16) with 65535.
  rewrite <- Z.land_assoc, Hm. reflexivity.
Qed.

Section SetupFacts.

Variable ENODEV : Z.
Variable PCI_FUNC : Z -> Z.
Variable P : platform.

(** C8: when [force_addr] is set and [osb4_setup] gets to the controller
    (a PCI bus, an OSB4 function 0, its I/O region free), the base address is
    [force_addr & 0xfff0] and the configuration writes are, in this order:
    the host configuration byte with bit 0 cleared, the base address, the
    host configuration byte with bit 0 set.  The byte [temp] read from the
    host configuration register is arbitrary: its enable bit does not
    matter. *)
Theorem osb4_setup_force_addr (g : globals) (OSB4_dev : pci_dev) :
  force_addr g <> 0 ->
  pci_present P <> 0 ->
  find_function0 PCI_FUNC (osb4_devices P) = Some OSB4_dev ->
  check_region P (Z.land (force_addr g) 0xfff0) 8 = 0 ->
  let base := Z.land (force_addr g) 0xfff0 in
  let temp := u8 (config OSB4_dev SMBHSTCFG) in
  osb4_setup ENODEV PCI_FUNC P g =
  (0,
   {| force := 0; force_addr := force_addr g; smba := base |},
   [ PciWriteByte SMBHSTCFG (Z.land temp 0xfe);
     PciWriteWord SMBBA base;
     PciWriteByte SMBHSTCFG (Z.lor temp 0x01);
     RequestRegion base 8 ]) /\
  Z.testbit (Z.land temp 0xfe) 0 = false /\
  Z.testbit (Z.lor temp 0x01) 0 = true.
Proof.
  intros Hforce Hpci Hfind Hfree base temp.
  split; [|split].
  - unfold osb4_setup, osb4_locate.
    apply nonzero_true in Hforce. apply Z.eqb_neq in Hpci.
    rewrite Hpci, Hfind, Hforce. cbn [smba force_addr force].
    rewrite u16_land_mask by reflexivity. fold base.
    unfold base at 1. rewrite Hfree. cbn [nonzero Z.eqb negb].
    rewrite Hforce. reflexivity.
  - rewrite Z.land_spec. apply andb_false_r.
  - rewrite Z.lor_spec. apply orb_true_r.
Qed.

End SetupFacts.

(** The forced address theorem with [force_addr=0x1000], once with the
    enable bit of the controller set and once with it clear. *)
Lemma osb4_setup_force_addr_witness :
  osb4_setup 19 linux_PCI_FUNC (platform_with 0x01) forced_0x1000 =
  (0, {| force := 0; force_addr := 0x1000; smba := 0x1000 |},
   [ PciWriteByte SMBHSTCFG 0x00; PciWriteWord SMBBA 0x1000;
     PciWriteByte SMBHSTCFG 0x01; RequestRegion 0x1000 8 ]) /\
  osb4_setup 19 linux_PCI_FUNC (platform_with 0x00) forced_0x1000 =
  (0, {| force := 0; force_addr := 0x1000; smba := 0x1000 |},
   [ PciWriteByte SMBHSTCFG 0x00; PciWriteWord SMBBA 0x1000;
     PciWriteByte SMBHSTCFG 0x01; RequestRegion 0x1000 8 ]).
Proof.
  split.
  - apply (osb4_setup_force_addr 19 linux_PCI_FUNC (platform_with 0x01)
             forced_0x1000
             {| devfn := 0x78;
                config := fun off => if off =? SMBHSTCFG then 0x01 else 0x0580 |}).
    + discriminate.
    + discriminate.
    + reflexivity.
    + reflexivity.
  - apply (osb4_setup_force_addr 19 linux_PCI_FUNC (platform_with 0x00)
             forced_0x1000
             {| devfn := 0x78;
                config := fun off => if off =? SMBHSTCFG then 0x00 else 0x0580 |}).
    + discriminate.
    + discriminate.
    + reflexivity.
    + reflexivity.
Defined.

(** * More of the driver *)

(** ** osb4_setup: the search, the failures, the probe *)

Lemma land_0xfff0_aligned (v : Z) :
  Z.land (Z.land v 0xfff0) 0xf = 0 /\ 0 <= Z.land v 0xfff0 <= 0xfff0.
Proof.
  assert (Ha : Z.land (Z.land v 0xfff0) 0xf = 0).
  { rewrite <- Z.land_assoc. change (Z.land 0xfff0 0xf) with 0.
    apply Z.land_0_r. }
  split; [exact Ha|].
  assert (Hr : 0 <= Z.land v 0xfff0 < 65536).
  { rewrite <- (u16_land_mask v 0xfff0) by reflexivity.
    unfold u16. apply Z.mod_pos_bound. lia. }
  change 0xf with (Z.ones 4) in Ha. rewrite Z.land_ones in Ha by lia.
  change (2 ^ 4) with 16 in Ha.
  pose proof (Z.div_mod (Z.land v 0xfff0) 16 ltac:(lia)) as Hd.
  lia.
Qed.

Section SetupMore.

Variable ENODEV : Z.
Variable PCI_FUNC : Z -> Z.
Variable P : platform.

(** The search stops at the first device whose function number is 0: the
    devices before it all have another function number, and when it finds
    nothing no device has function number 0. *)
Theorem find_function0_first (devs : list pci_dev) :
  match find_function0 PCI_FUNC devs with
  | Some d =>
      exists before after,
        devs = before ++ d :: after /\
        PCI_FUNC (devfn d) = 0 /\
        Forall (fun x => PCI_FUNC (devfn x) <> 0) before
  | None => Forall (fun x => PCI_FUNC (devfn x) <> 0) devs
  end.
Proof.
  induction devs as [|d devs IH]; cbn [find_function0].
  - constructor.
  - destruct (nonzero (PCI_FUNC (devfn d))) eqn:E.
    + apply nonzero_true in E.
      destruct (find_function0 PCI_FUNC devs) as [d'|].
      * destruct IH as (before & after & -> & H0 & Hb).
        exists (d :: before), after. repeat split; auto.
      * constructor; assumption.
    + exists [], devs. repeat split; [|constructor].
      unfold nonzero in E. destruct (Z.eqb_spec (PCI_FUNC (devfn d)) 0);
        [assumption | discriminate].
Qed.

(** Each of the three failures that come before the controller is touched
    (no PCI bus, no OSB4 function 0, the I/O region in use) returns
    [-ENODEV] and neither writes to the configuration space nor requests the
    region; the first two leave the variables as they were. *)
Theorem osb4_setup_failures (g : globals) :
  (pci_present P = 0 ->
   osb4_setup ENODEV PCI_FUNC P g = (- ENODEV, g, [])) /\
  (find_function0 PCI_FUNC (osb4_devices P) = None ->
   osb4_setup ENODEV PCI_FUNC P g = (- ENODEV, g, [])) /\
  (forall OSB4_dev,
     pci_present P <> 0 ->
     find_function0 PCI_FUNC (osb4_devices P) = Some OSB4_dev ->
     check_region P (smba (osb4_locate OSB4_dev g)) 8 <> 0 ->
     fst (fst (osb4_setup ENODEV PCI_FUNC P g)) = - ENODEV /\
     snd (osb4_setup ENODEV PCI_FUNC P g) = []).
Proof.
  unfold osb4_setup. split; [|split].
  - intros ->. reflexivity.
  - intros ->. destruct (pci_present P =? 0); reflexivity.
  - intros d Hp Hf Hc. apply Z.eqb_neq in Hp. apply nonzero_true in Hc.
    rewrite Hp, Hf. cbn zeta. rewrite Hc. split; reflexivity.
Qed.

(** All or nothing: [osb4_setup] either returns [-ENODEV] having written
    and requested nothing, or returns 0 having requested the region once, as
    its last act, after configuration writes only.  It never changes
    [force_addr]. *)
Theorem osb4_setup_all_or_nothing (g : globals) :
  let '(res, g', evs) := osb4_setup ENODEV PCI_FUNC P g in
  force_addr g' = force_addr g /\
  ((res = - ENODEV /\ evs = []) \/
   (res = 0 /\
    exists writes,
      evs = writes ++ [RequestRegion (smba g') 8] /\
      Forall (fun e => match e with
                       | RequestRegion _ _ => False
                       | _ => True
                       end) writes)).
Proof.
  unfold osb4_setup.
  destruct (pci_present P =? 0); [split; [reflexivity | left; split; reflexivity]|].
  destruct (find_function0 PCI_FUNC (osb4_devices P)) as [d|];
    [|split; [reflexivity | left; split; reflexivity]].
  cbn zeta.
  assert (Hfa : force_addr (osb4_locate d g) = force_addr g).
  { unfold osb4_locate. destruct (nonzero (force_addr g)); reflexivity. }
  destruct (nonzero (check_region P (smba (osb4_locate d g)) 8));
    [split; [exact Hfa | left; split; reflexivity]|].
  destruct (nonzero (force_addr (osb4_locate d g))).
  - split; [exact Hfa|]. right. split; [reflexivity|].
    eexists [_; _; _]. split; [reflexivity|]. repeat constructor.
  - destruct (Z.land _ 1 =? 0).
    + destruct (nonzero (force (osb4_locate d g))).
      * split; [exact Hfa|]. right. split; [reflexivity|].
        eexists [_]. split; [reflexivity|]. repeat constructor.
      * split; [exact Hfa | left; split; reflexivity].
    + split; [exact Hfa|]. right. split; [reflexivity|].
      exists []. split; [reflexivity | constructor].
Qed.

(** Every region [osb4_setup] requests is 8 ports long and starts at the
    address it leaves in [osb4_smba], which is a multiple of 16 between 0
    and 0xfff0. *)
Theorem osb4_setup_region_aligned (g : globals) (from extent : Z) :
  In (RequestRegion from extent) (snd (osb4_setup ENODEV PCI_FUNC P g)) ->
  from = smba (snd (fst (osb4_setup ENODEV PCI_FUNC P g))) /\
  extent = 8 /\ Z.land from 0xf = 0 /\ 0 <= from <= 0xfff0.
Proof.
  unfold osb4_setup.
  destruct (pci_present P =? 0); [intros []|].
  destruct (find_function0 PCI_FUNC (osb4_devices P)) as [d|]; [|intros []].
  cbn zeta.
  assert (Hal : Z.land (smba (osb4_locate d g)) 0xf = 0 /\
                0 <= smba (osb4_locate d g) <= 0xfff0).
  { unfold osb4_locate. destruct (nonzero (force_addr g)); cbn [smba].
    - rewrite u16_land_mask by reflexivity. apply land_0xfff0_aligned.
    - apply land_0xfff0_aligned. }
  destruct (nonzero (check_region P (smba (osb4_locate d g)) 8)); [intros []|].
  assert (Hreq : RequestRegion (smba (osb4_locate d g)) 8 =
                 RequestRegion from extent ->
                 from = smba (osb4_locate d g) /\ extent = 8 /\
                 Z.land from 15 = 0 /\ 0 <= from <= 65520).
  { intros H. inversion H; subst. tauto. }
  destruct (nonzero (force_addr (osb4_locate d g))); cbn [snd fst In].
  - intros [H | [H | [H | [H | []]]]]; try discriminate H. exact (Hreq H).
  - destruct (Z.land _ 1 =? 0).
    + destruct (nonzero (force (osb4_locate d g))); cbn [snd fst In].
      * intros [H | [H | []]]; try discriminate H. exact (Hreq H).
      * intros [].
    + cbn [snd fst In]. intros [H | []]. exact (Hreq H).
Qed.

(** Without [force_addr], once the controller is found at a free region
    whose base comes from its SMBBA register: an enabled controller (bit 0
    of the host configuration byte set) is not written to; a disabled one is
    enabled only when [force] is set, by one write that sets bit 0 and keeps
    the other bits; without [force] the function returns [-ENODEV] and
    requests nothing. *)
Theorem osb4_setup_probe (g : globals) (OSB4_dev : pci_dev) :
  force_addr g = 0 ->
  pci_present P <> 0 ->
  find_function0 PCI_FUNC (osb4_devices P) = Some OSB4_dev ->
  let base := Z.land (u16 (config OSB4_dev SMBBA)) 0xfff0 in
  let temp := u8 (config OSB4_dev SMBHSTCFG) in
  let g' := {| force := force g; force_addr := 0; smba := base |} in
  check_region P base 8 = 0 ->
  (Z.testbit temp 0 = true ->
   osb4_setup ENODEV PCI_FUNC P g = (0, g', [RequestRegion base 8])) /\
  (Z.testbit temp 0 = false -> force g <> 0 ->
   osb4_setup ENODEV PCI_FUNC P g =
   (0, g', [PciWriteByte SMBHSTCFG (Z.lor temp 1); RequestRegion base 8]) /\
   Z.testbit (Z.lor temp 1) 0 = true /\
   (forall n, 0 < n -> Z.testbit (Z.lor temp 1) n = Z.testbit temp n)) /\
  (Z.testbit temp 0 = false -> force g = 0 ->
   osb4_setup ENODEV PCI_FUNC P g = (- ENODEV, g', [])).
Proof.
  intros Hfa Hp Hf base temp g' Hfree.
  assert (Hrun : osb4_setup ENODEV PCI_FUNC P g =
    if nonzero (Z.land temp 1) then (0, g', [RequestRegion base 8])
    else if nonzero (force g)
         then (0, g', [PciWriteByte SMBHSTCFG (Z.lor temp 1);
                       RequestRegion base 8])
         else (- ENODEV, g', [])).
  { unfold osb4_setup, osb4_locate. apply Z.eqb_neq in Hp.
    rewrite Hp, Hf, Hfa. cbn [nonzero Z.eqb negb smba force_addr force].
    fold base. rewrite Hfree. cbn [nonzero Z.eqb negb]. fold temp. fold g'.
    unfold nonzero. destruct (Z.land temp 1 =? 0); reflexivity. }
  change 1 with (2 ^ 0) in Hrun at 1.
  rewrite nonzero_land_bit in Hrun by lia.
  split; [|split].
  - intros Hb. rewrite Hrun, Hb. reflexivity.
  - intros Hb Hforce. apply nonzero_true in Hforce.
    rewrite Hrun, Hb, Hforce. split; [reflexivity|]. split.
    + rewrite Z.lor_spec. apply orb_true_r.
    + intros n Hn. rewrite Z.lor_spec.
      replace (Z.testbit 1 n) with false; [apply orb_false_r|].
      symmetry. change 1 with (2 ^ 0). rewrite Z.pow2_bits_eqb by lia.
      apply Z.eqb_neq. lia.
  - intros Hb Hforce. rewrite Hrun, Hb, Hforce. reflexivity.
Qed.

End SetupMore.

(** The probe theorem at a platform whose controller is enabled, at one
    whose controller is disabled with [force=1], and at one whose
    controller is disabled without [force]. *)
Lemma osb4_setup_probe_witness :
  osb4_setup 19 linux_PCI_FUNC (platform_with 0x01)
    {| force := 0; force_addr := 0; smba := 0 |} =
  (0, {| force := 0; force_addr := 0; smba := 0x0580 |},
   [RequestRegion 0x0580 8]) /\
  osb4_setup 19 linux_PCI_FUNC (platform_with 0x08)
    {| force := 1; force_addr := 0; smba := 0 |} =
  (0, {| force := 1; force_addr := 0; smba := 0x0580 |},
   [PciWriteByte SMBHSTCFG 0x09; RequestRegion 0x0580 8]) /\
  osb4_setup 19 linux_PCI_FUNC (platform_with 0x08)
    {| force := 0; force_addr := 0; smba := 0 |} =
  (-19, {| force := 0; force_addr := 0; smba := 0x0580 |}, []).
Proof.
  split; [|split].
  - apply (osb4_setup_probe 19 linux_PCI_FUNC (platform_with 0x01)
             {| force := 0; force_addr := 0; smba := 0 |}
             {| devfn := 0x78;
                config := fun off => if off =? SMBHSTCFG then 0x01 else 0x0580 |});
      try reflexivity; discriminate.
  - apply (osb4_setup_probe 19 linux_PCI_FUNC (platform_with 0x08)
             {| force := 1; force_addr := 0; smba := 0 |}
             {| devfn := 0x78;
                config := fun off => if off =? SMBHSTCFG then 0x08 else 0x0580 |});
      try reflexivity; discriminate.
  - apply (osb4_setup_probe 19 linux_PCI_FUNC (platform_with 0x08)
             {| force := 0; force_addr := 0; smba := 0 |}
             {| devfn := 0x78;
                config := fun off => if off =? SMBHSTCFG then 0x08 else 0x0580 |});
      try reflexivity; discriminate.
Defined.

(** ** i2c_osb4_init and osb4_cleanup *)

Lemma regions_held_app (a b : list module_event) (held : list (Z * Z)) :
  regions_held (a ++ b) held =
  match regions_held a held with
  | Some held' => regions_held b held'
  | None => None
  end.
Proof.
  revert held. induction a as [|e a IH]; intros held; [reflexivity|].
  destruct e as [[| |from n]| | |from n]; cbn [app regions_held];
    try apply IH.
  - destruct (existsb (overlaps from n) held); [reflexivity | apply IH].
  - destruct (remove_one from n held); [apply IH | reflexivity].
Qed.

(** A misuse is never forgotten: when the events of a run end with regions
    held, so did every prefix of the run. *)
Lemma regions_held_prefix (a b : list module_event) (held h : list (Z * Z)) :
  regions_held (a ++ b) held = Some h ->
  exists h', regions_held a held = Some h'.
Proof.
  rewrite regions_held_app.
  destruct (regions_held a held) as [h'|]; [|discriminate].
  intros _. exists h'. reflexivity.
Qed.

(** What the ledger refuses: the release of a region that is not held, a
    second request of a region that is held, and a second release. *)
Lemma regions_held_misuse (b : Z) :
  regions_held [EvReleaseRegion b 8] [] = None /\
  regions_held [EvSetup (RequestRegion b 8); EvSetup (RequestRegion b 8)] []
    = None /\
  regions_held [EvSetup (RequestRegion b 8); EvReleaseRegion b 8;
                EvReleaseRegion b 8] [] = None.
Proof.
  assert (Ho : overlaps b 8 (b, 8) = true).
  { unfold overlaps. cbn [fst snd].
    replace (b <? b + 8) with true by (symmetry; apply Z.ltb_lt; lia).
    reflexivity. }
  split; [reflexivity|]. split.
  - cbn [regions_held existsb]. rewrite Ho. reflexivity.
  - cbn [regions_held existsb remove_one]. unfold same_region.
    cbn [fst snd]. rewrite !Z.eqb_refl. reflexivity.
Qed.

Lemma hex_digit_inj (x y : Z) :
  0 <= x < 16 -> 0 <= y < 16 -> hex_digit x = hex_digit y -> x = y.
Proof.
  intros Hx Hy H. apply (f_equal nat_of_ascii) in H. unfold hex_digit in H.
  destruct (Z.ltb_spec x 10), (Z.ltb_spec y 10);
    rewrite !nat_ascii_embedding in H by lia; lia.
Qed.

Lemma append_inj_l (p x y : string) :
  (p ++ x)%string = (p ++ y)%string -> x = y.
Proof.
  induction p as [|c p IH]; cbn [String.append]; intros H; [exact H|].
  injection H as H. exact (IH H).
Qed.

Lemma hex04_inj (a b : Z) :
  0 <= a < 65536 -> 0 <= b < 65536 -> hex04 a = hex04 b -> a = b.
Proof.
  intros Ha Hb H. unfold hex04 in H. injection H as H3 H2 H1 H0.
  apply hex_digit_inj in H3, H2, H1, H0;
    try (apply Z.mod_pos_bound; lia).
  Z.div_mod_to_equations. lia.
Qed.

(** The name [i2c_osb4_init] gives the adapter is 26 characters long, and
    two base addresses that differ as [unsigned short] get different
    names. *)
Theorem osb4_name_length_inj (a b : Z) :
  String.length (osb4_name a) = 26%nat /\
  (osb4_name a = osb4_name b -> u16 a = u16 b).
Proof.
  split; [reflexivity|].
  unfold osb4_name. intros H. apply append_inj_l in H.
  apply hex04_inj in H; [exact H | |]; unfold u16; apply Z.mod_pos_bound; lia.
Qed.

Section LifecycleFacts.

Variable ENODEV : Z.
Variable EBUSY : Z.
Variable PCI_FUNC : Z -> Z.

(** [i2c_osb4_init], called with [osb4_initialized] at 0, case by case on
    what [osb4_setup] and [i2c_add_adapter] return. *)
Lemma i2c_osb4_init_run (P : platform) (add del : Z) (st : module_state) :
  osb4_initialized st = 0 ->
  i2c_osb4_init ENODEV EBUSY PCI_FUNC P add del st =
  let '(res, g, pci_evs) := osb4_setup ENODEV PCI_FUNC P (vars st) in
  if nonzero res then
    (res, {| vars := g; osb4_initialized := 0;
             adapter_name := adapter_name st |}, map EvSetup pci_evs)
  else if nonzero add then
    (add, {| vars := g; osb4_initialized := 0;
             adapter_name := osb4_name (smba g) |},
     map EvSetup pci_evs ++
     [EvAddAdapter (osb4_name (smba g)); EvReleaseRegion (smba g) 8])
  else
    (0, {| vars := g; osb4_initialized := 2;
           adapter_name := osb4_name (smba g) |},
     map EvSetup pci_evs ++ [EvAddAdapter (osb4_name (smba g))]).
Proof.
  intros H0. unfold i2c_osb4_init. rewrite H0. cbn [nonzero Z.eqb negb].
  cbn [set_initialized vars osb4_initialized adapter_name].
  destruct (osb4_setup ENODEV PCI_FUNC P (vars st)) as [[res g] pci_evs].
  destruct (nonzero res).
  - unfold osb4_cleanup, osb4_cleanup_region.
    cbn [osb4_initialized Z.leb Z.compare]. rewrite app_nil_r. reflexivity.
  - cbn [set_initialized vars osb4_initialized adapter_name Z.add].
    destruct (nonzero add); [|reflexivity].
    unfold osb4_cleanup, osb4_cleanup_region.
    cbn [osb4_initialized Z.leb Z.compare Pos.compare Pos.compare_cont
         set_initialized vars adapter_name Z.sub Z.add Z.opp Z.pos_sub].
    rewrite <- app_assoc. reflexivity.
Qed.

(** A second call of [i2c_osb4_init] ("Oops, osb4_init called a second
    time!"): once a call has returned 0, another call returns [-EBUSY],
    touches no hardware and changes no variable, whatever the machine and
    the registry would answer. *)
Theorem i2c_osb4_init_twice (P P' : platform) (add del add' del' : Z)
    (st : module_state) :
  osb4_initialized st = 0 ->
  let '(res, st', _) := i2c_osb4_init ENODEV EBUSY PCI_FUNC P add del st in
  res = 0 ->
  i2c_osb4_init ENODEV EBUSY PCI_FUNC P' add' del' st' = (- EBUSY, st', []).
Proof.
  intros H0. rewrite (i2c_osb4_init_run P add del st H0).
  destruct (osb4_setup ENODEV PCI_FUNC P (vars st)) as [[res g] pci_evs].
  destruct (nonzero res) eqn:Er.
  - intros ->. discriminate Er.
  - destruct (nonzero add) eqn:Ea.
    + intros ->. discriminate Ea.
    + intros _. reflexivity.
Qed.

(** Called with [osb4_initialized] at 0, [i2c_osb4_init] returns 0 exactly
    when [osb4_setup] and [i2c_add_adapter] both return 0; it then leaves
    [osb4_initialized] at 2 and the adapter named after the base address.
    Otherwise it returns the first error met and leaves [osb4_initialized]
    at 0. *)
Theorem i2c_osb4_init_result (P : platform) (add del : Z) (st : module_state) :
  osb4_initialized st = 0 ->
  let setup_res := fst (fst (osb4_setup ENODEV PCI_FUNC P (vars st))) in
  let '(res, st', _) := i2c_osb4_init ENODEV EBUSY PCI_FUNC P add del st in
  (res = 0 <-> setup_res = 0 /\ add = 0) /\
  (res = 0 ->
   osb4_initialized st' = 2 /\
   adapter_name st' = osb4_name (smba (vars st'))) /\
  (res <> 0 ->
   osb4_initialized st' = 0 /\
   res = (if nonzero setup_res then setup_res else add)).
Proof.
  intros H0. cbn zeta. rewrite (i2c_osb4_init_run P add del st H0).
  destruct (osb4_setup ENODEV PCI_FUNC P (vars st)) as [[res g] pci_evs].
  cbn [fst].
  destruct (nonzero res) eqn:Er.
  - apply nonzero_true in Er. repeat split; try tauto; intuition congruence.
  - unfold nonzero in Er. destruct (Z.eqb_spec res 0) as [->|]; [|discriminate].
    destruct (nonzero add) eqn:Ea.
    + apply nonzero_true in Ea. repeat split; try tauto; intuition congruence.
    + unfold nonzero in Ea.
      destruct (Z.eqb_spec add 0) as [->|]; [|discriminate].
      repeat split; try tauto; intuition congruence.
Qed.

(** What a call of [osb4_setup] does when no region is held: a failure
    does nothing, a success holds the 8 ports at [osb4_smba]. *)
Lemma osb4_setup_regions (P : platform) (g : globals) :
  let '(res, g', evs) := osb4_setup ENODEV PCI_FUNC P g in
  (res = - ENODEV /\ evs = []) \/
  (res = 0 /\ regions_held (map EvSetup evs) [] = Some [(smba g', 8)]).
Proof.
  unfold osb4_setup.
  destruct (pci_present P =? 0); [left; split; reflexivity|].
  destruct (find_function0 PCI_FUNC (osb4_devices P)) as [d|];
    [|left; split; reflexivity].
  cbn zeta.
  destruct (nonzero (check_region P (smba (osb4_locate d g)) 8));
    [left; split; reflexivity|].
  destruct (nonzero (force_addr (osb4_locate d g))).
  - right. split; reflexivity.
  - destruct (Z.land _ 1 =? 0).
    + destruct (nonzero (force (osb4_locate d g)));
        [right | left]; split; reflexivity.
    + right. split; reflexivity.
Qed.

(** [osb4_cleanup] by the value of [osb4_initialized]: at 0 it does nothing;
    at 1 it releases the region; at 2 it first unregisters the adapter and,
    when that fails, returns the error with the region still held and
    [osb4_initialized] still 2. *)
Lemma osb4_cleanup_stages (del : Z) (st : module_state) :
  (osb4_initialized st = 0 -> osb4_cleanup del st = (0, st, [])) /\
  (osb4_initialized st = 1 ->
   osb4_cleanup del st =
   (0, set_initialized st 0, [EvReleaseRegion (smba (vars st)) 8])) /\
  (osb4_initialized st = 2 -> del = 0 ->
   osb4_cleanup del st =
   (0, set_initialized st 0,
    [EvDelAdapter; EvReleaseRegion (smba (vars st)) 8])) /\
  (osb4_initialized st = 2 -> del <> 0 ->
   osb4_cleanup del st = (del, st, [EvDelAdapter])).
Proof.
  unfold osb4_cleanup, osb4_cleanup_region.
  split; [|split; [|split]].
  - intros ->. reflexivity.
  - intros ->. reflexivity.
  - intros -> ->. reflexivity.
  - intros -> Hd. apply nonzero_true in Hd. cbn [Z.leb Z.compare Pos.compare
      Pos.compare_cont]. rewrite Hd. reflexivity.
Qed.

(** After a cleanup that returned 0 from a state with [osb4_initialized]
    between 0 and 2, a second cleanup does nothing at all. *)
Theorem osb4_cleanup_idempotent (del del' : Z) (st : module_state) :
  0 <= osb4_initialized st <= 2 ->
  fst (fst (osb4_cleanup del st)) = 0 ->
  osb4_cleanup del' (snd (fst (osb4_cleanup del st))) =
  (0, snd (fst (osb4_cleanup del st)), []).
Proof.
  intros Hr H0.
  assert (Hn : osb4_initialized st = 0 \/ osb4_initialized st = 1 \/
               osb4_initialized st = 2) by lia.
  destruct (osb4_cleanup_stages del st) as (C0 & C1 & C2 & C2').
  destruct Hn as [Hn | [Hn | Hn]].
  - rewrite (C0 Hn). cbn [fst snd].
    apply (proj1 (osb4_cleanup_stages del' st)). exact Hn.
  - rewrite (C1 Hn). cbn [fst snd].
    apply (proj1 (osb4_cleanup_stages del' _)). reflexivity.
  - destruct (Z.eq_dec del 0) as [Hd | Hd].
    + rewrite (C2 Hn Hd). cbn [fst snd].
      apply (proj1 (osb4_cleanup_stages del' _)). reflexivity.
    + rewrite (C2' Hn Hd) in H0. cbn [fst] in H0. contradiction.
Qed.


(** The I/O region is held exactly while the module is initialized.  After
    any sequence of calls of [init_module] and [cleanup_module] on the
    freshly loaded module, whatever the machine and the registry answer at
    each call, the events have misused no region: no [request_region] was
    made of ports already held and no [release_region] of a region not held
    (the ledger would be [None]).  At the end [osb4_initialized] is 0 and no
    region is held, or it is 2 and the one region held is the 8 ports from
    [osb4_smba].  So a region is never requested twice, never released
    twice or without being held, and never left behind by a failed
    initialization. *)
Theorem module_region_invariant (calls : list call) (f fa : Z) :
  ENODEV <> 0 ->
  let '(st, evs) := run_calls ENODEV EBUSY PCI_FUNC calls (loaded f fa) in
  (osb4_initialized st = 0 /\ regions_held evs [] = Some []) \/
  (osb4_initialized st = 2 /\
   regions_held evs [] = Some [(smba (vars st), 8)]).
Proof.
  intros Hnodev.
  assert (Hgen : forall calls st held,
    (osb4_initialized st = 0 /\ held = []) \/
    (osb4_initialized st = 2 /\ held = [(smba (vars st), 8)]) ->
    let '(st', evs) := run_calls ENODEV EBUSY PCI_FUNC calls st in
    (osb4_initialized st' = 0 /\ regions_held evs held = Some []) \/
    (osb4_initialized st' = 2 /\
     regions_held evs held = Some [(smba (vars st'), 8)])).
  { clear calls f fa. induction calls as [|c calls IH]; intros st held Hinv.
    - cbn [run_calls regions_held].
      destruct Hinv as [[H ->] | [H ->]]; [left | right]; split; auto.
    - cbn [run_calls].
      assert (Hstep : forall res st1 evs1,
        match c with
        | CallInit e =>
            init_module ENODEV EBUSY PCI_FUNC (env_platform e)
              (env_add_adapter e) (env_del_adapter e) st
        | CallCleanup e => cleanup_module (env_del_adapter e) st
        end = (res, st1, evs1) ->
        (osb4_initialized st1 = 0 /\ regions_held evs1 held = Some []) \/
        (osb4_initialized st1 = 2 /\
         regions_held evs1 held = Some [(smba (vars st1), 8)])).
      { intros res st1 evs1 Hc. unfold init_module, cleanup_module in Hc.
        destruct c as [e | e].
        - destruct Hinv as [[H0 ->] | [H2 ->]].
          + rewrite (i2c_osb4_init_run _ _ _ st H0) in Hc.
            pose proof (osb4_setup_regions (env_platform e) (vars st)) as Hs.
            destruct (osb4_setup ENODEV PCI_FUNC (env_platform e) (vars st))
              as [[sres g] pevs].
            destruct Hs as [[-> ->] | [-> Hheld]].
            * assert (Hnz : nonzero (- ENODEV) = true)
                by (apply nonzero_true; lia).
              rewrite Hnz in Hc. inversion Hc; subst. left. split; reflexivity.
            * cbn [nonzero Z.eqb negb] in Hc.
              destruct (nonzero (env_add_adapter e)); inversion Hc; subst;
                cbn [osb4_initialized vars];
                rewrite regions_held_app, Hheld;
                cbn [regions_held remove_one]; unfold same_region;
                cbn [fst snd]; rewrite ?Z.eqb_refl;
                [left | right]; split; reflexivity.
          + unfold i2c_osb4_init in Hc. rewrite H2 in Hc.
            cbn [nonzero Z.eqb negb] in Hc.
            inversion Hc; subst. right. split; [exact H2 | reflexivity].
        - destruct (osb4_cleanup_stages (env_del_adapter e) st)
            as (C0 & _ & C2 & C2').
          destruct Hinv as [[H0 ->] | [H2 ->]].
          + rewrite (C0 H0) in Hc. inversion Hc; subst.
            left. split; [exact H0 | reflexivity].
          + destruct (Z.eq_dec (env_del_adapter e) 0) as [Hd | Hd].
            * rewrite (C2 H2 Hd) in Hc. inversion Hc; subst.
              left. cbn [regions_held remove_one]. unfold same_region.
              cbn [fst snd]. rewrite !Z.eqb_refl. split; reflexivity.
            * rewrite (C2' H2 Hd) in Hc. inversion Hc; subst.
              right. split; [exact H2 | reflexivity]. }
      destruct (match c with CallInit _ => _ | CallCleanup _ => _ end)
        as [[res st1] evs1].
      specialize (Hstep res st1 evs1 eq_refl).
      destruct Hstep as [[H Hr] | [H Hr]];
        [ specialize (IH st1 [] (or_introl (conj H eq_refl)))
        | specialize (IH st1 [(smba (vars st1), 8)]
                        (or_intror (conj H eq_refl))) ];
        destruct (run_calls ENODEV EBUSY PCI_FUNC calls st1) as [st2 evs2];
        rewrite regions_held_app, Hr; exact IH. }
  apply (Hgen calls (loaded f fa) []). left. split; reflexivity.
Qed.

End LifecycleFacts.

(** The failure theorem at a machine without a PCI bus, at one without a
    function 0, and at one whose I/O region is in use. *)
Lemma osb4_setup_failures_witness :
  osb4_setup 19 linux_PCI_FUNC platform_no_pci forced_0x1000 =
    (-19, forced_0x1000, []) /\
  osb4_setup 19 linux_PCI_FUNC platform_no_function0 forced_0x1000 =
    (-19, forced_0x1000, []) /\
  fst (fst (osb4_setup 19 linux_PCI_FUNC (platform_busy 0x01) forced_0x1000))
    = -19 /\
  snd (osb4_setup 19 linux_PCI_FUNC (platform_busy 0x01) forced_0x1000) = [].
Proof.
  destruct (osb4_setup_failures 19 linux_PCI_FUNC platform_no_pci
              forced_0x1000) as (H1 & _ & _).
  destruct (osb4_setup_failures 19 linux_PCI_FUNC platform_no_function0
              forced_0x1000) as (_ & H2 & _).
  destruct (osb4_setup_failures 19 linux_PCI_FUNC (platform_busy 0x01)
              forced_0x1000) as (_ & _ & H3).
  split; [apply H1; reflexivity|].
  split; [apply H2; reflexivity|].
  apply (H3 {| devfn := 0x78;
               config := fun off => if off =? SMBHSTCFG then 0x01 else 0x0580 |});
    [discriminate | reflexivity | discriminate].
Defined.

(** The region theorem at the forced address 0x1000. *)
Lemma osb4_setup_region_aligned_witness :
  0x1000 =
    smba (snd (fst (osb4_setup 19 linux_PCI_FUNC (platform_with 0x01)
                      forced_0x1000))) /\
  8 = 8 /\ Z.land 0x1000 0xf = 0 /\ 0 <= 0x1000 <= 0xfff0.
Proof.
  apply (osb4_setup_region_aligned 19 linux_PCI_FUNC (platform_with 0x01)
           forced_0x1000 0x1000 8).
  right; right; right; left; reflexivity.
Defined.

(** The name theorem at 0x0580 and at 0x10580, which is the same
    [unsigned short]. *)
Lemma osb4_name_length_inj_witness :
  osb4_name 0x0580 = "SMBus OSB4 adapter at 0580"%string /\
  String.length (osb4_name 0x0580) = 26%nat /\
  u16 0x0580 = u16 0x10580.
Proof.
  split; [reflexivity|].
  destruct (osb4_name_length_inj 0x0580 0x10580) as [Hlen Hinj].
  split; [exact Hlen | apply Hinj; reflexivity].
Defined.

(** The second-call theorem after a load that succeeded; the second call
    is made on a machine without a PCI bus. *)
Lemma i2c_osb4_init_twice_witness :
  i2c_osb4_init 19 16 linux_PCI_FUNC platform_no_pci 0 0
    (snd (fst (i2c_osb4_init 19 16 linux_PCI_FUNC (platform_with 0x01) 0 0
                 (loaded 0 0)))) =
  (-16,
   snd (fst (i2c_osb4_init 19 16 linux_PCI_FUNC (platform_with 0x01) 0 0
               (loaded 0 0))), []).
Proof.
  exact (i2c_osb4_init_twice 19 16 linux_PCI_FUNC (platform_with 0x01)
           platform_no_pci 0 0 0 0 (loaded 0 0) eq_refl eq_refl).
Defined.


(** The result theorem at a load that succeeds and at one where the
    registration fails with -1. *)
Lemma i2c_osb4_init_result_witness :
  i2c_osb4_init 19 16 linux_PCI_FUNC (platform_with 0x01) 0 0 (loaded 0 0) =
  (0,
   {| vars := {| force := 0; force_addr := 0; smba := 0x0580 |};
      osb4_initialized := 2;
      adapter_name := "SMBus OSB4 adapter at 0580" |},
   [EvSetup (RequestRegion 0x0580 8);
    EvAddAdapter "SMBus OSB4 adapter at 0580"]) /\
  (let '(res, st', _) :=
     i2c_osb4_init 19 16 linux_PCI_FUNC (platform_with 0x01) (-1) 0
       (loaded 0 0) in
   (res = 0 <-> 0 = 0 /\ -1 = 0) /\
   (res = 0 ->
    osb4_initialized st' = 2 /\
    adapter_name st' = osb4_name (smba (vars st'))) /\
   (res <> 0 -> osb4_initialized st' = 0 /\ res = -1)).
Proof.
  split; [reflexivity|].
  exact (i2c_osb4_init_result 19 16 linux_PCI_FUNC (platform_with 0x01) (-1) 0
           (loaded 0 0) eq_refl).
Defined.

(** The stage theorem at each of the three stages. *)
Lemma osb4_cleanup_stages_witness :
  osb4_cleanup 0 (loaded 0 0) = (0, loaded 0 0, []) /\
  osb4_cleanup 0 (set_initialized (loaded 0 0) 1) =
    (0, loaded 0 0, [EvReleaseRegion 0 8]) /\
  osb4_cleanup 0 (set_initialized (loaded 0 0) 2) =
    (0, loaded 0 0, [EvDelAdapter; EvReleaseRegion 0 8]) /\
  osb4_cleanup (-1) (set_initialized (loaded 0 0) 2) =
    (-1, set_initialized (loaded 0 0) 2, [EvDelAdapter]).
Proof.
  split; [|split; [|split]].
  - apply (proj1 (osb4_cleanup_stages 0 (loaded 0 0))). reflexivity.
  - apply (proj1 (proj2 (osb4_cleanup_stages 0
                           (set_initialized (loaded 0 0) 1)))).
    reflexivity.
  - apply (proj1 (proj2 (proj2 (osb4_cleanup_stages 0
                                  (set_initialized (loaded 0 0) 2)))));
      reflexivity.
  - apply (proj2 (proj2 (proj2 (osb4_cleanup_stages (-1)
                                  (set_initialized (loaded 0 0) 2)))));
      [reflexivity | discriminate].
Defined.

(** The idempotence theorem after the cleanup of an initialized module. *)
Lemma osb4_cleanup_idempotent_witness :
  osb4_cleanup 5
    (snd (fst (osb4_cleanup 0 (set_initialized (loaded 0 0) 2)))) =
  (0, snd (fst (osb4_cleanup 0 (set_initialized (loaded 0 0) 2))), []).
Proof.
  apply (osb4_cleanup_idempotent 0 5 (set_initialized (loaded 0 0) 2)).
  - cbn. lia.
  - reflexivity.
Defined.

(** The region invariant on a run where a registration fails, a load
    succeeds, a second load is refused, an unload fails and an unload
    succeeds. *)
Lemma module_region_invariant_witness :
  let '(st, evs) :=
    run_calls 19 16 linux_PCI_FUNC
      [ CallInit (env_with (-1) 0); CallInit (env_with 0 0);
        CallInit (env_with 0 0); CallCleanup (env_with 0 (-1));
        CallCleanup (env_with 0 0) ]
      (loaded 0 0) in
  (osb4_initialized st = 0 /\ regions_held evs [] = Some []) \/
  (osb4_initialized st = 2 /\
   regions_held evs [] = Some [(smba (vars st), 8)]).
Proof.
  apply (module_region_invariant 19 16 linux_PCI_FUNC
           [ CallInit (env_with (-1) 0); CallInit (env_with 0 0);
             CallInit (env_with 0 0); CallCleanup (env_with 0 (-1));
             CallCleanup (env_with 0 0) ]
           0 0).
  discriminate.
Defined.

(** ** osb4_access and osb4_transaction: what their traces hold *)

Lemma Forall_payload (P : event -> Prop) (f : nat -> event) (l : list nat) :
  (forall k, P (f k)) -> Forall P (map f l).
Proof.
  intros H. induction l as [|k l IH]; cbn [map]; constructor; auto.
Qed.

Lemma pauses_payload (f : nat -> Z) (q : Z) (l : list nat) :
  pauses (map (fun k => EvOut (f k) q) l) = 0%nat.
Proof. induction l as [|k l IH]; [reflexivity | exact IH]. Qed.

Lemma pauses_reads (q : Z) (l : list Z) : pauses (map (EvIn q) l) = 0%nat.
Proof. induction l as [|k l IH]; [reflexivity | exact IH]. Qed.

Lemma writes_to_none_writebacks (port : Z) (evs : trace) :
  writes_to port evs = [] -> forall prev, writebacks port prev evs = true.
Proof.
  induction evs as [|e evs IH]; intros Hw prev; [reflexivity|].
  cbn [writebacks]. destruct e as [q v | v q | a]; cbn [writes_to] in Hw.
  - rewrite IH by exact Hw. reflexivity.
  - cbn [is_writeback]. destruct (q =? port); [discriminate Hw|].
    rewrite IH by exact Hw. reflexivity.
  - rewrite IH by exact Hw. reflexivity.
Qed.

Lemma writebacks_app (port : Z) (a b : trace) (prev : option event) :
  writebacks port prev a = true ->
  (forall prev', writebacks port prev' b = true) ->
  writebacks port prev (a ++ b) = true.
Proof.
  revert prev. induction a as [|e a IH]; intros prev Ha Hb; [apply Hb|].
  cbn [app writebacks] in *. apply andb_true_iff in Ha. destruct Ha as [H1 H2].
  rewrite H1. cbn [andb]. apply IH; assumption.
Qed.

(** Solve [driver_event] for an access to a named register. *)
Ltac driver_ok :=
  cbn [driver_event];
  first [ reflexivity
        | split; [ unfold registers; cbn [In]; tauto
                 | first [ apply u8_range | lia ] ] ].

Section Events.

Variable dev : trace -> Z -> Z.
Variable osb4_smba : Z.
Variable DEBUG : bool.
Variable K : i2c_h.
Variable word_order : operand_order.

Local Abbreviation STS := (SMBHSTSTS osb4_smba).
Local Abbreviation CNT := (SMBHSTCNT osb4_smba).
Local Abbreviation CMD := (SMBHSTCMD osb4_smba).
Local Abbreviation ADD := (SMBHSTADD osb4_smba).
Local Abbreviation DAT0 := (SMBHSTDAT0 osb4_smba).
Local Abbreviation DAT1 := (SMBHSTDAT1 osb4_smba).
Local Abbreviation BLKDAT := (SMBBLKDAT osb4_smba).

(** What an extension of the trace is checked for: the events allowed, no
    pause, and status writes that are write-backs whatever came before. *)
Let tidy (evs : trace) : Prop :=
  Forall (driver_event osb4_smba) evs /\
  (forall prev, writebacks STS prev evs = true).

Lemma tidy_app (a b : trace) : tidy a -> tidy b -> tidy (a ++ b).
Proof.
  intros [Fa Wa] [Fb Wb]. split.
  - apply Forall_app. split; assumption.
  - intros prev. apply writebacks_app; [apply Wa | exact Wb].
Qed.

Lemma tidy_nil : tidy [].
Proof. split; [constructor | reflexivity]. Qed.

Lemma tidy_in (p v : Z) :
  In p (registers osb4_smba) -> tidy [EvIn p (u8 v)].
Proof.
  intros Hp. split; [|reflexivity].
  constructor; [|constructor]. split; [exact Hp | apply u8_range].
Qed.

Lemma tidy_out (p v : Z) :
  In p (registers osb4_smba) -> p <> STS -> tidy [EvOut (u8 v) p].
Proof.
  intros Hp Hne. split.
  - constructor; [|constructor]. split; [exact Hp | apply u8_range].
  - intros prev. cbn [writebacks is_writeback].
    destruct (Z.eqb_spec p STS); [contradiction | reflexivity].
Qed.

Lemma tidy_pause : tidy [EvPause 1].
Proof. split; [repeat constructor | reflexivity]. Qed.

(** A read of the status register followed by the write of what it
    returned. *)
Lemma tidy_writeback (v : Z) : tidy [EvIn STS (u8 v); EvOut (u8 v) STS].
Proof.
  split.
  - repeat constructor; try apply u8_range; unfold registers; cbn [In]; tauto.
  - intros prev. cbn [writebacks is_writeback]. rewrite !Z.eqb_refl.
    reflexivity.
Qed.

Lemma tidy_payload (f : nat -> Z) (l : list nat) :
  tidy (map (fun k => EvOut (u8 (f k)) BLKDAT) l).
Proof.
  split.
  - apply Forall_payload. intros k. driver_ok.
  - apply writes_to_none_writebacks, writes_to_payload.
    unfold SMBBLKDAT, SMBHSTSTS. lia.
Qed.

Lemma tidy_reads (l : list Z) :
  Forall (fun v => 0 <= v < 256) l -> tidy (map (EvIn BLKDAT) l).
Proof.
  intros Hl. split.
  - induction Hl; cbn [map]; constructor; auto. driver_ok.
  - apply writes_to_none_writebacks.
    induction l as [|v l IH]; [reflexivity|].
    inversion Hl; subst. cbn [map writes_to]. auto.
Qed.

Lemma regs_STS : In STS (registers osb4_smba).
Proof. unfold registers; cbn [In]; tauto. Qed.
Lemma regs_CNT : In CNT (registers osb4_smba).
Proof. unfold registers; cbn [In]; tauto. Qed.
Lemma regs_CMD : In CMD (registers osb4_smba).
Proof. unfold registers; cbn [In]; tauto. Qed.
Lemma regs_ADD : In ADD (registers osb4_smba).
Proof. unfold registers; cbn [In]; tauto. Qed.
Lemma regs_DAT0 : In DAT0 (registers osb4_smba).
Proof. unfold registers; cbn [In]; tauto. Qed.
Lemma regs_DAT1 : In DAT1 (registers osb4_smba).
Proof. unfold registers; cbn [In]; tauto. Qed.
Lemma regs_BLKDAT : In BLKDAT (registers osb4_smba).
Proof. unfold registers; cbn [In]; tauto. Qed.

(** Split a trace of the goal into its events and check each. *)
Ltac tidy_events :=
  repeat first
    [ apply tidy_nil
    | apply tidy_pause
    | apply tidy_payload
    | apply tidy_writeback
    | apply tidy_in;
      first [ apply regs_STS | apply regs_CNT | apply regs_CMD | apply regs_ADD
            | apply regs_DAT0 | apply regs_DAT1 | apply regs_BLKDAT ]
    | apply tidy_out;
      [ first [ apply regs_CNT | apply regs_CMD | apply regs_ADD
              | apply regs_DAT0 | apply regs_DAT1 | apply regs_BLKDAT ]
      | unfold SMBHSTSTS, SMBHSTCNT, SMBHSTCMD, SMBHSTADD, SMBHSTDAT0,
          SMBHSTDAT1, SMBBLKDAT; lia ]
    | match goal with
      | |- tidy (EvIn (SMBHSTSTS ?b) ?v :: EvOut ?v (SMBHSTSTS ?b) :: ?l) =>
          change (tidy ([EvIn (SMBHSTSTS b) v; EvOut v (SMBHSTSTS b)] ++ l));
          apply tidy_app
      | |- tidy (?e :: ?l) =>
          lazymatch l with
          | [] => fail
          | _ => change (tidy ([e] ++ l)); apply tidy_app
          end
      | |- tidy (_ ++ _) => apply tidy_app
      end ].

Lemma osb4_dump_tidy (tr : trace) :
  exists evs,
    snd (osb4_dump dev osb4_smba DEBUG tr) = tr ++ evs /\
    tidy evs /\ pauses evs = 0%nat.
Proof.
  unfold osb4_dump. destruct DEBUG.
  - io_unfold. cbn [snd]. rewrite <- !app_assoc. cbn [app].
    eexists. split; [reflexivity|]. split; [tidy_events | reflexivity].
  - exists []. rewrite app_nil_r. split; [reflexivity|].
    split; [apply tidy_nil | reflexivity].
Qed.

Lemma osb4_busy_check_tidy (tr : trace) :
  exists evs,
    snd (osb4_busy_check dev osb4_smba tr) = tr ++ evs /\
    tidy evs /\ pauses evs = 0%nat.
Proof.
  rewrite (osb4_busy_check_run dev osb4_smba tr). cbn zeta.
  destruct (nonzero (u8 (dev tr STS))); cbn [snd]; eexists;
    (split; [reflexivity|]); (split; [tidy_events | reflexivity]).
Qed.

Lemma osb4_start_tidy (tr : trace) :
  exists evs,
    snd (osb4_start dev osb4_smba tr) = tr ++ evs /\
    tidy evs /\ pauses evs = 0%nat.
Proof.
  rewrite (osb4_start_run dev osb4_smba tr). cbn zeta. cbn [snd].
  eexists. split; [reflexivity|]. split; [tidy_events | reflexivity].
Qed.

Lemma osb4_poll_tidy (timeout : Z) (tr : trace) :
  exists evs,
    snd (osb4_poll dev osb4_smba timeout tr) = tr ++ evs /\ tidy evs.
Proof.
  funelim (osb4_poll dev osb4_smba timeout tr); io_unfold; cbn [snd fst] in *.
  - eexists. rewrite <- app_assoc. split; [reflexivity|]. cbn [app].
    tidy_events.
  - destruct H as (evs & Hevs & Ht).
    rewrite Hevs. eexists. rewrite <- !app_assoc. split; [reflexivity|].
    cbn [app].
    change (tidy ([EvPause 1; EvIn STS (u8 (dev (tr ++ [EvPause 1]) STS))]
                  ++ evs)).
    apply tidy_app; [tidy_events | exact Ht].
  - eexists. rewrite <- app_assoc. split; [reflexivity|]. cbn [app].
    tidy_events.
Qed.

Lemma osb4_clear_status_tidy (tr : trace) :
  exists evs,
    snd (osb4_clear_status dev osb4_smba tr) = tr ++ evs /\
    tidy evs /\ pauses evs = 0%nat.
Proof.
  unfold osb4_clear_status. io_unfold.
  destruct (nonzero (u8 (dev tr STS))); cbn [snd];
    rewrite ?u8_idem, <- ?app_assoc; cbn [app]; eexists;
    (split; [reflexivity|]); (split; [tidy_events | reflexivity]).
Qed.

Lemma osb4_transaction_tidy (tr : trace) :
  exists evs,
    snd (osb4_transaction dev osb4_smba DEBUG tr) = tr ++ evs /\
    tidy evs /\ (pauses evs <= 501)%nat.
Proof.
  destruct (osb4_transaction_extends dev osb4_smba DEBUG tr)
    as (evs' & He' & Hp' & _).
  assert (Ht : exists evs,
    snd (osb4_transaction dev osb4_smba DEBUG tr) = tr ++ evs /\ tidy evs).
  { rewrite osb4_transaction_run. cbn zeta.
    destruct (osb4_dump_tidy tr) as (evs0 & He0 & Ht0 & _). rewrite He0.
    destruct (osb4_busy_check_tidy (tr ++ evs0)) as (evs1 & He1 & Ht1 & _).
    destruct (osb4_busy_check dev osb4_smba (tr ++ evs0)) as [ready tr1].
    cbn [snd] in He1. subst tr1.
    destruct ready; cbn [snd].
    - destruct (osb4_start_tidy ((tr ++ evs0) ++ evs1))
        as (evs2 & He2 & Ht2 & _).
      rewrite He2.
      destruct (osb4_poll_tidy 0 (((tr ++ evs0) ++ evs1) ++ evs2))
        as (evs3 & He3 & Ht3).
      destruct (osb4_poll dev osb4_smba 0 (((tr ++ evs0) ++ evs1) ++ evs2))
        as [[temp timeout] tr3].
      cbn [snd] in *. subst tr3.
      match goal with |- context [osb4_clear_status _ _ ?t] =>
        destruct (osb4_clear_status_tidy t) as (evs4 & He4 & Ht4 & _)
      end.
      rewrite He4.
      match goal with |- context [osb4_dump _ _ _ ?t] =>
        destruct (osb4_dump_tidy t) as (evs5 & He5 & Ht5 & _)
      end.
      rewrite He5. rewrite <- !app_assoc. eexists. split; [reflexivity|].
      repeat apply tidy_app; assumption.
    - rewrite <- app_assoc. eexists. split; [reflexivity|].
      apply tidy_app; assumption. }
  destruct Ht as (evs & He & Ht). rewrite He in He'.
  apply app_inv_head in He'. subst evs'.
  exists evs. split; [exact He|]. split; [exact Ht | exact Hp'].
Qed.

Lemma osb4_load_tidy (addr read_write command size : Z) (data : mem)
    (tr : trace) :
  exists evs,
    snd (osb4_load dev osb4_smba K addr read_write command size data tr) =
    tr ++ evs /\
    tidy evs /\ pauses evs = 0%nat.
Proof.
  unfold osb4_load.
  repeat match goal with
         | |- context [if ?a =? ?b then _ else _] => destruct (a =? b)
         end;
    io_unfold; cbn [snd]; rewrite ?block_out_run; cbn [snd];
    rewrite <- ?app_assoc; cbn [app];
    first [ exists []; rewrite app_nil_r; split; [reflexivity|];
            split; [apply tidy_nil | reflexivity]
          | eexists; split; [reflexivity|]; split;
            [ tidy_events
            | cbn [pauses]; rewrite ?pauses_payload; reflexivity ] ].
Qed.

Lemma block_in_tidy (data : mem) (i : positive) (tr : trace) :
  exists evs,
    snd (block_in dev osb4_smba data i tr) = tr ++ evs /\
    tidy evs /\ pauses evs = 0%nat.
Proof.
  funelim (block_in dev osb4_smba data i tr).
  - exists []. cbn [snd]. rewrite app_nil_r. split; [reflexivity|].
    split; [apply tidy_nil | reflexivity].
  - destruct H as (evs & He & Ht & Hp). rewrite He.
    eexists. rewrite <- app_assoc. split; [reflexivity|]. split.
    + apply tidy_app; [tidy_events | exact Ht].
    + rewrite pauses_app, Hp. reflexivity.
Qed.

Lemma osb4_read_back_tidy (size : Z) (data : mem) (tr : trace) :
  exists evs,
    snd (osb4_read_back dev osb4_smba word_order size data tr) = tr ++ evs /\
    tidy evs /\ pauses evs = 0%nat.
Proof.
  unfold osb4_read_back. io_unfold.
  repeat match goal with |- context [if ?b then _ else _] => destruct b end;
    cbn [snd]; rewrite <- ?app_assoc.
  1-4: eexists; split; [reflexivity|]; split; [tidy_events | reflexivity].
  - match goal with |- context [block_in _ _ ?d ?i ?t] =>
      destruct (block_in_tidy d i t) as (evs & He & Ht & Hp)
    end.
    rewrite He, <- !app_assoc. eexists. split; [reflexivity|]. split.
    + cbn [app].
      match goal with |- tidy (?e :: ?e' :: ?l) =>
        change (tidy ([e; e'] ++ l))
      end.
      apply tidy_app; [tidy_events | exact Ht].
    + rewrite !pauses_app, Hp. reflexivity.
  - exists []. rewrite app_nil_r. split; [reflexivity|].
    split; [apply tidy_nil | reflexivity].
Qed.

Lemma osb4_access_tidy (addr flags read_write command size : Z) (data : mem)
    (tr : trace) :
  exists evs,
    snd (osb4_access dev osb4_smba DEBUG K word_order addr flags read_write
        command size
           data tr) = tr ++ evs /\
    tidy evs /\ (pauses evs <= 501)%nat.
Proof.
  rewrite osb4_access_run.
  destruct (osb4_load_tidy addr read_write command size data tr)
    as (evs0 & He0 & Ht0 & Hp0).
  destruct (osb4_load dev osb4_smba K addr read_write command size data tr)
    as [[sz|] tr1]; cbn [snd] in He0; subst tr1.
  - cbn zeta.
    match goal with |- context [osb4_transaction _ _ _ ?t] =>
      destruct (osb4_transaction_tidy t) as (evs1 & He1 & Ht1 & Hp1);
      destruct (osb4_transaction dev osb4_smba DEBUG t) as [err tr3]
    end.
    cbn [snd] in He1. subst tr3.
    assert (Hdone : exists evs,
      ((tr ++ evs0) ++
       [EvOut (u8 (Z.land sz 28 + Z.land ENABLE_INT9 1)) CNT]) ++ evs1 =
      tr ++ evs /\ tidy evs /\ (pauses evs <= 501)%nat).
    { eexists. rewrite <- !app_assoc. split; [reflexivity|]. split.
      - repeat apply tidy_app; try assumption. tidy_events.
      - rewrite !pauses_app, Hp0. cbn [pauses]. lia. }
    destruct (nonzero err); [exact Hdone|].
    destruct (_ || _); [exact Hdone|].
    match goal with |- context [osb4_read_back _ _ _ ?s ?d ?t] =>
      destruct (osb4_read_back_tidy s d t) as (evs2 & He2 & Ht2 & Hp2);
      destruct (osb4_read_back dev osb4_smba word_order s d t) as [data' tr4]
    end.
    cbn [snd] in *. subst tr4.
    eexists. rewrite <- !app_assoc. split; [reflexivity|]. split.
    + repeat apply tidy_app; try assumption. tidy_events.
    + rewrite !pauses_app, Hp0, Hp2. cbn [pauses]. lia.
  - exists evs0. split; [reflexivity|]. split; [exact Ht0 | lia].
Qed.

Lemma registers_in_region (p : Z) :
  In p (registers osb4_smba) -> osb4_smba <= p < osb4_smba + 8.
Proof.
  unfold registers, SMBHSTSTS, SMBHSTCNT, SMBHSTCMD, SMBHSTADD, SMBHSTDAT0,
    SMBHSTDAT1, SMBBLKDAT. cbn [In].
  intros [<- | [<- | [<- | [<- | [<- | [<- | [<- | []]]]]]]]; lia.
Qed.

(** Every event of a call of [osb4_access] is a pause of one tick or the
    read or write of a byte at one of the seven registers; so every port the
    call touches lies in the 8 ports from [osb4_smba] that [osb4_setup]
    requested. *)
Theorem osb4_access_stays_in_region
    (addr flags read_write command size : Z) (data : mem) (tr : trace) :
  exists evs,
    snd (osb4_access dev osb4_smba DEBUG K word_order addr flags read_write
        command size
           data tr) = tr ++ evs /\
    Forall (driver_event osb4_smba) evs /\
    Forall (in_region osb4_smba) evs.
Proof.
  destruct (osb4_access_tidy addr flags read_write command size data tr)
    as (evs & He & [Hf _] & _).
  exists evs. split; [exact He|]. split; [exact Hf|].
  eapply Forall_impl; [|exact Hf].
  intros [p v | v p | a]; cbn [driver_event in_region]; [| |tauto];
    intros [Hp _]; apply registers_in_region; exact Hp.
Qed.

(** A call of [osb4_access] blocks for a bounded time: it pauses at most
    [MAX_TIMEOUT + 1] times, whatever the controller does. *)
Theorem osb4_access_bounded_wait
    (addr flags read_write command size : Z) (data : mem) (tr : trace) :
  exists evs,
    snd (osb4_access dev osb4_smba DEBUG K word_order addr flags read_write
        command size
           data tr) = tr ++ evs /\
    (pauses evs <= Z.to_nat MAX_TIMEOUT + 1)%nat.
Proof.
  destruct (osb4_access_tidy addr flags read_write command size data tr)
    as (evs & He & _ & Hp).
  exists evs. split; [exact He | exact Hp].
Qed.

(** The status register is only ever written with the value the read just
    before returned from it: in the whole of a call of [osb4_access], every
    write to it comes right after a read of it and repeats the value
    read. *)
Theorem osb4_access_status_writebacks
    (addr flags read_write command size : Z) (data : mem) (tr : trace) :
  exists evs,
    snd (osb4_access dev osb4_smba DEBUG K word_order addr flags read_write
        command size
           data tr) = tr ++ evs /\
    writebacks STS None evs = true.
Proof.
  destruct (osb4_access_tidy addr flags read_write command size data tr)
    as (evs & He & [_ Hw] & _).
  exists evs. split; [exact He | apply Hw].
Qed.

(** "We will always wait for a fraction of a second": once the busy-check
    has passed, [osb4_transaction] pauses for a tick right after it has
    written the start bit and before it first reads the status register,
    even if the controller is done at once.  When the busy-check fails it
    does not pause at all. *)
Theorem osb4_transaction_waits_first (tr tr1 : trace) :
  (osb4_busy_check dev osb4_smba (snd (osb4_dump dev osb4_smba DEBUG tr)) =
     (true, tr1) ->
   exists cnt sts rest,
     snd (osb4_transaction dev osb4_smba DEBUG tr) =
     tr1 ++ [EvIn CNT cnt; EvOut (u8 (Z.lor cnt 0x040)) CNT;
             EvPause 1; EvIn STS sts] ++ rest) /\
  (osb4_busy_check dev osb4_smba (snd (osb4_dump dev osb4_smba DEBUG tr)) =
     (false, tr1) ->
   osb4_transaction dev osb4_smba DEBUG tr = (-1, tr1) /\
   pauses tr1 = pauses tr).
Proof.
  split; intros Hb; rewrite osb4_transaction_run; cbn zeta; rewrite Hb.
  - rewrite osb4_start_run. cbn zeta. cbn [snd].
    rewrite osb4_poll_step. cbn zeta.
    match goal with |- context [osb4_poll _ _ ?n ?t] =>
      destruct (osb4_poll_extends dev osb4_smba n t) as (evs2 & He2 & _)
    end.
    assert (Hrest : forall (r : Z * Z * trace) evs,
      snd r = (((tr1 ++ [EvIn CNT (u8 (dev tr1 CNT));
                         EvOut (u8 (Z.lor (u8 (dev tr1 CNT)) 64)) CNT]) ++
                [EvPause 1]) ++
               [EvIn STS (u8 (dev ((tr1 ++ [EvIn CNT (u8 (dev tr1 CNT));
                         EvOut (u8 (Z.lor (u8 (dev tr1 CNT)) 64)) CNT]) ++
                [EvPause 1]) STS))]) ++ evs ->
      exists cnt sts rest,
        snd (let '(temp, timeout, tr3) := r in
             (osb4_result DEBUG temp timeout,
              snd (osb4_dump dev osb4_smba DEBUG
                     (snd (osb4_clear_status dev osb4_smba tr3))))) =
        tr1 ++ [EvIn CNT cnt; EvOut (u8 (Z.lor cnt 64)) CNT;
                EvPause 1; EvIn STS sts] ++ rest).
    { intros [[temp timeout] tr3] evs Hr. cbn [snd] in *. subst tr3.
      match goal with |- context [osb4_clear_status _ _ ?t] =>
        destruct (osb4_clear_status_extends dev osb4_smba t)
          as (evs3 & He3 & _)
      end.
      rewrite He3.
      match goal with |- context [osb4_dump _ _ _ ?t] =>
        destruct (osb4_dump_extends dev osb4_smba DEBUG t)
          as (evs4 & He4 & _)
      end.
      rewrite He4. rewrite <- !app_assoc. cbn [app].
      do 2 eexists. exists (evs ++ evs3 ++ evs4). reflexivity. }
    destruct (nonzero _).
    + destruct (0 <? MAX_TIMEOUT).
      * apply (Hrest _ evs2). exact He2.
      * refine (Hrest (_, _, _) [] _). cbn [snd]. rewrite app_nil_r.
        reflexivity.
    + refine (Hrest (_, _, _) [] _). cbn [snd]. rewrite app_nil_r.
      reflexivity.
  - split; [reflexivity|].
    destruct (osb4_dump_extends dev osb4_smba DEBUG tr) as (evs0 & He0 & Hp0 & _).
    destruct (osb4_busy_check_extends dev osb4_smba
                (snd (osb4_dump dev osb4_smba DEBUG tr)))
      as (evs1 & He1 & Hp1 & _).
    rewrite Hb in He1. cbn [snd] in He1. rewrite He1, He0, !pauses_app.
    lia.
Qed.

(** Any [size] but the procedure call gets a size code from the first
    [switch]. *)
Lemma osb4_load_code (addr read_write command size : Z) (data : mem)
    (tr : trace) :
  size <> I2C_SMBUS_PROC_CALL K ->
  exists sz,
    fst (osb4_load dev osb4_smba K addr read_write command size data tr) =
    Some sz.
Proof.
  intros Hne. unfold osb4_load.
  destruct (Z.eqb_spec size (I2C_SMBUS_PROC_CALL K)); [contradiction|].
  repeat match goal with
         | |- context [if ?a =? ?b then _ else _] => destruct (a =? b)
         end;
    io_unfold; cbn [fst snd]; rewrite ?block_out_run; cbn [fst snd];
    eexists; reflexivity.
Qed.

(** A procedure call is refused at once: [osb4_access] returns -1 without
    touching a port or the caller's data.  It is the only request that
    touches no port: for every other [size], supported or not, the control
    register is written. *)
Theorem osb4_access_proc_call
    (addr flags read_write command size : Z) (data : mem) (tr : trace) :
  (size = I2C_SMBUS_PROC_CALL K ->
   osb4_access dev osb4_smba DEBUG K word_order addr flags read_write command
       size
     data tr = ((-1, data), tr)) /\
  (size <> I2C_SMBUS_PROC_CALL K ->
   exists evs v,
     snd (osb4_access dev osb4_smba DEBUG K word_order addr flags read_write
         command size
            data tr) = tr ++ evs /\
     In (EvOut v CNT) evs).
Proof.
  split.
  - intros ->. rewrite osb4_access_run. unfold osb4_load.
    rewrite Z.eqb_refl. reflexivity.
  - intros Hne.
    destruct (osb4_load_code addr read_write command size data tr Hne)
      as (sz & Hsz).
    destruct (osb4_load_tidy addr read_write command size data tr)
      as (pre & Hpre & _).
    destruct (osb4_load dev osb4_smba K addr read_write command size data tr)
      as [code tr1] eqn:El.
    cbn [fst snd] in Hsz, Hpre. subst code tr1.
    destruct (osb4_access_tail dev osb4_smba DEBUG K word_order addr flags
        read_write
                command size data _ _ _ El) as (evs & He & _).
    exists (pre ++ [EvOut (u8 (Z.land sz 0x1C + Z.land ENABLE_INT9 1)) CNT]
            ++ evs), (u8 (Z.land sz 0x1C + Z.land ENABLE_INT9 1)).
    split; [rewrite He, <- app_assoc; reflexivity|].
    apply in_or_app. right. left. reflexivity.
Qed.

(** [osb4_access] returns 0 or -1 and nothing else, and it gives the
    caller's data back unchanged whenever the request is a write or the
    result is -1: only a read that succeeds stores into [data]. *)
Theorem osb4_access_result_and_data
    (addr flags read_write command size : Z) (data : mem) (tr : trace) :
  let '(res, data') :=
    fst (osb4_access dev osb4_smba DEBUG K word_order addr flags read_write
        command size
           data tr) in
  (res = 0 \/ res = -1) /\
  (read_write = I2C_SMBUS_WRITE K -> data' = data) /\
  (res = -1 -> data' = data).
Proof.
  rewrite osb4_access_run.
  destruct (osb4_load _ _ _ _ _ _ _ _ _) as [[sz|] tr1]; cbn zeta.
  - destruct (osb4_transaction _ _ _ _) as [err tr3].
    destruct (nonzero err); [cbn [fst]; auto|].
    destruct (Z.eqb_spec read_write (I2C_SMBUS_WRITE K)) as [Hw | Hw];
      cbn [orb].
    + cbn [fst]. auto.
    + destruct (sz =? OSB4_QUICK); [cbn [fst]; auto|].
      destruct (osb4_read_back _ _ _ _ _ _) as [data' tr4]. cbn [fst].
      split; [auto|]. split; [contradiction | discriminate].
  - cbn [fst]. auto.
Qed.

End Events.

(** ** osb4_access: the data registers *)

Lemma low_byte (w : Z) : u8 (Z.land w 0xff) = w mod 256.
Proof.
  change 0xff with (Z.ones 8). rewrite Z.land_ones by lia.
  change (2 ^ 8) with 256. apply u8_small. apply Z.mod_pos_bound. lia.
Qed.

Lemma high_byte (w : Z) :
  u8 (Z.shiftr (Z.land w 0xff00) 8) = w / 256 mod 256.
Proof.
  rewrite Z.shiftr_land. change (Z.shiftr 0xff00 8) with (Z.ones 8).
  rewrite Z.land_ones, Z.shiftr_div_pow2 by lia.
  change (2 ^ 8) with 256. apply u8_small. apply Z.mod_pos_bound. lia.
Qed.

Section DataRegisters.

Variable dev : trace -> Z -> Z.
Variable osb4_smba : Z.
Variable DEBUG : bool.
Variable K : i2c_h.
Variable word_order : operand_order.

Local Abbreviation STS := (SMBHSTSTS osb4_smba).
Local Abbreviation CNT := (SMBHSTCNT osb4_smba).
Local Abbreviation CMD := (SMBHSTCMD osb4_smba).
Local Abbreviation ADD := (SMBHSTADD osb4_smba).
Local Abbreviation DAT0 := (SMBHSTDAT0 osb4_smba).
Local Abbreviation DAT1 := (SMBHSTDAT1 osb4_smba).
Local Abbreviation BLKDAT := (SMBBLKDAT osb4_smba).

(** Decide the tests between the labels of the header in the goal, then
    forget what is known of the labels. *)
Ltac case_labels_tests :=
  repeat match goal with
         | |- context [?f K =? ?g K] =>
             destruct (Z.eqb_spec (f K) (g K)); try congruence
         end;
  repeat match goal with
         | H : ?f K <> ?g K |- _ => clear H
         | H : ?f K = ?f K |- _ => clear H
         end.

(** The registers [osb4_access] loads before the transaction, for the four
    classes without a block: the address byte always; the command code for
    byte-data and word-data, and for byte only on a write; the data only on
    a write, one byte for byte-data, and for word-data the low byte of
    [data->word] to data0 and its high byte to data1. *)
Lemma osb4_load_table (addr read_write command : Z) (data : mem)
    (tr : trace) :
  NoDup (case_labels K) ->
  let a := EvOut (addr_byte addr read_write) ADD in
  let c := EvOut (u8 command) CMD in
  let w := read_write =? I2C_SMBUS_WRITE K in
  let load := osb4_load dev osb4_smba K addr read_write command in
  load (I2C_SMBUS_QUICK K) data tr = (Some OSB4_QUICK, tr ++ [a]) /\
  load (I2C_SMBUS_BYTE K) data tr =
    (Some OSB4_BYTE, tr ++ a :: (if w then [c] else [])) /\
  load (I2C_SMBUS_BYTE_DATA K) data tr =
    (Some OSB4_BYTE_DATA,
     tr ++ a :: c :: (if w then [EvOut (u8 (data_byte data)) DAT0] else [])) /\
  load (I2C_SMBUS_WORD_DATA K) data tr =
    (Some OSB4_WORD_DATA,
     tr ++ a :: c ::
       (if w then [EvOut (data_word data mod 256) DAT0;
                   EvOut (data_word data / 256 mod 256) DAT1]
        else [])).
Proof.
  intros Hnd a c w load. apply NoDup6 in Hnd.
  destruct Hnd as ((? & ? & ? & ? & ?) & (? & ? & ? & ?) & (? & ? & ?) &
                   (? & ?) & ?).
  subst a c w load. unfold osb4_load.
  repeat split; case_labels_tests; io_unfold; rewrite u8_addr_byte;
    destruct (read_write =? I2C_SMBUS_WRITE K); cbn [fst snd];
    rewrite ?low_byte, ?high_byte, <- ?app_assoc; reflexivity.
Qed.

(** On a read, whatever the size, [osb4_access] writes to none of the three
    data registers (data0, data1, the block port). *)
Theorem osb4_access_read_writes_no_data
    (addr flags read_write command size : Z) (data : mem) (tr : trace) :
  read_write <> I2C_SMBUS_WRITE K ->
  exists evs,
    snd (osb4_access dev osb4_smba DEBUG K word_order addr flags read_write
        command size
           data tr) = tr ++ evs /\
    writes_to DAT0 evs = [] /\ writes_to DAT1 evs = [] /\
    writes_to BLKDAT evs = [].
Proof.
  intros Hrw.
  assert (Hload : exists pre,
    snd (osb4_load dev osb4_smba K addr read_write command size data tr) =
      tr ++ pre /\
    writes_to DAT0 pre = [] /\ writes_to DAT1 pre = [] /\
    writes_to BLKDAT pre = []).
  { unfold osb4_load.
    destruct (Z.eqb_spec read_write (I2C_SMBUS_WRITE K)); [contradiction|].
    repeat match goal with
           | |- context [if ?a =? ?b then _ else _] => destruct (a =? b)
           end;
      io_unfold; cbn [snd]; rewrite <- ?app_assoc; cbn [app];
      first [ exists []; rewrite app_nil_r; repeat split; reflexivity
            | eexists; split; [reflexivity|];
              cbn [writes_to]; ports; repeat split; reflexivity ]. }
  destruct Hload as (pre & Hpre & H0 & H1 & Hb).
  destruct (osb4_load dev osb4_smba K addr read_write command size data tr)
    as [[sz|] tr1] eqn:El; cbn [snd] in Hpre; subst tr1.
  - destruct (osb4_access_tail dev osb4_smba DEBUG K word_order addr flags
      read_write
                command size data _ _ _ El) as (evs & He & Hw & _).
    exists (pre ++ [EvOut (u8 (Z.land sz 28 + Z.land ENABLE_INT9 1)) CNT]
            ++ evs).
    split; [rewrite He, <- app_assoc; reflexivity|].
    rewrite !writes_to_app, H0, H1, Hb.
    rewrite !Hw by (unfold SMBHSTDAT0, SMBHSTDAT1, SMBBLKDAT, SMBHSTSTS,
                      SMBHSTCNT; lia).
    cbn [writes_to app]. ports. repeat split; reflexivity.
  - exists pre. rewrite osb4_access_run, El. cbn [snd].
    repeat split; assumption.
Qed.

(** A byte or byte-data read whose transaction succeeds ends with one read
    of data0, and the byte read is stored in [data->byte]; the other cells
    of [data] are left alone.  ([tr1] is the trace once the registers and
    the size code are written.) *)
Theorem osb4_access_read_byte
    (addr flags read_write command size code : Z) (data : mem) (tr : trace) :
  NoDup (case_labels K) ->
  In (size, code) [ (I2C_SMBUS_BYTE K, OSB4_BYTE);
                    (I2C_SMBUS_BYTE_DATA K, OSB4_BYTE_DATA) ] ->
  read_write <> I2C_SMBUS_WRITE K ->
  let tr1 :=
    snd (osb4_load dev osb4_smba K addr read_write command size data tr)
    ++ [EvOut code CNT] in
  fst (osb4_transaction dev osb4_smba DEBUG tr1) = 0 ->
  let tr2 := snd (osb4_transaction dev osb4_smba DEBUG tr1) in
  let v := u8 (dev tr2 DAT0) in
  osb4_access dev osb4_smba DEBUG K word_order addr flags read_write command
      size data tr
  = ((0, store data 0 v), tr2 ++ [EvIn DAT0 v]) /\
  data_byte (store data 0 v) = v /\
  (forall j, j <> 0 -> store data 0 v j = data j).
Proof.
  intros Hnd Hin Hrw tr1 Hok tr2 v.
  split; [|split].
  - rewrite osb4_access_run. subst v tr2 tr1.
    destruct (osb4_load_table addr read_write command data tr Hnd)
      as (_ & Hb & Hbd & _).
    destruct (Z.eqb_spec read_write (I2C_SMBUS_WRITE K)); [contradiction|].
    cbn [In] in Hin. destruct Hin as [Hin | [Hin | []]]; inversion Hin; subst;
      [rewrite Hb in * | rewrite Hbd in *]; cbn [snd] in *; cbn zeta;
      match goal with
      | |- context [u8 (Z.land ?c 28 + Z.land ENABLE_INT9 1)] =>
          change (u8 (Z.land c 28 + Z.land ENABLE_INT9 1)) with c
      end;
      destruct (osb4_transaction _ _ _ _) as [err tr3]; cbn [fst snd] in *;
      subst err; cbn [nonzero Z.eqb negb orb]; unfold osb4_read_back;
      io_unfold;
      [ change (OSB4_BYTE =? OSB4_QUICK) with false;
        change (OSB4_BYTE =? OSB4_BYTE) with true
      | change (OSB4_BYTE_DATA =? OSB4_QUICK) with false;
        change (OSB4_BYTE_DATA =? OSB4_BYTE) with false;
        change (OSB4_BYTE_DATA =? OSB4_BYTE_DATA) with true ];
      cbn iota; unfold set_data_byte; rewrite u8_idem; reflexivity.
  - unfold data_byte, store. rewrite Z.eqb_refl. reflexivity.
  - intros j Hj. unfold store. destruct (Z.eqb_spec j 0); [contradiction|].
    reflexivity.
Qed.

(** Storing the word [lo + (hi << 8)] made of two bytes puts [lo] in cell 0
    and [hi] in cell 1 and leaves the other cells alone. *)
Lemma set_data_word_bytes (data : mem) (lo hi : Z) :
  0 <= lo < 256 -> 0 <= hi < 256 ->
  let data' := set_data_word data (lo + Z.shiftl hi 8) in
  data' 0 = lo /\ data' 1 = hi /\
  data_word data' = lo + 256 * hi /\
  (forall j, j <> 0 -> j <> 1 -> data' j = data j).
Proof.
  intros Hlo Hhi data'. subst data'.
  assert (Hv : lo + Z.shiftl hi 8 = lo + 256 * hi).
  { rewrite Z.shiftl_mul_pow2 by lia. change (2 ^ 8) with 256. lia. }
  assert (H0 : set_data_word data (lo + Z.shiftl hi 8) 0 = lo).
  { unfold set_data_word, store. cbn [Z.eqb]. rewrite Hv. unfold u8.
    Z.div_mod_to_equations. lia. }
  assert (H1 : set_data_word data (lo + Z.shiftl hi 8) 1 = hi).
  { unfold set_data_word, store. cbn [Z.eqb Pos.eqb].
    rewrite Hv, Z.shiftr_div_pow2 by lia. change (2 ^ 8) with 256.
    unfold u16. Z.div_mod_to_equations. lia. }
  split; [exact H0 | split; [exact H1 | split]].
  - unfold data_word. rewrite H0, H1. reflexivity.
  - intros j Hj0 Hj1. unfold set_data_word, store.
    destruct (Z.eqb_spec j 1); [contradiction|].
    destruct (Z.eqb_spec j 0); [contradiction | reflexivity].
Qed.

(** The run of a word-data read whose transaction succeeds, by the order of
    the two reads. *)
Lemma osb4_access_read_word_run
    (addr flags read_write command : Z) (data : mem) (tr : trace) :
  NoDup (case_labels K) ->
  read_write <> I2C_SMBUS_WRITE K ->
  let tr1 := tr ++ [EvOut (addr_byte addr read_write) ADD;
                    EvOut (u8 command) CMD;
                    EvOut OSB4_WORD_DATA CNT] in
  fst (osb4_transaction dev osb4_smba DEBUG tr1) = 0 ->
  let tr2 := snd (osb4_transaction dev osb4_smba DEBUG tr1) in
  osb4_access dev osb4_smba DEBUG K word_order addr flags read_write command
    (I2C_SMBUS_WORD_DATA K) data tr =
  match word_order with
  | LeftFirst =>
      let lo := u8 (dev tr2 DAT0) in
      let hi := u8 (dev (tr2 ++ [EvIn DAT0 lo]) DAT1) in
      ((0, set_data_word data (lo + Z.shiftl hi 8)),
       tr2 ++ [EvIn DAT0 lo; EvIn DAT1 hi])
  | RightFirst =>
      let hi := u8 (dev tr2 DAT1) in
      let lo := u8 (dev (tr2 ++ [EvIn DAT1 hi]) DAT0) in
      ((0, set_data_word data (lo + Z.shiftl hi 8)),
       tr2 ++ [EvIn DAT1 hi; EvIn DAT0 lo])
  end.
Proof.
  intros Hnd Hrw tr1 Hok tr2.
  rewrite osb4_access_run. subst tr2 tr1.
  destruct (osb4_load_table addr read_write command data tr Hnd)
    as (_ & _ & _ & Hwd).
  destruct (Z.eqb_spec read_write (I2C_SMBUS_WRITE K)); [contradiction|].
  rewrite Hwd. cbn zeta.
  change (u8 (Z.land OSB4_WORD_DATA 28 + Z.land ENABLE_INT9 1))
    with OSB4_WORD_DATA.
  rewrite <- app_assoc. cbn [app].
  destruct (osb4_transaction _ _ _ _) as [err tr3]. cbn [fst snd] in *.
  subst err. cbn [nonzero Z.eqb negb orb]. unfold osb4_read_back.
  change (OSB4_WORD_DATA =? OSB4_QUICK) with false.
  change (OSB4_WORD_DATA =? OSB4_BYTE) with false.
  change (OSB4_WORD_DATA =? OSB4_BYTE_DATA) with false.
  change (OSB4_WORD_DATA =? OSB4_WORD_DATA) with true.
  destruct word_order; io_unfold; cbv beta iota zeta;
    rewrite <- app_assoc; reflexivity.
Qed.

(** A word-data read whose transaction succeeds reads data0 once and data1
    once, in the order the compiler chose for the operands of the [+], and
    stores the word [data0 + (data1 << 8)]: in either order the byte read
    from data0 becomes the low byte of [data->word] and the byte read from
    data1 its high byte. *)
Theorem osb4_access_read_word
    (addr flags read_write command : Z) (data : mem) (tr : trace) :
  NoDup (case_labels K) ->
  read_write <> I2C_SMBUS_WRITE K ->
  let tr1 := tr ++ [EvOut (addr_byte addr read_write) ADD;
                    EvOut (u8 command) CMD;
                    EvOut OSB4_WORD_DATA CNT] in
  fst (osb4_transaction dev osb4_smba DEBUG tr1) = 0 ->
  let tr2 := snd (osb4_transaction dev osb4_smba DEBUG tr1) in
  exists lo hi data',
    osb4_access dev osb4_smba DEBUG K word_order addr flags read_write command
      (I2C_SMBUS_WORD_DATA K) data tr =
    ((0, data'),
     tr2 ++ match word_order with
            | LeftFirst => [EvIn DAT0 lo; EvIn DAT1 hi]
            | RightFirst => [EvIn DAT1 hi; EvIn DAT0 lo]
            end) /\
    match word_order with
    | LeftFirst =>
        lo = u8 (dev tr2 DAT0) /\ hi = u8 (dev (tr2 ++ [EvIn DAT0 lo]) DAT1)
    | RightFirst =>
        hi = u8 (dev tr2 DAT1) /\ lo = u8 (dev (tr2 ++ [EvIn DAT1 hi]) DAT0)
    end /\
    data' 0 = lo /\ data' 1 = hi /\
    data_word data' = lo + 256 * hi /\
    (forall j, j <> 0 -> j <> 1 -> data' j = data j).
Proof.
  intros Hnd Hrw tr1 Hok tr2.
  pose proof (osb4_access_read_word_run addr flags read_write command data tr
                Hnd Hrw Hok) as Hrun.
  fold tr1 tr2 in Hrun. clearbody tr2. clear Hok.
  destruct word_order; cbv zeta in Hrun;
    match type of Hrun with
    | _ = (_, set_data_word _ (?l + Z.shiftl ?h 8), _) =>
        exists l, h, (set_data_word data (l + Z.shiftl h 8));
        split; [exact Hrun|]; split; [split; reflexivity|];
        apply set_data_word_bytes; apply u8_range
    end.
Qed.

(** A quick command, in either direction, loads the address byte and the
    size code and runs the transaction; it reads nothing back, leaves
    [data] alone, and writes neither the command code nor a data
    register. *)
Theorem osb4_access_quick
    (addr flags read_write command : Z) (data : mem) (tr : trace) :
  NoDup (case_labels K) ->
  let tr1 := tr ++ [EvOut (addr_byte addr read_write) ADD;
                    EvOut OSB4_QUICK CNT] in
  let tx := osb4_transaction dev osb4_smba DEBUG tr1 in
  osb4_access dev osb4_smba DEBUG K word_order addr flags read_write command
    (I2C_SMBUS_QUICK K) data tr =
  ((if nonzero (fst tx) then -1 else 0, data), snd tx) /\
  exists evs,
    snd tx = tr ++ evs /\
    writes_to CMD evs = [] /\ writes_to DAT0 evs = [] /\
    writes_to DAT1 evs = [] /\ writes_to BLKDAT evs = [].
Proof.
  intros Hnd tr1 tx. split.
  - rewrite osb4_access_run.
    destruct (osb4_load_table addr read_write command data tr Hnd)
      as (Hq & _).
    rewrite Hq. cbn zeta.
    change (u8 (Z.land OSB4_QUICK 28 + Z.land ENABLE_INT9 1)) with OSB4_QUICK.
    rewrite <- app_assoc. cbn [app]. fold tr1. fold tx.
    destruct tx as [err tr3]. cbn [fst snd].
    destruct (nonzero err); [reflexivity|].
    change (OSB4_QUICK =? OSB4_QUICK) with true. rewrite orb_true_r.
    reflexivity.
  - subst tx.
    destruct (osb4_transaction_extends dev osb4_smba DEBUG tr1)
      as (evs & He & _ & Hw & _).
    exists ([EvOut (addr_byte addr read_write) ADD; EvOut OSB4_QUICK CNT]
            ++ evs).
    split; [rewrite He; unfold tr1; rewrite <- app_assoc; reflexivity|].
    rewrite !writes_to_app.
    rewrite !Hw by (unfold SMBHSTCMD, SMBHSTDAT0, SMBHSTDAT1, SMBBLKDAT,
                      SMBHSTSTS, SMBHSTCNT; lia).
    cbn [writes_to app]. ports. repeat split; reflexivity.
Qed.

(** Against a controller whose status register reads 0, every transaction
    succeeds. *)
Lemma osb4_transaction_quiet (tr : trace) :
  (forall t, u8 (dev t STS) = 0) ->
  fst (osb4_transaction dev osb4_smba DEBUG tr) = 0.
Proof.
  intros Hsts. rewrite osb4_transaction_run. cbn zeta.
  rewrite osb4_busy_check_run. cbn zeta. rewrite Hsts.
  cbn [nonzero Z.eqb negb]. rewrite osb4_start_run. cbn zeta. cbn [snd].
  rewrite osb4_poll_step. cbn zeta. rewrite Hsts.
  cbn [Z.land nonzero Z.eqb negb fst]. unfold osb4_result.
  destruct DEBUG; reflexivity.
Qed.

Lemma last_snoc (l : list Z) (x d : Z) : last (l ++ [x]) d = x.
Proof. apply last_last. Qed.

(** Round trip.  Against a controller whose status register reads 0 and
    whose data0 and data1 read back the last byte written to them, a
    word-data write of [data->word] followed by a word-data read gives the
    reader the same word. *)
Theorem osb4_word_round_trip
    (addr flags command addr' flags' read_write' command' : Z)
    (data data2 : mem) (tr : trace) :
  NoDup (case_labels K) ->
  (forall t, u8 (dev t STS) = 0) ->
  (forall t, dev t DAT0 = last (writes_to DAT0 t) 0) ->
  (forall t, dev t DAT1 = last (writes_to DAT1 t) 0) ->
  0 <= data_word data < 65536 ->
  read_write' <> I2C_SMBUS_WRITE K ->
  let r1 := osb4_access dev osb4_smba DEBUG K word_order addr flags
      (I2C_SMBUS_WRITE K)
              command (I2C_SMBUS_WORD_DATA K) data tr in
  let r2 := osb4_access dev osb4_smba DEBUG K word_order addr' flags'
      read_write'
              command' (I2C_SMBUS_WORD_DATA K) data2 (snd r1) in
  fst (fst r1) = 0 /\ fst (fst r2) = 0 /\
  data_word (snd (fst r2)) = data_word data.
Proof.
  intros Hnd Hsts Hd0 Hd1 Hw Hrw r1 r2.
  set (lo := data_word data mod 256). set (hi := data_word data / 256 mod 256).
  assert (H1 : fst (fst r1) = 0 /\
               exists evs, snd r1 = tr ++ evs /\
                           writes_to DAT0 evs = [lo] /\
                           writes_to DAT1 evs = [hi]).
  { subst r1. rewrite osb4_access_run.
    destruct (osb4_load_table addr (I2C_SMBUS_WRITE K) command data tr Hnd)
      as (_ & _ & _ & Hwd).
    rewrite Z.eqb_refl in Hwd. rewrite Hwd. cbn zeta. fold lo hi.
    match goal with |- context [osb4_transaction _ _ _ ?t] =>
      pose proof (osb4_transaction_quiet t Hsts) as Hok;
      destruct (osb4_transaction_extends dev osb4_smba DEBUG t)
        as (evs & He & _ & Hwr & _);
      destruct (osb4_transaction dev osb4_smba DEBUG t) as [err tr3]
    end.
    cbn [fst snd] in *. subst err tr3. cbn [nonzero Z.eqb negb].
    rewrite Z.eqb_refl. cbn [orb fst snd]. split; [reflexivity|].
    eexists. rewrite <- !app_assoc. split; [reflexivity|].
    rewrite !writes_to_app.
    rewrite !Hwr by (unfold SMBHSTDAT0, SMBHSTDAT1, SMBHSTSTS, SMBHSTCNT; lia).
    cbn [writes_to app]. ports. split; reflexivity. }
  destruct H1 as (Hres1 & evs1 & He1 & Hw0 & Hw1).
  split; [exact Hres1|].
  pose proof (osb4_access_read_word_run addr' flags' read_write' command'
                data2 (snd r1) Hnd Hrw (osb4_transaction_quiet _ Hsts))
    as Hrun.
  cbv zeta in Hrun.
  match type of Hrun with context [osb4_transaction _ _ _ ?t] =>
    destruct (osb4_transaction_extends dev osb4_smba DEBUG t)
      as (evs2 & He2 & _ & Hwr2 & _)
  end.
  assert (Hl0 : forall e, writes_to DAT0 e = [] ->
    last (writes_to DAT0
            ((((tr ++ evs1) ++
               [EvOut (addr_byte addr' read_write') ADD;
                EvOut (u8 command') CMD; EvOut OSB4_WORD_DATA CNT]) ++ evs2)
             ++ e)) 0 = lo).
  { intros e Hwe. rewrite !writes_to_app, Hw0, Hwe.
    rewrite Hwr2 by (unfold SMBHSTDAT0, SMBHSTSTS, SMBHSTCNT; lia).
    cbn [writes_to]. ports. rewrite !app_nil_r. apply last_snoc. }
  assert (Hl1 : forall e, writes_to DAT1 e = [] ->
    last (writes_to DAT1
            ((((tr ++ evs1) ++
               [EvOut (addr_byte addr' read_write') ADD;
                EvOut (u8 command') CMD; EvOut OSB4_WORD_DATA CNT]) ++ evs2)
             ++ e)) 0 = hi).
  { intros e Hwe. rewrite !writes_to_app, Hw1, Hwe.
    rewrite Hwr2 by (unfold SMBHSTDAT1, SMBHSTSTS, SMBHSTCNT; lia).
    cbn [writes_to]. ports. rewrite !app_nil_r. apply last_snoc. }
  pose proof (Hl0 [] eq_refl) as Hl0n. rewrite app_nil_r in Hl0n.
  pose proof (Hl1 [] eq_refl) as Hl1n. rewrite app_nil_r in Hl1n.
  subst r2. rewrite Hrun. clear Hrun.
  destruct word_order; cbn [fst snd]; (split; [reflexivity|]);
    match goal with |- data_word (set_data_word _ (?l + Z.shiftl ?h 8)) = _ =>
      destruct (set_data_word_bytes data2 l h (u8_range _) (u8_range _))
        as (_ & _ & Hword & _)
    end;
    rewrite Hword, He2, He1, !Hd0, !Hd1;
    rewrite ?Hl0 by reflexivity; rewrite ?Hl1 by reflexivity;
    rewrite ?Hl0n, ?Hl1n;
    subst lo hi; unfold u8; Z.div_mod_to_equations; lia.
Qed.

End DataRegisters.

(** The read theorem at a byte-data read. *)
Lemma osb4_access_read_writes_no_data_witness :
  exists evs,
    snd (osb4_access dev_idle 0 false linux_i2c_h LeftFirst 0x48 0 1 0 2 zeros
        []) =
    [] ++ evs /\
    writes_to 5 evs = [] /\ writes_to 6 evs = [] /\ writes_to 7 evs = [].
Proof.
  apply (osb4_access_read_writes_no_data dev_idle 0 false linux_i2c_h LeftFirst
           0x48 0 1 0 2 zeros []).
  discriminate.
Defined.

(** The byte read theorem at a byte-data read from address 0x48 with
    command 0, against a controller whose data0 holds 0x40. *)
Lemma osb4_access_read_byte_witness :
  fst (fst (osb4_access dev_block40 0 false linux_i2c_h LeftFirst 0x48 0 1 0 2
      zeros []))
    = 0 /\
  data_byte
    (snd (fst (osb4_access dev_block40 0 false linux_i2c_h LeftFirst 0x48 0 1 0
        2
                 zeros []))) = 40.
Proof.
  destruct (osb4_access_read_byte dev_block40 0 false linux_i2c_h LeftFirst
              0x48 0 1 0 2 OSB4_BYTE_DATA zeros [] linux_labels_distinct
              (or_intror (or_introl eq_refl)) ltac:(discriminate) eq_refl)
    as (Hrun & Hb & _).
  rewrite Hrun. cbn [fst snd]. split; [reflexivity | exact Hb].
Defined.

(** The round trip of the word 0x1234 through a controller that keeps what
    is written to its data registers. *)
Lemma osb4_word_round_trip_witness :
  let data := fun j => if j =? 0 then 0x34 else if j =? 1 then 0x12 else 0 in
  let r1 := osb4_access dev_quiet 0 false linux_i2c_h LeftFirst 0x50 0 0 0x10 3
      data [] in
  let r2 := osb4_access dev_quiet 0 false linux_i2c_h LeftFirst 0x50 0 1 0x10 3
      zeros
              (snd r1) in
  fst (fst r1) = 0 /\ fst (fst r2) = 0 /\
  data_word (snd (fst r2)) = 0x1234.
Proof.
  exact (osb4_word_round_trip dev_quiet 0 false linux_i2c_h LeftFirst
           0x50 0 0x10 0x50 0 1 0x10
           (fun j => if j =? 0 then 0x34 else if j =? 1 then 0x12 else 0)
           zeros [] linux_labels_distinct
           (fun _ => eq_refl) (fun _ => eq_refl) (fun _ => eq_refl)
           ltac:(cbn; lia) ltac:(discriminate)).
Defined.

(** The word read theorem, for each order of the two reads, against a
    controller whose data0 reads 0x34 and whose data1 reads 0x12: the word
    is 0x1234 in both, and the reads end the trace in the order chosen. *)
Lemma osb4_access_read_word_witness :
  let tr2 :=
    snd (osb4_transaction dev_word 0 false
           ([] ++ [EvOut (addr_byte 0x50 1) 4; EvOut (u8 0x10) 3;
                   EvOut OSB4_WORD_DATA 2])) in
  (exists data',
     osb4_access dev_word 0 false linux_i2c_h LeftFirst 0x50 0 1 0x10 3
       zeros [] = ((0, data'), tr2 ++ [EvIn 5 0x34; EvIn 6 0x12]) /\
     data_word data' = 0x1234) /\
  (exists data',
     osb4_access dev_word 0 false linux_i2c_h RightFirst 0x50 0 1 0x10 3
       zeros [] = ((0, data'), tr2 ++ [EvIn 6 0x12; EvIn 5 0x34]) /\
     data_word data' = 0x1234).
Proof.
  intros tr2. split.
  - destruct (osb4_access_read_word dev_word 0 false linux_i2c_h LeftFirst
                0x50 0 1 0x10 zeros [] linux_labels_distinct
                ltac:(discriminate) eq_refl)
      as (lo & hi & data' & Hrun & [Hlo Hhi] & _ & _ & Hword & _).
    subst lo hi. exists data'. split; [exact Hrun | exact Hword].
  - destruct (osb4_access_read_word dev_word 0 false linux_i2c_h RightFirst
                0x50 0 1 0x10 zeros [] linux_labels_distinct
                ltac:(discriminate) eq_refl)
      as (lo & hi & data' & Hrun & [Hhi Hlo] & _ & _ & Hword & _).
    subst hi lo. exists data'. split; [exact Hrun | exact Hword].
Defined.

(** The quick theorem at a quick write to address 0x50. *)
Lemma osb4_access_quick_witness :
  osb4_access dev_idle 0 false linux_i2c_h LeftFirst 0x50 0 0 0 0 zeros [] =
  ((0, zeros),
   [EvOut 0xA0 4; EvOut 0 2; EvIn 0 0; EvIn 2 0; EvOut 0x40 2;
    EvPause 1; EvIn 0 0; EvIn 0 0; EvIn 0 0]).
Proof.
  destruct (osb4_access_quick dev_idle 0 false linux_i2c_h LeftFirst 0x50 0 0 0
      zeros []
              linux_labels_distinct) as [Hrun _].
  exact (eq_trans Hrun eq_refl).
Defined.

(** The waiting theorem at an idle controller and at one whose status never
    clears. *)
Lemma osb4_transaction_waits_first_witness :
  (exists cnt sts rest,
     snd (osb4_transaction dev_idle 0 false []) =
     [EvIn 0 0] ++ [EvIn 2 cnt; EvOut (u8 (Z.lor cnt 0x040)) 2;
                    EvPause 1; EvIn 0 sts] ++ rest) /\
  osb4_transaction dev_wedged 0 false [] =
    (-1, [EvIn 0 0x02; EvOut 0x02 0; EvIn 0 0x02]).
Proof.
  split.
  - apply (proj1 (osb4_transaction_waits_first dev_idle 0 false []
                    [EvIn 0 0])).
    reflexivity.
  - apply (proj2 (osb4_transaction_waits_first dev_wedged 0 false []
                    [EvIn 0 0x02; EvOut 0x02 0; EvIn 0 0x02])).
    reflexivity.
Defined.

(** The result theorem at a byte-data write that fails at the busy-check. *)
Lemma osb4_access_result_and_data_witness :
  osb4_access dev_wedged 0 false linux_i2c_h LeftFirst 0x50 0 0 0 2 block40 [] =
  ((-1, block40),
   [EvOut 0xA0 4; EvOut 0 3; EvOut 40 5; EvOut 8 2;
    EvIn 0 2; EvOut 2 0; EvIn 0 2]) /\
  (let '(res, data') :=
     fst (osb4_access dev_wedged 0 false linux_i2c_h LeftFirst 0x50 0 0 0 2
         block40 [])
   in (res = 0 \/ res = -1) /\ data' = block40).
Proof.
  split; [reflexivity|].
  pose proof (osb4_access_result_and_data dev_wedged 0 false linux_i2c_h
      LeftFirst
                0x50 0 0 0 2 block40 []) as H.
  destruct (fst (osb4_access dev_wedged 0 false linux_i2c_h LeftFirst 0x50 0 0
      0 2
                   block40 [])) as [res data'].
  destruct H as (Hr & Hw & _). split; [exact Hr | apply Hw; reflexivity].
Defined.

(** The procedure-call theorem at a procedure call and at a size that is no
    label of the switch. *)
Lemma osb4_access_proc_call_witness :
  osb4_access dev_idle 0 false linux_i2c_h LeftFirst 0x50 0 0 0 4 block40 [] =
    ((-1, block40), []) /\
  exists evs v,
    snd (osb4_access dev_idle 0 false linux_i2c_h LeftFirst 0x50 0 0 0 9
        block40 []) =
    [] ++ evs /\ In (EvOut v 2) evs.
Proof.
  split.
  - apply (proj1 (osb4_access_proc_call dev_idle 0 false linux_i2c_h LeftFirst
                    0x50 0 0 0 4 block40 [])).
    reflexivity.
  - apply (proj2 (osb4_access_proc_call dev_idle 0 false linux_i2c_h LeftFirst
                    0x50 0 0 0 9 block40 [])).
    discriminate.
Defined.
